(** * School key and projector loans: schema, row-level security and workflow

    A shallow embedding of the loan portal:
    - the relational schema and its row-level-security policies
      (supabase/migrations/20251106232919_....sql);
    - the borrow-request form of the item page (src/pages/Items.tsx,
      [handleBorrowRequest]);
    - the approve/reject handler of the request page (second component of
      src/pages/Dashboard.tsx, [handleApproveReject]);
    - the read paths of the dashboard ([fetchStats], [fetchRecentRequests]),
      of the request page ([fetchRequests]), of the item page ([fetchItems],
      [filterItems]) and of the report page (src/pages/Reports.tsx,
      [fetchReportData] with its three tables and the percentage cells);
    - the menu of src/components/DashboardLayout.tsx, the sign-up trigger
      [handle_new_user] and the data of the seeding function.

    Timestamps ([TIMESTAMP WITH TIME ZONE], JavaScript [Date]) are instants,
    milliseconds since the epoch, in [Z].  UUIDs and texts are strings; a
    uuid is held as PostgreSQL prints it, and a text that is compared with
    a uuid column is read by [uuid_in].  [new Date(s)] is computed for the
    values of the date and time control and left to the browser for every
    other text.  JavaScript numbers that are computed with are binary64 values
    ([SpecFloat], precision 53, emax 1024). *)

From Stdlib Require Import ZArith List Bool String Ascii Lia.
From Stdlib Require Import Floats.SpecFloat.
From Stdlib Require Import Permutation Sorted DecimalString.
Import ListNotations.

Local Open Scope string_scope.
Local Open Scope list_scope.
Local Open Scope Z_scope.

(* ------------------------------------------------------------------ *)
(** ** Enumerated types of the schema *)

(** [CREATE TYPE public.app_role AS ENUM ('admin', 'guru', 'siswa')] *)
Inductive app_role := admin | guru | siswa.

(** [CREATE TYPE public.item_status AS ENUM
     ('tersedia', 'dipinjam', 'overdue', 'rusak')] *)
Inductive item_status := tersedia | dipinjam | overdue | rusak.

(** [CREATE TYPE public.request_status AS ENUM
     ('pending', 'approved', 'rejected', 'returned')] *)
Inductive request_status := pending | approved | rejected | returned.

(** [CREATE TYPE public.jurusan AS ENUM ('trkj', 'ti', 'trmm')] *)
Inductive jurusan := trkj | ti | trmm.

Definition uuid := string.
Definition timestamptz := Z.

Definition app_role_eqb (a b : app_role) : bool :=
  match a, b with
  | admin, admin | guru, guru | siswa, siswa => true
  | _, _ => false
  end.

Definition item_status_eqb (a b : item_status) : bool :=
  match a, b with
  | tersedia, tersedia | dipinjam, dipinjam
  | overdue, overdue | rusak, rusak => true
  | _, _ => false
  end.

Definition request_status_eqb (a b : request_status) : bool :=
  match a, b with
  | pending, pending | approved, approved
  | rejected, rejected | returned, returned => true
  | _, _ => false
  end.

(** SQL and JavaScript comparison of a nullable column with a literal:
    [NULL = x] is not true, [null === 'x'] is false. *)
Definition is_value {A} (eqb : A -> A -> bool) (o : option A) (v : A) : bool :=
  match o with
  | Some a => eqb a v
  | None => false
  end.

(** Comparison of two nullable values, SQL [=]: true only when both are
    present and equal. *)
Definition sql_eq {A} (eqb : A -> A -> bool) (x y : option A) : bool :=
  match x, y with
  | Some a, Some b => eqb a b
  | _, _ => false
  end.

Definition mem_string (s : string) (l : list string) : bool :=
  existsb (String.eqb s) l.

(** No value occurs twice ([PRIMARY KEY], [UNIQUE]). *)
Fixpoint unique {A} (eqb : A -> A -> bool) (l : list A) : bool :=
  match l with
  | [] => true
  | x :: l' => negb (existsb (eqb x) l') && unique eqb l'
  end.

(** The values of a nullable column that are not NULL (a [UNIQUE]
    constraint ignores NULLs). *)
Fixpoint present {A} (l : list (option A)) : list A :=
  match l with
  | [] => []
  | Some a :: l' => a :: present l'
  | None :: l' => present l'
  end.

(* ------------------------------------------------------------------ *)
(** ** Tables *)

Module profiles.
Record row := mk {
  id : uuid;
  full_name : string;
  email : string;
  nim_nip : option string;
  jurusan : option jurusan;
  kelas : option string;
  angkatan : option Z;
  created_at : option timestamptz;
  updated_at : option timestamptz
}.

Definition touch (now : timestamptz) (r : row) : row :=
  mk (id r) (full_name r) (email r) (nim_nip r) (jurusan r) (kelas r)
     (angkatan r) (created_at r) (Some now).
End profiles.

Module user_roles.
Record row := mk {
  id : uuid;
  user_id : uuid;
  role : app_role;
  created_at : option timestamptz
}.
End user_roles.

Module items.
Record row := mk {
  id : uuid;
  name : string;
  type : string;
  room_name : string;
  status : option item_status;
  condition_notes : option string;
  created_at : option timestamptz;
  updated_at : option timestamptz
}.

Definition set_status (s : option item_status) (r : row) : row :=
  mk (id r) (name r) (type r) (room_name r) s (condition_notes r)
     (created_at r) (updated_at r).

Definition touch (now : timestamptz) (r : row) : row :=
  mk (id r) (name r) (type r) (room_name r) (status r) (condition_notes r)
     (created_at r) (Some now).
End items.

Module borrowing_requests.
Record row := mk {
  id : uuid;
  item_id : uuid;
  borrower_id : uuid;
  purpose : string;
  requested_at : option timestamptz;
  start_time : timestamptz;
  end_time : timestamptz;
  status : option request_status;
  approved_by : option uuid;
  approved_at : option timestamptz;
  approval_notes : option string;
  returned_at : option timestamptz;
  return_condition : option string;
  created_at : option timestamptz;
  updated_at : option timestamptz
}.

(** The columns written by the approve/reject handler. *)
Definition set_decision (s : request_status) (by_ : uuid)
    (at_ : timestamptz) (notes : string) (r : row) : row :=
  mk (id r) (item_id r) (borrower_id r) (purpose r) (requested_at r)
     (start_time r) (end_time r) (Some s) (Some by_) (Some at_) (Some notes)
     (returned_at r) (return_condition r) (created_at r) (updated_at r).

Definition touch (now : timestamptz) (r : row) : row :=
  mk (id r) (item_id r) (borrower_id r) (purpose r) (requested_at r)
     (start_time r) (end_time r) (status r) (approved_by r) (approved_at r)
     (approval_notes r) (returned_at r) (return_condition r) (created_at r)
     (Some now).

(** The row an INSERT of the five mandatory columns makes: [id DEFAULT
    uuid_generate_v4()], [requested_at], [created_at] and [updated_at
    DEFAULT NOW()], [status DEFAULT 'pending'], the other columns NULL. *)
Definition inserted (fresh : uuid) (now : timestamptz)
    (item_id_ borrower_id_ : uuid) (purpose_ : string)
    (start_time_ end_time_ : timestamptz) : row :=
  mk fresh item_id_ borrower_id_ purpose_ (Some now) start_time_ end_time_
     (Some pending) None None None None None (Some now) (Some now).
End borrowing_requests.

Module activity_logs.
Record row := mk {
  id : uuid;
  request_id : uuid;
  action : string;
  performed_by : uuid;
  notes : option string;
  created_at : option timestamptz
}.

(** The row an INSERT of the four written columns makes: [id DEFAULT
    uuid_generate_v4()], [created_at DEFAULT NOW()]. *)
Definition inserted (fresh : uuid) (now : timestamptz) (request_id_ : uuid)
    (action_ : string) (performed_by_ : uuid) (notes_ : option string)
  : row :=
  mk fresh request_id_ action_ performed_by_ notes_ (Some now).
End activity_logs.

Record database := mkdb {
  tbl_profiles : list profiles.row;
  tbl_user_roles : list user_roles.row;
  tbl_items : list items.row;
  tbl_borrowing_requests : list borrowing_requests.row;
  tbl_activity_logs : list activity_logs.row
}.

(* ------------------------------------------------------------------ *)
(** ** Integrity constraints of the schema

    [PRIMARY KEY], [UNIQUE] and [REFERENCES] as declared by the migration.
    [NOT NULL] is carried by the column types.  The reference of
    [profiles.id] to [auth.users] leaves the public schema and is not
    modelled. *)

Definition profile_ids (db : database) : list uuid :=
  map profiles.id (tbl_profiles db).
Definition item_ids (db : database) : list uuid :=
  map items.id (tbl_items db).
Definition request_ids (db : database) : list uuid :=
  map borrowing_requests.id (tbl_borrowing_requests db).

Definition role_key_eqb (a b : uuid * app_role) : bool :=
  String.eqb (fst a) (fst b) && app_role_eqb (snd a) (snd b).

Definition primary_keys (db : database) : bool :=
  unique String.eqb (profile_ids db)
  && unique String.eqb (map user_roles.id (tbl_user_roles db))
  && unique String.eqb (item_ids db)
  && unique String.eqb (request_ids db)
  && unique String.eqb (map activity_logs.id (tbl_activity_logs db)).

Definition unique_keys (db : database) : bool :=
  unique String.eqb (map profiles.email (tbl_profiles db))
  && unique String.eqb (present (map profiles.nim_nip (tbl_profiles db)))
  && unique role_key_eqb
       (map (fun r => (user_roles.user_id r, user_roles.role r))
            (tbl_user_roles db)).

Definition request_refs (db : database) (r : borrowing_requests.row) : bool :=
  mem_string (borrowing_requests.item_id r) (item_ids db)
  && mem_string (borrowing_requests.borrower_id r) (profile_ids db)
  && match borrowing_requests.approved_by r with
     | Some a => mem_string a (profile_ids db)
     | None => true
     end.

Definition log_refs (db : database) (l : activity_logs.row) : bool :=
  mem_string (activity_logs.request_id l) (request_ids db)
  && mem_string (activity_logs.performed_by l) (profile_ids db).

Definition foreign_keys (db : database) : bool :=
  forallb (fun r => mem_string (user_roles.user_id r) (profile_ids db))
          (tbl_user_roles db)
  && forallb (request_refs db) (tbl_borrowing_requests db)
  && forallb (log_refs db) (tbl_activity_logs db).

Definition integrity (db : database) : bool :=
  primary_keys db && unique_keys db && foreign_keys db.

(* ------------------------------------------------------------------ *)
(** ** Row-level security *)

Inductive command := SELECT | INSERT | UPDATE | DELETE.

Definition command_eqb (a b : command) : bool :=
  match a, b with
  | SELECT, SELECT | INSERT, INSERT | UPDATE, UPDATE | DELETE, DELETE => true
  | _, _ => false
  end.

Inductive policy_for := FOR_ALL | FOR (c : command).

(** A policy expression sees the database (for [has_role]), the caller
    [auth.uid()] (NULL when nobody is signed in) and the row. *)
Definition policy_expr (R : Type) := database -> option uuid -> R -> bool.

Record policy (R : Type) := mkpolicy {
  policy_name : string;
  policy_cmd : policy_for;
  USING : option (policy_expr R);
  WITH_CHECK : option (policy_expr R)
}.
Arguments mkpolicy {R}.
Arguments policy_name {R}.
Arguments policy_cmd {R}.
Arguments USING {R}.
Arguments WITH_CHECK {R}.

(** [public.has_role(_user_id, _role)]:
    [SELECT EXISTS (SELECT 1 FROM public.user_roles
                    WHERE user_id = _user_id AND role = _role)] *)
Definition has_role (db : database) (_user_id : option uuid)
    (_role : app_role) : bool :=
  existsb (fun r =>
             sql_eq String.eqb (Some (user_roles.user_id r)) _user_id
             && app_role_eqb (user_roles.role r) _role)
          (tbl_user_roles db).

Definition policies_profiles : list (policy profiles.row) :=
  [ mkpolicy "Users can view all profiles" (FOR SELECT)
      (Some (fun _ _ _ => true)) None;
    mkpolicy "Users can update own profile" (FOR UPDATE)
      (Some (fun _ uid r => sql_eq String.eqb uid (Some (profiles.id r))))
      None ].

Definition policies_user_roles : list (policy user_roles.row) :=
  [ mkpolicy "Users can view all roles" (FOR SELECT)
      (Some (fun _ _ _ => true)) None;
    mkpolicy "Only admins can manage roles" FOR_ALL
      (Some (fun db uid _ => has_role db uid admin)) None ].

Definition policies_items : list (policy items.row) :=
  [ mkpolicy "Everyone can view items" (FOR SELECT)
      (Some (fun _ _ _ => true)) None;
    mkpolicy "Admin and guru can manage items" FOR_ALL
      (Some (fun db uid _ => has_role db uid admin || has_role db uid guru))
      None ].

Definition policies_borrowing_requests
  : list (policy borrowing_requests.row) :=
  [ mkpolicy "Users can view own requests and all if admin/guru" (FOR SELECT)
      (Some (fun db uid r =>
               sql_eq String.eqb (Some (borrowing_requests.borrower_id r)) uid
               || has_role db uid admin
               || has_role db uid guru))
      None;
    mkpolicy "Users can create their own requests" (FOR INSERT)
      None
      (Some (fun _ uid r =>
               sql_eq String.eqb (Some (borrowing_requests.borrower_id r)) uid));
    mkpolicy "Admin and guru can update requests" (FOR UPDATE)
      (Some (fun db uid _ => has_role db uid admin || has_role db uid guru))
      None ].

Definition policies_activity_logs : list (policy activity_logs.row) :=
  [ mkpolicy "Everyone can view activity logs" (FOR SELECT)
      (Some (fun _ _ _ => true)) None;
    mkpolicy "System can create activity logs" (FOR INSERT)
      None (Some (fun _ _ _ => true)) ].

Section RowSecurity.
Context {R : Type}.
Variable ps : list (policy R).
Variable db : database.
Variable uid : option uuid.

Definition applies (p : policy R) (c : command) : bool :=
  match policy_cmd p with
  | FOR_ALL => true
  | FOR c' => command_eqb c' c
  end.

(** The row filter of a command: the policies are permissive, so a row
    passes when one applicable policy's USING holds; with no applicable
    policy every row is refused. *)
Definition passes_using (c : command) (r : R) : bool :=
  existsb (fun p => applies p c
                    && match USING p with
                       | Some e => e db uid r
                       | None => true
                       end) ps.

(** The check on a row that is written: WITH CHECK, and USING where the
    policy has no WITH CHECK. *)
Definition passes_check (c : command) (r : R) : bool :=
  existsb (fun p => applies p c
                    && match WITH_CHECK p, USING p with
                       | Some e, _ => e db uid r
                       | None, Some e => e db uid r
                       | None, None => true
                       end) ps.

(** Rows an UPDATE or DELETE with a WHERE clause acts on: they must be
    visible (SELECT policies), pass the command's USING and satisfy the
    clause. *)
Definition acts_on (c : command) (where_ : R -> bool) (r : R) : bool :=
  passes_using SELECT r && passes_using c r && where_ r.

Definition rls_select (rows : list R) : list R :=
  filter (passes_using SELECT) rows.

Definition rls_insert (r : R) (rows : list R) : option (list R) :=
  if passes_check INSERT r then Some (rows ++ [r]) else None.

Definition rls_update (where_ : R -> bool) (set : R -> R) (rows : list R)
  : option (list R) :=
  if forallb (fun r => negb (acts_on UPDATE where_ r)
                       || passes_check UPDATE (set r)) rows
  then Some (map (fun r => if acts_on UPDATE where_ r then set r else r) rows)
  else None.

Definition rls_delete (where_ : R -> bool) (rows : list R) : list R :=
  filter (fun r => negb (acts_on DELETE where_ r)) rows.

End RowSecurity.

(* ------------------------------------------------------------------ *)
(** ** Statements

    A statement is run for a caller ([auth.uid()]) at a time ([NOW()]).
    Row security filters the rows, triggers and cascades are applied, and
    the statement is refused as a whole when the result breaks an integrity
    constraint. *)

Record session := mksession {
  auth_uid : option uuid;
  NOW : timestamptz
}.

Inductive statement :=
| INSERT_INTO_profiles (r : profiles.row)
| UPDATE_profiles (where_ : profiles.row -> bool)
    (set : profiles.row -> profiles.row)
| DELETE_FROM_profiles (where_ : profiles.row -> bool)
| INSERT_INTO_user_roles (r : user_roles.row)
| UPDATE_user_roles (where_ : user_roles.row -> bool)
    (set : user_roles.row -> user_roles.row)
| DELETE_FROM_user_roles (where_ : user_roles.row -> bool)
| INSERT_INTO_items (r : items.row)
| UPDATE_items (where_ : items.row -> bool) (set : items.row -> items.row)
| DELETE_FROM_items (where_ : items.row -> bool)
| INSERT_INTO_borrowing_requests (r : borrowing_requests.row)
| UPDATE_borrowing_requests (where_ : borrowing_requests.row -> bool)
    (set : borrowing_requests.row -> borrowing_requests.row)
| DELETE_FROM_borrowing_requests (where_ : borrowing_requests.row -> bool)
| INSERT_INTO_activity_logs (r : activity_logs.row)
| UPDATE_activity_logs (where_ : activity_logs.row -> bool)
    (set : activity_logs.row -> activity_logs.row)
| DELETE_FROM_activity_logs (where_ : activity_logs.row -> bool).

Inductive pg_error :=
| row_security_violation
| integrity_violation
(** 22P02: a text that is no uuid *)
| invalid_text_representation
(** 22007, 22008: a text that is no timestamp *)
| invalid_datetime_format.

Definition with_profiles (db : database) (t : list profiles.row) :=
  mkdb t (tbl_user_roles db) (tbl_items db) (tbl_borrowing_requests db)
       (tbl_activity_logs db).
Definition with_user_roles (db : database) (t : list user_roles.row) :=
  mkdb (tbl_profiles db) t (tbl_items db) (tbl_borrowing_requests db)
       (tbl_activity_logs db).
Definition with_items (db : database) (t : list items.row) :=
  mkdb (tbl_profiles db) (tbl_user_roles db) t (tbl_borrowing_requests db)
       (tbl_activity_logs db).
Definition with_borrowing_requests (db : database)
    (t : list borrowing_requests.row) :=
  mkdb (tbl_profiles db) (tbl_user_roles db) (tbl_items db) t
       (tbl_activity_logs db).
Definition with_activity_logs (db : database) (t : list activity_logs.row) :=
  mkdb (tbl_profiles db) (tbl_user_roles db) (tbl_items db)
       (tbl_borrowing_requests db) t.

(** Removal of requests, with the [ON DELETE CASCADE] of
    [activity_logs.request_id].  Cascades run with the rights of the table
    owner: row security does not apply to them. *)
Definition drop_requests (dead : borrowing_requests.row -> bool)
    (db : database) : database :=
  let gone :=
    map borrowing_requests.id (filter dead (tbl_borrowing_requests db)) in
  mkdb (tbl_profiles db) (tbl_user_roles db) (tbl_items db)
       (filter (fun r => negb (dead r)) (tbl_borrowing_requests db))
       (filter (fun l => negb (mem_string (activity_logs.request_id l) gone))
               (tbl_activity_logs db)).

(** Removal of items: [borrowing_requests.item_id ... ON DELETE CASCADE]. *)
Definition drop_items (dead : items.row -> bool) (db : database) : database :=
  let gone := map items.id (filter dead (tbl_items db)) in
  drop_requests
    (fun r => mem_string (borrowing_requests.item_id r) gone)
    (with_items db (filter (fun i => negb (dead i)) (tbl_items db))).

(** Removal of profiles: [user_roles.user_id], [borrower_id] and
    [performed_by] cascade; [approved_by] does not, and is left to the
    integrity check. *)
Definition drop_profiles (dead : profiles.row -> bool) (db : database)
  : database :=
  let gone := map profiles.id (filter dead (tbl_profiles db)) in
  drop_requests
    (fun r => mem_string (borrowing_requests.borrower_id r) gone)
    (mkdb (filter (fun p => negb (dead p)) (tbl_profiles db))
          (filter (fun r => negb (mem_string (user_roles.user_id r) gone))
                  (tbl_user_roles db))
          (tbl_items db)
          (tbl_borrowing_requests db)
          (filter (fun l =>
                     negb (mem_string (activity_logs.performed_by l) gone))
                  (tbl_activity_logs db))).

(** The state a statement asks for, [None] when a written row fails the
    policies' check.  [update_updated_at_column] is the BEFORE UPDATE
    trigger of profiles, items and borrowing_requests. *)
Definition candidate (s : session) (q : statement) (db : database)
  : option database :=
  let uid := auth_uid s in
  match q with
  | INSERT_INTO_profiles r =>
      option_map (with_profiles db)
        (rls_insert policies_profiles db uid r (tbl_profiles db))
  | UPDATE_profiles w f =>
      option_map (with_profiles db)
        (rls_update policies_profiles db uid w
           (fun r => profiles.touch (NOW s) (f r)) (tbl_profiles db))
  | DELETE_FROM_profiles w =>
      Some (drop_profiles (acts_on policies_profiles db uid DELETE w) db)
  | INSERT_INTO_user_roles r =>
      option_map (with_user_roles db)
        (rls_insert policies_user_roles db uid r (tbl_user_roles db))
  | UPDATE_user_roles w f =>
      option_map (with_user_roles db)
        (rls_update policies_user_roles db uid w f (tbl_user_roles db))
  | DELETE_FROM_user_roles w =>
      Some (with_user_roles db
              (rls_delete policies_user_roles db uid w (tbl_user_roles db)))
  | INSERT_INTO_items r =>
      option_map (with_items db)
        (rls_insert policies_items db uid r (tbl_items db))
  | UPDATE_items w f =>
      option_map (with_items db)
        (rls_update policies_items db uid w
           (fun r => items.touch (NOW s) (f r)) (tbl_items db))
  | DELETE_FROM_items w =>
      Some (drop_items (acts_on policies_items db uid DELETE w) db)
  | INSERT_INTO_borrowing_requests r =>
      option_map (with_borrowing_requests db)
        (rls_insert policies_borrowing_requests db uid r
           (tbl_borrowing_requests db))
  | UPDATE_borrowing_requests w f =>
      option_map (with_borrowing_requests db)
        (rls_update policies_borrowing_requests db uid w
           (fun r => borrowing_requests.touch (NOW s) (f r))
           (tbl_borrowing_requests db))
  | DELETE_FROM_borrowing_requests w =>
      Some (drop_requests
              (acts_on policies_borrowing_requests db uid DELETE w) db)
  | INSERT_INTO_activity_logs r =>
      option_map (with_activity_logs db)
        (rls_insert policies_activity_logs db uid r (tbl_activity_logs db))
  | UPDATE_activity_logs w f =>
      option_map (with_activity_logs db)
        (rls_update policies_activity_logs db uid w f (tbl_activity_logs db))
  | DELETE_FROM_activity_logs w =>
      Some (with_activity_logs db
              (rls_delete policies_activity_logs db uid w
                 (tbl_activity_logs db)))
  end.

(** Running a statement: the new state and the error reported, if any.  A
    refused statement leaves the database as it was. *)
Definition run (s : session) (q : statement) (db : database)
  : database * option pg_error :=
  match candidate s q db with
  | None => (db, Some row_security_violation)
  | Some db' =>
      if integrity db' then (db', None) else (db, Some integrity_violation)
  end.

(** *** Text compared with a uuid column

    [uuid_in] is PostgreSQL's input function of the type uuid: optional
    braces around sixteen bytes of two hexadecimal digits each, where a
    hyphen may follow a byte of odd index other than the last one, and
    nothing else.  Its result is the text [uuid_out] prints: lower-case
    digits in groups of 8, 4, 4, 4 and 12.  The tables hold their uuids as
    [uuid_out] prints them. *)

Definition isxdigit (c : ascii) : option Z :=
  let n := Z.of_nat (nat_of_ascii c) in
  if (48 <=? n) && (n <=? 57) then Some (n - 48)
  else if (97 <=? n) && (n <=? 102) then Some (n - 87)
  else if (65 <=? n) && (n <=? 70) then Some (n - 55)
  else None.

Definition hex_char (v : Z) : ascii :=
  ascii_of_nat (Z.to_nat (if v <? 10 then 48 + v else 87 + v)).

(** The next [n] bytes, from the byte of index [i] on, and what follows
    them. *)
Fixpoint uuid_bytes (n : nat) (i : Z) (src : string)
  : option (list Z * string) :=
  match n with
  | O => Some ([], src)
  | S n' =>
      match src with
      | String a (String b rest) =>
          match isxdigit a, isxdigit b with
          | Some hi, Some lo =>
              let rest' :=
                match rest with
                | String "-"%char rest'' =>
                    if (i mod 2 =? 1) && (i <? 15) then rest'' else rest
                | _ => rest
                end in
              match uuid_bytes n' (i + 1) rest' with
              | Some (bytes, tail) => Some (16 * hi + lo :: bytes, tail)
              | None => None
              end
          | _, _ => None
          end
      | _ => None
      end
  end.

Fixpoint uuid_out_from (i : Z) (bytes : list Z) : string :=
  match bytes with
  | [] => ""
  | b :: bytes' =>
      let digits :=
        String (hex_char (b / 16))
          (String (hex_char (b mod 16)) (uuid_out_from (i + 1) bytes')) in
      if (i =? 4) || (i =? 6) || (i =? 8) || (i =? 10)
      then String "-"%char digits else digits
  end.

Definition uuid_out (bytes : list Z) : uuid := uuid_out_from 0 bytes.

Definition uuid_in (source : string) : option uuid :=
  let (braces, src) :=
    match source with
    | String "{"%char src => (true, src)
    | _ => (false, source)
    end in
  match uuid_bytes 16 0 src with
  | Some (bytes, tail) =>
      if String.eqb tail (if braces then "}" else "")
      then Some (uuid_out bytes) else None
  | None => None
  end.

(** [supabase.from('items').update(set).eq('id', text)]: the text is read
    as a uuid; a text that is none makes the statement fail. *)
Definition update_items_eq_id (s : session) (text : string)
    (set : items.row -> items.row) (db : database)
  : database * option pg_error :=
  match uuid_in text with
  | Some u => run s (UPDATE_items (fun i => String.eqb (items.id i) u) set) db
  | None => (db, Some invalid_text_representation)
  end.

(** [supabase.from('borrowing_requests').select(...)] as seen by the
    caller. *)
Definition select_borrowing_requests (s : session) (db : database)
  : list borrowing_requests.row :=
  rls_select policies_borrowing_requests db (auth_uid s)
    (tbl_borrowing_requests db).

Definition select_items (s : session) (db : database) : list items.row :=
  rls_select policies_items db (auth_uid s) (tbl_items db).

Definition select_profiles (s : session) (db : database)
  : list profiles.row :=
  rls_select policies_profiles db (auth_uid s) (tbl_profiles db).

Definition select_activity_logs (s : session) (db : database)
  : list activity_logs.row :=
  rls_select policies_activity_logs db (auth_uid s) (tbl_activity_logs db).

(* ------------------------------------------------------------------ *)
(** ** JavaScript dates

    [Date_parse] is [new Date(s)] for the value of a [datetime-local] input:
    the fields of [YYYY-MM-DDTHH:mm] (optionally [:ss]) of a day of the
    calendar, read as local time, when the instant falls in the years 1 to
    9999 (UTC).  [None] says nothing about any other text: what the browser
    makes of it is part of the world the handler runs in ([new_Date]
    below). *)

Definition digit (c : ascii) : option Z :=
  let n := Z.of_nat (nat_of_ascii c) in
  if (48 <=? n) && (n <=? 57) then Some (n - 48) else None.

Fixpoint decimal (s : string) (acc : Z) : option Z :=
  match s with
  | EmptyString => Some acc
  | String c s' =>
      match digit c with
      | Some d => decimal s' (10 * acc + d)
      | None => None
      end
  end.

(** The number written in the [len] characters from position [pos]. *)
Definition field (s : string) (pos len : nat) : option Z :=
  let f := substring pos len s in
  if Nat.eqb (String.length f) len then decimal f 0 else None.

Definition separator (s : string) (pos : nat) (c : string) : bool :=
  String.eqb (substring pos 1 s) c.

Definition is_leap (y : Z) : bool :=
  ((y mod 4 =? 0) && negb (y mod 100 =? 0)) || (y mod 400 =? 0).

Definition days_in_month (y m : Z) : Z :=
  if m =? 2 then (if is_leap y then 29 else 28)
  else if (m =? 4) || (m =? 6) || (m =? 9) || (m =? 11) then 30
  else 31.

(** Days from 1970-01-01 to the given day of the proleptic Gregorian
    calendar. *)
Definition days_from_civil (y m d : Z) : Z :=
  let y' := if m <=? 2 then y - 1 else y in
  let era := y' / 400 in
  let yoe := y' - era * 400 in
  let mp := if 2 <? m then m - 3 else m + 9 in
  let doy := (153 * mp + 2) / 5 + d - 1 in
  let doe := yoe * 365 + yoe / 4 - yoe / 100 + doy in
  era * 146097 + doe - 719468.

Definition ms_per_minute : Z := 60000.
Definition ms_per_day : Z := 86400000.

(** The instants from 0001-01-01T00:00:00.000Z to 9999-12-31T23:59:59.999Z:
    [toISOString] writes them with a year of four digits, and PostgreSQL
    reads that text as a timestamp. *)
Definition year_1 : Z := days_from_civil 1 1 1 * ms_per_day.
Definition year_9999 : Z := days_from_civil 10000 1 1 * ms_per_day - 1.

Definition four_digit_year (t : Z) : bool :=
  (year_1 <=? t) && (t <=? year_9999).

(** [utc_offset_minutes local] is local time minus UTC, in minutes, at the
    local date and time [local] (milliseconds, counted as if it were UTC). *)
Definition make_time (utc_offset_minutes : Z -> Z) (y mo d h mi sec : Z)
  : option Z :=
  if (1 <=? mo) && (mo <=? 12) && (1 <=? d) && (d <=? days_in_month y mo)
     && (h <=? 23) && (mi <=? 59) && (sec <=? 59)
  then
    let local := days_from_civil y mo d * ms_per_day
                 + h * 3600000 + mi * ms_per_minute + sec * 1000 in
    let t := local - utc_offset_minutes local * ms_per_minute in
    if four_digit_year t then Some t else None
  else None.

Definition Date_parse (utc_offset_minutes : Z -> Z) (s : string)
  : option Z :=
  if separator s 4 "-" && separator s 7 "-" && separator s 10 "T"
     && separator s 13 ":"
  then
    match field s 0 4, field s 5 2, field s 8 2, field s 11 2, field s 14 2
    with
    | Some y, Some mo, Some d, Some h, Some mi =>
        if Nat.eqb (String.length s) 16
        then make_time utc_offset_minutes y mo d h mi 0
        else if Nat.eqb (String.length s) 19 && separator s 16 ":"
        then match field s 17 2 with
             | Some sec => make_time utc_offset_minutes y mo d h mi sec
             | None => None
             end
        else None
    | _, _, _, _, _ => None
    end
  else None.

(* ------------------------------------------------------------------ *)
(** ** The world a handler runs in *)

Record world := mkworld {
  (** [(await supabase.auth.getUser()).data.user?.id], also [auth.uid()] *)
  auth_user : option uuid;
  (** [new Date()] in the browser *)
  Date_now : timestamptz;
  (** [NOW()] in the database *)
  db_clock : timestamptz;
  (** the browser's time zone: local time minus UTC, in minutes, at a
      local date and time *)
  utc_offset_minutes : Z -> Z;
  (** the values [uuid_generate_v4()] yields, by order of use *)
  uuid_generate_v4 : nat -> uuid;
  (** [new Date(s)] in the browser for a text [Date_parse] leaves open
      (another format, a day that is not of the calendar, a year outside 1
      to 9999): the time value before [TimeClip], [None] for an Invalid
      Date *)
  Date_parse_other : string -> option Z;
  (** whether the database reads [toISOString()] of an instant outside the
      years 1 to 9999 as a timestamp *)
  timestamptz_in : timestamptz -> bool
}.

(** [TimeClip]: a time value beyond 8.64e15 ms is no date. *)
Definition TimeClip (t : Z) : option timestamptz :=
  if Z.abs t <=? 8640000000000000 then Some t else None.

(** [new Date(s)], [None] for an Invalid Date. *)
Definition new_Date (w : world) (s : string) : option timestamptz :=
  match Date_parse (utc_offset_minutes w) s with
  | Some t => Some t
  | None =>
      match Date_parse_other w s with
      | Some t => TimeClip t
      | None => None
      end
  end.

(** The database takes [new Date(s).toISOString()] of the instant [t] as a
    value of a TIMESTAMPTZ column. *)
Definition timestamptz_accepted (w : world) (t : timestamptz) : bool :=
  four_digit_year t || timestamptz_in w t.

Definition session_of (w : world) : session :=
  mksession (auth_user w) (db_clock w).

(** What the user gets to see of a handler's run. *)
Inductive outcome :=
| toast_error (msg : string)
| toast_success (msg : string)
| return_quietly
| thrown (exn : string).

(** [Array.prototype.sort]: stable, by a comparator ([cmp a b < 0] puts
    [a] first). *)
Fixpoint insert_sorted {A} (cmp : A -> A -> Z) (x : A) (l : list A) : list A :=
  match l with
  | [] => [x]
  | y :: l' =>
      if cmp x y <=? 0 then x :: y :: l' else y :: insert_sorted cmp x l'
  end.

Definition sort {A} (cmp : A -> A -> Z) (l : list A) : list A :=
  fold_right (insert_sorted cmp) [] l.

(** [ORDER BY c DESC]: NULLs first, then decreasing. *)
Definition desc (a b : option timestamptz) : Z :=
  match a, b with
  | None, None => 0
  | None, Some _ => -1
  | Some _, None => 1
  | Some x, Some y => y - x
  end.

(* ------------------------------------------------------------------ *)
(** ** Items page: [handleBorrowRequest] *)

(** The component state [handleBorrowRequest] reads.  After its toast the
    handler only resets the form, which is left out. *)
Record ItemsForm := mkItemsForm {
  selectedItem : option items.row;
  purpose : string;
  startTime : string;
  endTime : string
}.

(** [!s] for a string. *)
Definition falsy (s : string) : bool := String.eqb s "".

(** [.order('created_at', { ascending: false }).limit(1).single()] *)
Definition latest_created (rows : list borrowing_requests.row)
  : option borrowing_requests.row :=
  hd_error
    (sort (fun a b => desc (borrowing_requests.created_at a)
                           (borrowing_requests.created_at b)) rows).

Definition handleBorrowRequest (w : world) (st : ItemsForm) (db : database)
  : database * outcome :=
  match selectedItem st with
  | None => (db, toast_error "Mohon lengkapi semua field")
  | Some item =>
      if falsy (purpose st) || falsy (startTime st) || falsy (endTime st)
      then (db, toast_error "Mohon lengkapi semua field")
      else
        match auth_user w with
        | None => (db, return_quietly)
        | Some user =>
            match new_Date w (startTime st), new_Date w (endTime st) with
            | Some start_, Some end_ =>
                match
                  if timestamptz_accepted w start_
                     && timestamptz_accepted w end_
                  then
                    run (session_of w)
                      (INSERT_INTO_borrowing_requests
                         (borrowing_requests.inserted
                            (uuid_generate_v4 w 0) (db_clock w)
                            (items.id item) user (purpose st) start_ end_))
                      db
                  else (db, Some invalid_datetime_format)
                with
                | (_, Some _) => (db, toast_error "Gagal membuat permintaan")
                | (db1, None) =>
                    (* Log activity; the request id is looked up again, and
                       the result of the insert is not inspected *)
                    let db2 :=
                      match latest_created
                              (select_borrowing_requests (session_of w) db1)
                      with
                      | Some r =>
                          fst (run (session_of w)
                                 (INSERT_INTO_activity_logs
                                    (activity_logs.inserted
                                       (uuid_generate_v4 w 1) (db_clock w)
                                       (borrowing_requests.id r) "request"
                                       user
                                       (Some ("Mengajukan peminjaman "
                                              ++ items.name item)%string)))
                                 db1)
                      | None => db1
                      end in
                    (db2,
                     toast_success "Permintaan peminjaman berhasil dibuat")
                end
            | _, _ =>
                (* [toISOString] of an Invalid Date *)
                (db, thrown "RangeError: Invalid time value")
            end
        end
  end.

(* ------------------------------------------------------------------ *)
(** ** Requests page: [fetchRequests] and [handleApproveReject] *)

(** A row of [fetchRequests]: the request's columns with the embedded item
    and borrower profile. *)
Record BorrowingRequest := mkBorrowingRequest {
  columns : borrowing_requests.row;
  embedded_items : option items.row;
  embedded_profiles : option profiles.row
}.

Definition fetchRequests (s : session) (db : database)
  : list BorrowingRequest :=
  map (fun r =>
         mkBorrowingRequest r
           (find (fun i => String.eqb (items.id i)
                             (borrowing_requests.item_id r))
                 (select_items s db))
           (find (fun p => String.eqb (profiles.id p)
                             (borrowing_requests.borrower_id r))
                 (select_profiles s db)))
      (sort (fun a b => desc (borrowing_requests.requested_at a)
                             (borrowing_requests.requested_at b))
            (select_borrowing_requests s db)).

(** [handleApproveReject(requestId, status)] with the component state it
    reads: [selectedRequest] and [approvalNotes].  [status] is ['approved']
    or ['rejected'] and [requestId] is the [id] of a fetched request at
    every call site.  What follows the toast only
    changes the display (the dialog is closed, the notes are cleared, the
    list is fetched again) and is left out. *)
Definition handleApproveReject (w : world)
    (selectedRequest : option BorrowingRequest) (approvalNotes : string)
    (requestId : uuid) (status : request_status) (db : database)
  : database * outcome :=
  match auth_user w with
  | None => (db, return_quietly)
  | Some user =>
      match
        run (session_of w)
          (UPDATE_borrowing_requests
             (fun r => String.eqb (borrowing_requests.id r) requestId)
             (borrowing_requests.set_decision status user (Date_now w)
                approvalNotes))
          db
      with
      | (_, Some _) => (db, toast_error "Gagal memproses permintaan")
      | (db1, None) =>
          (* Update item status if approved *)
          let item_update :=
            match selectedRequest with
            | Some sel =>
                if request_status_eqb status approved
                then
                  match embedded_items sel with
                  | Some it =>
                      (* the result of the update is not inspected *)
                      Some (fst (update_items_eq_id (session_of w)
                                   (items.name it)
                                   (items.set_status (Some dipinjam)) db1))
                  | None => None
                  end
                else Some db1
            | None => Some db1
            end in
          match item_update with
          | None =>
              (db1, thrown "TypeError: Cannot read properties of null")
          | Some db2 =>
              (* Log activity *)
              let db3 :=
                fst (run (session_of w)
                       (INSERT_INTO_activity_logs
                          (activity_logs.inserted
                             (uuid_generate_v4 w 0) (db_clock w) requestId
                             (if request_status_eqb status approved
                              then "approve" else "reject")
                             user (Some approvalNotes)))
                       db2) in
              (db3,
               toast_success (if request_status_eqb status approved
                              then "Permintaan disetujui"
                              else "Permintaan ditolak"))
          end
      end
  end.

(* ------------------------------------------------------------------ *)
(** ** JavaScript numbers *)

Definition prec : Z := 53.
Definition emax : Z := 1024.

(** The binary64 value of an integer. *)
Definition Number (n : Z) : spec_float := binary_normalize prec emax n 0 false.

Definition js_div (x y : spec_float) : spec_float := SFdiv prec emax x y.
Definition js_mul (x y : spec_float) : spec_float := SFmul prec emax x y.

(** [Math.round]: the integer nearest to the argument, the larger one at a
    tie.  [None] stands for the results that are no integers: NaN and the
    infinities. *)
Definition Math_round (x : spec_float) : option Z :=
  match x with
  | S754_zero _ => Some 0
  | S754_infinity _ => None
  | S754_nan => None
  | S754_finite s m e =>
      let n := if s then Z.neg m else Z.pos m in
      if 0 <=? e then Some (n * 2 ^ e)
      else Some ((2 * n + 2 ^ (- e)) / 2 ^ (- e + 1))
  end.

(** [Math.round((approved / total) * 100)] *)
Definition rounded_percentage (approved_ total : Z) : option Z :=
  Math_round (js_mul (js_div (Number approved_) (Number total)) (Number 100)).

(* ------------------------------------------------------------------ *)
(** ** Dashboard page: [fetchStats] *)

Definition count {A} (f : A -> bool) (l : list A) : Z :=
  Z.of_nat (List.length (filter f l)).

Module Dashboard.

Record stats := mkstats {
  totalItems : Z;
  availableItems : Z;
  borrowedItems : Z;
  overdueItems : Z;
  pendingRequests : Z;
  myActiveRequests : Z
}.

(** [profile_id] is [profile?.id] of the signed-in user's context. *)
Definition fetchStats (s : session) (profile_id : option uuid) (db : database)
  : stats :=
  let items := select_items s db in
  let requests := select_borrowing_requests s db in
  mkstats
    (Z.of_nat (List.length items))
    (count (fun i => is_value item_status_eqb (items.status i) tersedia) items)
    (count (fun i => is_value item_status_eqb (items.status i) dipinjam) items)
    (count (fun i => is_value item_status_eqb (items.status i) overdue) items)
    (count (fun r => is_value request_status_eqb
                       (borrowing_requests.status r) pending) requests)
    (count (fun r =>
              sql_eq String.eqb (Some (borrowing_requests.borrower_id r))
                     profile_id
              && (is_value request_status_eqb
                    (borrowing_requests.status r) pending
                  || is_value request_status_eqb
                       (borrowing_requests.status r) approved))
           requests).

End Dashboard.

(* ------------------------------------------------------------------ *)
(** ** Reports page: [fetchReportData] and the percentage cells *)

Definition jurusan_text (j : jurusan) : string :=
  match j with
  | trkj => "trkj"
  | ti => "ti"
  | trmm => "trmm"
  end.

(** A timestamp column in a condition: NULL is falsy, a timestamp is a
    non-empty string. *)
Definition truthy {A} (o : option A) : bool :=
  match o with
  | Some _ => true
  | None => false
  end.

Module BorrowingStats.
Record t := mk {
  totalRequests : Z;
  approvedRequests : Z;
  rejectedRequests : Z;
  activeLoans : Z;
  returnedItems : Z;
  overdueItems : Z
}.
End BorrowingStats.

Module DepartmentStats.
Record t := mk {
  jurusan : string;
  totalRequests : Z;
  approvedRequests : Z
}.
End DepartmentStats.

Module Reports.

Definition is_approved (r : borrowing_requests.row) : bool :=
  is_value request_status_eqb (borrowing_requests.status r) approved.

(** The overall statistics, from the rows the caller may read and the
    browser's clock. *)
Definition overall (now : timestamptz) (requests : list borrowing_requests.row)
  : BorrowingStats.t :=
  BorrowingStats.mk
    (Z.of_nat (List.length requests))
    (count is_approved requests)
    (count (fun r => is_value request_status_eqb
                       (borrowing_requests.status r) rejected) requests)
    (count (fun r => is_approved r
                     && negb (truthy (borrowing_requests.returned_at r)))
           requests)
    (count (fun r => truthy (borrowing_requests.returned_at r)) requests)
    (count (fun r => is_approved r
                     && negb (truthy (borrowing_requests.returned_at r))
                     && (borrowing_requests.end_time r <? now))
           requests).

(** A record of the department query: [status] and the embedded
    [profiles(jurusan)]. *)
Record dept_record := mkdept_record {
  record_status : option request_status;
  record_profiles : option profiles.row
}.

(** [record.profiles?.jurusan || 'Tidak Diketahui'] *)
Definition department_of (record : dept_record) : string :=
  match record_profiles record with
  | Some p =>
      match profiles.jurusan p with
      | Some j => jurusan_text j
      | None => "Tidak Diketahui"
      end
  | None => "Tidak Diketahui"
  end.

(** A JavaScript [Map] with string keys, in insertion order. *)
Definition Map (V : Type) := list (string * V).

Definition Map_has {V} (k : string) (m : Map V) : bool :=
  existsb (fun e => String.eqb (fst e) k) m.

Definition Map_get {V} (k : string) (m : Map V) : option V :=
  option_map snd (find (fun e => String.eqb (fst e) k) m).

Definition Map_set {V} (k : string) (v : V) (m : Map V) : Map V :=
  if Map_has k m
  then map (fun e => if String.eqb (fst e) k then (k, v) else e) m
  else m ++ [(k, v)].

(** The body of [deptStatsData.forEach]. *)
Definition tally (deptMap : Map DepartmentStats.t) (record : dept_record)
  : Map DepartmentStats.t :=
  let jurusan := department_of record in
  let deptMap :=
    if negb (Map_has jurusan deptMap)
    then Map_set jurusan (DepartmentStats.mk jurusan 0 0) deptMap
    else deptMap in
  match Map_get jurusan deptMap with
  | Some stats =>
      Map_set jurusan
        (DepartmentStats.mk
           (DepartmentStats.jurusan stats)
           (DepartmentStats.totalRequests stats + 1)
           (if is_value request_status_eqb (record_status record) approved
            then DepartmentStats.approvedRequests stats + 1
            else DepartmentStats.approvedRequests stats))
        deptMap
  | None => deptMap
  end.

Definition departments (deptStatsData : list dept_record)
  : list DepartmentStats.t :=
  sort (fun a b => DepartmentStats.totalRequests b
                   - DepartmentStats.totalRequests a)
       (map snd (fold_left tally deptStatsData [])).

Record report := mkreport {
  stats : BorrowingStats.t;
  departmentStats : list DepartmentStats.t
}.

Definition deptStatsData (s : session) (db : database) : list dept_record :=
  map (fun r =>
         mkdept_record (borrowing_requests.status r)
           (find (fun p => String.eqb (profiles.id p)
                             (borrowing_requests.borrower_id r))
                 (select_profiles s db)))
      (select_borrowing_requests s db).

Definition fetchReportData (s : session) (now : timestamptz) (db : database)
  : report :=
  mkreport (overall now (select_borrowing_requests s db))
           (departments (deptStatsData s db)).

(** The percentage under "Disetujui":
    [stats.totalRequests > 0 ? Math.round(...) + '% dari total'
                             : '0% dari total'] *)
Definition approved_percentage (st : BorrowingStats.t) : option Z :=
  if 0 <? BorrowingStats.totalRequests st
  then rounded_percentage (BorrowingStats.approvedRequests st)
                          (BorrowingStats.totalRequests st)
  else Some 0.

(** The percentage in a department's row ("Tingkat Persetujuan"):
    [Math.round((dept.approvedRequests / dept.totalRequests) * 100)] *)
Definition department_percentage (dept : DepartmentStats.t) : option Z :=
  rounded_percentage (DepartmentStats.approvedRequests dept)
                     (DepartmentStats.totalRequests dept).

End Reports.

(* ------------------------------------------------------------------ *)
(** ** Navigation: [DashboardLayout] *)

Module DashboardLayout.

Record menu_item := mkitem {
  label : string;
  path : string;
  roles : list string
}.

Definition menuItems : list menu_item :=
  [ mkitem "Dashboard" "/dashboard" ["admin"; "guru"; "siswa"];
    mkitem "Daftar Item" "/items" ["admin"; "guru"; "siswa"];
    mkitem "Permintaan" "/requests" ["admin"; "guru"];
    mkitem "Laporan" "/reports" ["admin"; "guru"] ].

(** [menuItems.filter(item => item.roles.includes(userRole || ''))];
    [userRole] is null while no role is known. *)
Definition filteredMenuItems (userRole : option string) : list menu_item :=
  filter (fun item =>
            mem_string (match userRole with Some r => r | None => "" end)
                       (roles item))
         menuItems.

End DashboardLayout.

(* ------------------------------------------------------------------ *)
(** ** Dashboard page: [fetchRecentRequests] *)

(** A request row with its embedded resources, [items(...)] and
    [profiles!borrowing_requests_borrower_id_fkey(...)], as the caller may
    read them. *)
Definition embed (s : session) (db : database) (r : borrowing_requests.row)
  : BorrowingRequest :=
  mkBorrowingRequest r
    (find (fun i => String.eqb (items.id i) (borrowing_requests.item_id r))
          (select_items s db))
    (find (fun p => String.eqb (profiles.id p)
                      (borrowing_requests.borrower_id r))
          (select_profiles s db)).

(** The five most recently created requests; for the role ['siswa'] the
    query carries [.eq('borrower_id', profile?.id)], a condition of the
    WHERE clause, applied before ORDER BY and LIMIT.  Without a profile no
    row satisfies it. *)
Definition fetchRecentRequests (s : session) (userRole : option string)
    (profile_id : option uuid) (db : database) : list BorrowingRequest :=
  let visible := select_borrowing_requests s db in
  let query :=
    if is_value String.eqb userRole "siswa"
    then filter (fun r => sql_eq String.eqb
                            (Some (borrowing_requests.borrower_id r))
                            profile_id)
                visible
    else visible in
  map (embed s db)
      (firstn 5
         (sort (fun a b => desc (borrowing_requests.created_at a)
                                (borrowing_requests.created_at b))
               query)).

(* ------------------------------------------------------------------ *)
(** ** Items page: [fetchItems] and [filterItems] *)

(** [supabase.from('items').select('*')
      .order('created_at', { ascending: false })] *)
Definition fetchItems (s : session) (db : database) : list items.row :=
  sort (fun a b => desc (items.created_at a) (items.created_at b))
       (select_items s db).

Definition item_status_text (st : item_status) : string :=
  match st with
  | tersedia => "tersedia"
  | dipinjam => "dipinjam"
  | overdue => "overdue"
  | rusak => "rusak"
  end.

(** [s.includes(q)]: [q] occurs in [s]. *)
Fixpoint includes (s q : string) : bool :=
  prefix q s
  || match s with
     | EmptyString => false
     | String _ s' => includes s' q
     end.

Section ItemsFilter.

(** [String.prototype.toLowerCase], the engine's case mapping. *)
Variable toLowerCase : string -> string.

(** [filterItems] reads the component state [items], [searchQuery],
    [filterStatus] and [filterType] and sets [filteredItems]. *)
Definition filterItems (items : list items.row)
    (searchQuery filterStatus filterType : string) : list items.row :=
  let filtered := items in
  let filtered :=
    if negb (falsy searchQuery)
    then filter (fun item =>
                   includes (toLowerCase (items.name item))
                            (toLowerCase searchQuery)
                   || includes (toLowerCase (items.room_name item))
                               (toLowerCase searchQuery))
                filtered
    else filtered in
  let filtered :=
    if negb (String.eqb filterStatus "all")
    then filter (fun item =>
                   is_value String.eqb
                     (option_map item_status_text (items.status item))
                     filterStatus)
                filtered
    else filtered in
  let filtered :=
    if negb (String.eqb filterType "all")
    then filter (fun item => String.eqb (items.type item) filterType)
                filtered
    else filtered in
  filtered.

End ItemsFilter.

(* ------------------------------------------------------------------ *)
(** ** Reports page: item statistics, history and the "Ditolak" card *)

Module ItemStats.
Record t := mk {
  itemName : string;
  itemType : string;
  totalBorrowed : Z;
  currentStatus : option item_status
}.
End ItemStats.

Module RecentActivity.
Record t := mk {
  id : uuid;
  borrowerName : string;
  itemName : string;
  purpose : string;
  status : option request_status;
  requestedAt : option timestamptz;
  startTime : timestamptz;
  endTime : timestamptz;
  nim_nip : string;
  jurusan : string
}.
End RecentActivity.

Module ReportTabs.
Import Reports.

(** A record of the item query: [item_id] and the embedded
    [items(name, type, status)]. *)
Record item_record := mkitem_record {
  record_item_id : uuid;
  record_items : option items.row
}.

(** [.select('item_id, items(name, type, status)').eq('status', 'approved')] *)
Definition itemStatsData (s : session) (db : database) : list item_record :=
  map (fun r =>
         mkitem_record (borrowing_requests.item_id r)
           (find (fun i => String.eqb (items.id i)
                             (borrowing_requests.item_id r))
                 (select_items s db)))
      (filter is_approved (select_borrowing_requests s db)).

(** The body of [itemStatsData.forEach]. *)
Definition tally_item (itemMap : Map ItemStats.t) (record : item_record)
  : Map ItemStats.t :=
  let itemId := record_item_id record in
  match record_items record with
  | Some item =>
      let itemMap :=
        if negb (Map_has itemId itemMap)
        then Map_set itemId
               (ItemStats.mk (items.name item) (items.type item) 0
                  (items.status item))
               itemMap
        else itemMap in
      match Map_get itemId itemMap with
      | Some stats =>
          Map_set itemId
            (ItemStats.mk (ItemStats.itemName stats)
               (ItemStats.itemType stats)
               (ItemStats.totalBorrowed stats + 1)
               (ItemStats.currentStatus stats))
            itemMap
      | None => itemMap
      end
  | None => itemMap
  end.

Definition itemStats (itemStatsData : list item_record)
  : list ItemStats.t :=
  sort (fun a b => ItemStats.totalBorrowed b - ItemStats.totalBorrowed a)
       (map snd (fold_left tally_item itemStatsData [])).

(** [x || d] for a nullable text: the default replaces NULL and the empty
    string. *)
Definition or_default (x : option string) (d : string) : string :=
  match x with
  | Some t => if falsy t then d else t
  | None => d
  end.

(** [.order('requested_at', { ascending: false }).limit(50)] *)
Definition activitiesData (s : session) (db : database)
  : list BorrowingRequest :=
  map (embed s db)
      (firstn 50
         (sort (fun a b => desc (borrowing_requests.requested_at a)
                                (borrowing_requests.requested_at b))
               (select_borrowing_requests s db))).

(** The callback of [activitiesData.map]. *)
Definition activity (record : BorrowingRequest) : RecentActivity.t :=
  RecentActivity.mk
    (borrowing_requests.id (columns record))
    (or_default (option_map profiles.full_name (embedded_profiles record))
                "Unknown")
    (or_default (option_map items.name (embedded_items record)) "Unknown")
    (borrowing_requests.purpose (columns record))
    (borrowing_requests.status (columns record))
    (borrowing_requests.requested_at (columns record))
    (borrowing_requests.start_time (columns record))
    (borrowing_requests.end_time (columns record))
    (or_default (match embedded_profiles record with
                 | Some p => profiles.nim_nip p
                 | None => None
                 end) "-")
    (or_default (match embedded_profiles record with
                 | Some p => option_map jurusan_text (profiles.jurusan p)
                 | None => None
                 end) "-").

Definition recentActivities (s : session) (db : database)
  : list RecentActivity.t :=
  map activity (activitiesData s db).

(** The percentage under "Ditolak":
    [stats.totalRequests > 0 ? Math.round((rejected / total) * 100) : 0] *)
Definition rejected_percentage (st : BorrowingStats.t) : option Z :=
  if 0 <? BorrowingStats.totalRequests st
  then rounded_percentage (BorrowingStats.rejectedRequests st)
                          (BorrowingStats.totalRequests st)
  else Some 0.

End ReportTabs.

(* ------------------------------------------------------------------ *)
(** ** Sign-up: the trigger [on_auth_user_created] *)

(** The columns of [auth.users] that the trigger reads;
    [raw_user_meta_data_full_name] is [raw_user_meta_data->>'full_name']. *)
Module auth_users.
Record row := mk {
  id : uuid;
  email : option string;
  raw_user_meta_data_full_name : option string
}.
End auth_users.

(** [COALESCE(x, d)] *)
Definition COALESCE {A} (x : option A) (d : A) : A :=
  match x with
  | Some a => a
  | None => d
  end.

(** [public.handle_new_user()], run AFTER INSERT ON auth.users FOR EACH
    ROW.  The function is SECURITY DEFINER: its INSERT is not subject to
    row security.  [profiles.email] is NOT NULL. *)
Definition handle_new_user (now : timestamptz) (NEW : auth_users.row)
    (db : database) : database * option pg_error :=
  match auth_users.email NEW with
  | None => (db, Some integrity_violation)
  | Some email =>
      let db' :=
        with_profiles db
          (tbl_profiles db
           ++ [profiles.mk (auth_users.id NEW)
                 (COALESCE (auth_users.raw_user_meta_data_full_name NEW)
                           "User")
                 email None None None None (Some now) (Some now)]) in
      if integrity db' then (db', None) else (db, Some integrity_violation)
  end.

(* ------------------------------------------------------------------ *)
(** ** Seeding: the accounts and items of the [seed-data] function *)

(** [String(n)] and [`${n}`] for a non-negative integer. *)
Definition String_of_number (n : Z) : string :=
  NilZero.string_of_uint (N.to_uint (Z.to_N n)).

(** [s.padStart(targetLength, c)] *)
Definition padStart (s : string) (targetLength : nat) (c : ascii) : string :=
  (string_of_list_ascii (repeat c (targetLength - String.length s)) ++ s)
  %string.

(** [String.fromCharCode(n)], for a code below 128. *)
Definition String_fromCharCode (n : Z) : string :=
  String (ascii_of_nat (Z.to_nat n)) "".

(** [toLowerCase] on text written in ASCII: the letters [A] to [Z] go to
    [a] to [z]. *)
Definition lower (c : ascii) : ascii :=
  let n := nat_of_ascii c in
  if Nat.leb 65 n && Nat.leb n 90 then ascii_of_nat (n + 32) else c.

Fixpoint toLowerCase_ascii (s : string) : string :=
  match s with
  | EmptyString => EmptyString
  | String c s' => String (lower c) (toLowerCase_ascii s')
  end.

(** [for (let i = lo; i <= hi; i++)] *)
Definition from_to (lo hi : Z) : list Z :=
  map (fun k => lo + Z.of_nat k) (seq 0 (Z.to_nat (hi - lo + 1))).

(** An account as [createUser(email, password, fullName, metadata)] and
    [assignRole(user.id, role)] are called for it. *)
Module seed_account.
Record t := mk {
  email : string;
  password : string;
  fullName : string;
  nim_nip : string;
  jurusan : option jurusan;
  kelas : option string;
  angkatan : option Z;
  role : app_role
}.
End seed_account.

(** A row of [itemsData]: the columns the insert names. *)
Module seed_item.
Record t := mk {
  name : string;
  type : string;
  room_name : string;
  status : item_status;
  condition_notes : option string
}.
End seed_item.

Module seed.

Definition admins : list seed_account.t :=
  [ seed_account.mk "admin@sekolah.ac.id" "password123" "Admin Sistem"
      "ADM001" None None None admin;
    seed_account.mk "admin2@sekolah.ac.id" "password123" "Admin Backup"
      "ADM002" None None None admin ].

Definition dosenData : list (string * string * string) :=
  [ ("dosen1@sekolah.ac.id", "Dr. Budi Santoso, M.Kom", "DSN001");
    ("dosen2@sekolah.ac.id", "Siti Rahayu, S.Kom, M.T", "DSN002");
    ("dosen3@sekolah.ac.id", "Ahmad Fauzi, M.Eng", "DSN003");
    ("dosen4@sekolah.ac.id", "Dr. Rina Wati, M.Kom", "DSN004");
    ("dosen5@sekolah.ac.id", "Dedi Susanto, S.T, M.T", "DSN005") ].

Definition dosen : list seed_account.t :=
  map (fun d => match d with
                | (email, name, nip) =>
                    seed_account.mk email "password123" name nip None None
                      None guru
                end)
      dosenData.

Definition tahunAngkatan : list Z := [2021; 2022; 2023; 2024].

(** The three nested loops over year, class and number of one study
    programme ([TRKJ] with 4 classes, [TI] with 5, [TRMM] with 3). *)
Definition mahasiswa_of (prodi : string) (j : jurusan) (classes : Z)
  : list seed_account.t :=
  flat_map (fun tahun =>
    flat_map (fun kelas =>
      map (fun i =>
             let nim :=
               (String_of_number tahun ++ prodi ++ String_of_number kelas
                ++ padStart (String_of_number i) 3 "0")%string in
             seed_account.mk
               (toLowerCase_ascii nim ++ "@student.ac.id")%string
               "password123"
               ("Mahasiswa " ++ prodi ++ " " ++ String_of_number kelas
                ++ String_fromCharCode (64 + i))%string
               nim (Some j)
               (Some (prodi ++ "-" ++ String_of_number kelas)%string)
               (Some tahun) siswa)
          (from_to 1 5))
      (from_to 1 classes))
    tahunAngkatan.

Definition mahasiswa : list seed_account.t :=
  mahasiswa_of "TRKJ" trkj 4 ++ mahasiswa_of "TI" ti 5
  ++ mahasiswa_of "TRMM" trmm 3.

(** The accounts in the order of their creation. *)
Definition accounts : list seed_account.t := admins ++ dosen ++ mahasiswa.

Definition rooms : list string :=
  [ "Lab Komputer 1"; "Lab Komputer 2"; "Lab Jaringan"; "Lab Multimedia";
    "Ruang Kelas 301"; "Ruang Kelas 302"; "Ruang Kelas 303";
    "Ruang Kelas 304"; "Ruang Dosen 1"; "Ruang Dosen 2"; "Ruang Rapat";
    "Perpustakaan"; "Aula"; "Workshop Mekanik"; "Lab Elektronika";
    "Gudang Alat" ].

Definition itemsData : list seed_item.t :=
  map (fun room => seed_item.mk ("Kunci " ++ room)%string "kunci" room
                     tersedia None)
      rooms
  ++ map (fun i =>
            seed_item.mk
              ("Infokus " ++ padStart (String_of_number i) 2 "0")%string
              "infokus" ("Portable Unit " ++ String_of_number i)%string
              tersedia (Some "Kondisi baik"))
         (from_to 1 10).

(** The [stats] of the response. *)
Record stats := mkstats {
  stats_admins : Z;
  stats_dosen : Z;
  stats_mahasiswa : Z;
  stats_items : Z
}.

Definition response_stats : stats :=
  mkstats 2 5 ((4 * 4 * 5) + (5 * 4 * 5) + (3 * 4 * 5))
    (Z.of_nat (List.length itemsData)).

End seed.

(** The "Demo Login" lines of the login page: role and address. *)
Definition demo_logins : list (string * string) :=
  [ ("Admin", "admin@sekolah.ac.id");
    ("Guru", "guru@sekolah.ac.id");
    ("Siswa", "siswa@sekolah.ac.id") ].

Definition demo_password : string := "password123".

(* ------------------------------------------------------------------ *)
(** ** Vocabulary of the statements *)

(** A small school: two staff accounts, two students and two items, as the
    seeding function creates them, with one request and its log entry. *)
Module School.

Definition id_admin : uuid := "0a000000-0000-4000-8000-000000000001".
Definition id_guru : uuid := "0a000000-0000-4000-8000-000000000002".
Definition id_siswa : uuid := "0a000000-0000-4000-8000-000000000003".
Definition id_siswa2 : uuid := "0a000000-0000-4000-8000-000000000004".
Definition id_kunci : uuid := "0b000000-0000-4000-8000-000000000001".
Definition id_infokus : uuid := "0b000000-0000-4000-8000-000000000002".
Definition id_request : uuid := "0c000000-0000-4000-8000-000000000001".
Definition id_log : uuid := "0d000000-0000-4000-8000-000000000001".

(** 2025-01-09T00:00:00Z *)
Definition t0 : timestamptz := 1736380800000.

Definition p_admin : profiles.row :=
  profiles.mk id_admin "Admin Sistem" "admin@sekolah.ac.id" (Some "ADM001")
    None None None (Some t0) (Some t0).

Definition p_guru : profiles.row :=
  profiles.mk id_guru "Dr. Budi Santoso, M.Kom" "dosen1@sekolah.ac.id"
    (Some "DSN001") None None None (Some t0) (Some t0).

Definition p_siswa : profiles.row :=
  profiles.mk id_siswa "Mahasiswa TRKJ 1A" "2021trkj1001@student.ac.id"
    (Some "2021TRKJ1001") (Some trkj) (Some "TRKJ-1") (Some 2021)
    (Some t0) (Some t0).

Definition p_siswa2 : profiles.row :=
  profiles.mk id_siswa2 "Mahasiswa TI 1A" "2021ti1001@student.ac.id"
    (Some "2021TI1001") (Some ti) (Some "TI-1") (Some 2021)
    (Some t0) (Some t0).

Definition profile_rows : list profiles.row :=
  [p_admin; p_guru; p_siswa; p_siswa2].

Definition role_rows : list user_roles.row :=
  [ user_roles.mk "0e000000-0000-4000-8000-000000000001" id_admin admin
      (Some t0);
    user_roles.mk "0e000000-0000-4000-8000-000000000002" id_guru guru
      (Some t0);
    user_roles.mk "0e000000-0000-4000-8000-000000000003" id_siswa siswa
      (Some t0);
    user_roles.mk "0e000000-0000-4000-8000-000000000004" id_siswa2 siswa
      (Some t0) ].

Definition kunci (st : item_status) : items.row :=
  items.mk id_kunci "Kunci Lab Komputer 1" "kunci" "Lab Komputer 1" (Some st)
    None (Some t0) (Some t0).

Definition infokus : items.row :=
  items.mk id_infokus "Infokus 01" "infokus" "Portable Unit 1" (Some tersedia)
    (Some "Kondisi baik") (Some t0) (Some t0).

(** 2025-01-10T08:00Z to 2025-01-10T10:00Z *)
Definition request (st : request_status) : borrowing_requests.row :=
  borrowing_requests.mk id_request id_kunci id_siswa "Kuliah Pemrograman Web"
    (Some t0) 1736496000000 1736503200000 (Some st) None None None None None
    (Some t0) (Some t0).

Definition log_row : activity_logs.row :=
  activity_logs.mk id_log id_request "request" id_siswa
    (Some "Mengajukan peminjaman Kunci Lab Komputer 1") (Some t0).

(** The school with the key in state [ki] and the request in state [rq]. *)
Definition db (ki : item_status) (rq : request_status) : database :=
  mkdb profile_rows role_rows [kunci ki; infokus] [request rq] [log_row].

Definition fresh (n : nat) : uuid :=
  match n with
  | O => "0f000000-0000-4000-8000-000000000001"
  | _ => "0f000000-0000-4000-8000-000000000002"
  end.

(** A browser at UTC+7 (WIB), signed in as [user], on 2025-01-09 shortly
    after midnight UTC.  It is used with values of the date and time
    control only. *)
Definition browser (user : option uuid) : world :=
  mkworld user (t0 + 60000) (t0 + 61000) (fun _ => 420) fresh
    (fun _ => None) (fun _ => false).

End School.

(** The caller holds the student role and no other. *)
Definition only_siswa (db : database) (caller : uuid) : Prop :=
  has_role db (Some caller) siswa = true
  /\ has_role db (Some caller) admin = false
  /\ has_role db (Some caller) guru = false.

(** The caller is admin or guru. *)
Definition staff (db : database) (u : uuid) : Prop :=
  has_role db (Some u) admin || has_role db (Some u) guru = true.

(** What the UPDATE of [handleApproveReject] does to a row. *)
Definition decided (w : world) (u : uuid) (notes : string) (requestId : uuid)
    (status : request_status) (r : borrowing_requests.row)
  : borrowing_requests.row :=
  if String.eqb (borrowing_requests.id r) requestId
  then borrowing_requests.touch (db_clock w)
         (borrowing_requests.set_decision status u (Date_now w) notes r)
  else r.

(** The state after the request UPDATE of [handleApproveReject]. *)
Definition after_decision (w : world) (u : uuid) (notes : string)
    (requestId : uuid) (status : request_status) (db : database) : database :=
  with_borrowing_requests db
    (map (decided w u notes requestId status) (tbl_borrowing_requests db)).

(** The entry [handleApproveReject] logs. *)
Definition decision_entry (w : world) (u : uuid) (notes : string)
    (requestId : uuid) (status : request_status) : activity_logs.row :=
  activity_logs.inserted (uuid_generate_v4 w 0) (db_clock w) requestId
    (if request_status_eqb status approved then "approve" else "reject")
    u (Some notes).

(** The item UPDATE of an approval, with its result: the row filter
    compares the item's [id] with the selected request's item [name]. *)
Definition item_statement (w : world) (it : items.row) (db : database)
  : database * option pg_error :=
  update_items_eq_id (session_of w) (items.name it)
    (items.set_status (Some dipinjam)) db.

(** The state after the item UPDATE of an approval. *)
Definition after_item_update (w : world) (it : items.row) (db : database)
  : database :=
  fst (item_statement w it db).

(** The row [handleBorrowRequest] inserts. *)
Definition requested (w : world) (item : items.row) (u : uuid) (st : ItemsForm)
    (start_ end_ : timestamptz) : borrowing_requests.row :=
  borrowing_requests.inserted (uuid_generate_v4 w 0) (db_clock w)
    (items.id item) u (purpose st) start_ end_.

(** The entry [handleBorrowRequest] logs for the request [r] it looked up. *)
Definition request_entry (w : world) (item : items.row) (u : uuid)
    (r : borrowing_requests.row) : activity_logs.row :=
  activity_logs.inserted (uuid_generate_v4 w 1) (db_clock w)
    (borrowing_requests.id r) "request" u
    (Some ("Mengajukan peminjaman " ++ items.name item)%string).

(** The form is complete: an item is selected and the three fields are
    filled in. *)
Definition complete (st : ItemsForm) (item : items.row) : Prop :=
  selectedItem st = Some item
  /\ purpose st <> "" /\ startTime st <> "" /\ endTime st <> "".

(** The overdue condition of the specification, at the instant [now]:
    [status == approved AND returned_at IS NULL AND now > end_time]. *)
Definition live_overdue (now : timestamptz) (r : borrowing_requests.row)
  : Prop :=
  borrowing_requests.status r = Some approved
  /\ borrowing_requests.returned_at r = None
  /\ now > borrowing_requests.end_time r.

Definition live_overdueb (now : timestamptz) (r : borrowing_requests.row)
  : bool :=
  match borrowing_requests.status r, borrowing_requests.returned_at r with
  | Some approved, None => borrowing_requests.end_time r <? now
  | _, _ => false
  end.

(** The percentage of the specification, [round(100 * approved / total)]
    with a tie rounded up as [Math.round] does, and 0 when [total = 0]. *)
Definition specified_percentage (approved_ total : Z) : Z :=
  if total =? 0 then 0 else (200 * approved_ + total) / (2 * total).

(** [100 * approved / total] lies exactly halfway between two integers. *)
Definition tie (approved_ total : Z) : Prop :=
  (200 * approved_) mod (2 * total) = total.

(** [N / U] lies at mantissa [m] with the position given by the round bit
    [r] and the sticky bit [s]. *)
Definition located (m : Z) (r s : bool) (U N : Z) : Prop :=
  match r, s with
  | false, false => N = m * U
  | false, true => m * U < N /\ 2 * N < (2 * m + 1) * U
  | true, false => 2 * N = (2 * m + 1) * U
  | true, true => (2 * m + 1) * U < 2 * N /\ N < (m + 1) * U
  end.

Definition located_rec (mrs : shr_record) (U N : Z) : Prop :=
  0 <= shr_m mrs /\ located (shr_m mrs) (shr_r mrs) (shr_s mrs) U N.

(** A ledger of [n] requests of the TRKJ student for the key, the first
    [k] of them approved and the others pending. *)
Definition ledger (k n : nat) : database :=
  mkdb School.profile_rows School.role_rows
    [School.kunci tersedia; School.infokus]
    (map (fun i =>
            borrowing_requests.mk
              (String (ascii_of_nat (65 + i / 26))
                 (String (ascii_of_nat (65 + i mod 26)) ""))
              School.id_kunci School.id_siswa "Kuliah" (Some School.t0)
              1736496000000 1736503200000
              (Some (if Nat.ltb i k then approved else pending))
              None None None None None (Some School.t0) (Some School.t0))
         (seq 0 n))
    [].

Section DepartmentCounts.
Import Reports.

(** Records of department [k], and the approved ones among them. *)
Definition of_department (k : string) (record : dept_record) : bool :=
  String.eqb (department_of record) k.

Definition approved_of_department (k : string) (record : dept_record)
  : bool :=
  of_department k record
  && is_value request_status_eqb (record_status record) approved.

(** What [tally] has gathered after the records [done]. *)
Record tallied (m : Map DepartmentStats.t) (done : list dept_record)
  : Prop := mktallied {
  keys_once : NoDup (map fst m);
  entry_counts : forall k d, In (k, d) m ->
      DepartmentStats.jurusan d = k
      /\ DepartmentStats.totalRequests d = count (of_department k) done
      /\ DepartmentStats.approvedRequests d
         = count (approved_of_department k) done
      /\ 1 <= DepartmentStats.totalRequests d;
  keys_cover : forall record, In record done ->
      In (department_of record) (map fst m)
}.

(** The statistics of a department after one more of its records. *)
Definition bump (record : dept_record) (d : DepartmentStats.t)
  : DepartmentStats.t :=
  DepartmentStats.mk (DepartmentStats.jurusan d)
    (DepartmentStats.totalRequests d + 1)
    (if is_value request_status_eqb (record_status record) approved
     then DepartmentStats.approvedRequests d + 1
     else DepartmentStats.approvedRequests d).

End DepartmentCounts.

(** Rows in the order of [ORDER BY key DESC]: NULLs first, then from the
    latest to the earliest. *)
Definition newest_first {A} (key : A -> option timestamptz) (l : list A)
  : Prop :=
  StronglySorted (fun a b => desc (key a) (key b) <= 0) l.

(** Rows from the largest figure to the smallest. *)
Definition largest_first {A} (figure : A -> Z) (l : list A) : Prop :=
  StronglySorted (fun a b => figure b <= figure a) l.

(** The sum of a figure over the rows of a table. *)
Definition total {A} (figure : A -> Z) (l : list A) : Z :=
  fold_right (fun a acc => figure a + acc) 0 l.

(** [q] occurs in [s]. *)
Definition occurs_in (q s : string) : Prop :=
  exists a b, s = (a ++ q ++ b)%string.

(** The item passes the three criteria of the item page. *)
Definition listed (toLowerCase : string -> string)
    (searchQuery filterStatus filterType : string) (item : items.row)
  : bool :=
  (falsy searchQuery
   || includes (toLowerCase (items.name item)) (toLowerCase searchQuery)
   || includes (toLowerCase (items.room_name item)) (toLowerCase searchQuery))
  && (String.eqb filterStatus "all"
      || is_value String.eqb
           (option_map item_status_text (items.status item)) filterStatus)
  && (String.eqb filterType "all" || String.eqb (items.type item) filterType).

Section ItemCounts.
Import Reports ReportTabs.

(** Records of the item [k] that carry their item. *)
Definition of_item (k : string) (record : item_record) : bool :=
  String.eqb (record_item_id record) k && truthy (record_items record).

(** What [tally_item] has gathered after the records [done]. *)
Record tallied_items (m : Map ItemStats.t) (done : list item_record)
  : Prop := mktallied_items {
  item_keys_once : NoDup (map fst m);
  item_entry_counts : forall k d, In (k, d) m ->
      ItemStats.totalBorrowed d = count (of_item k) done
      /\ 1 <= ItemStats.totalBorrowed d
      /\ exists item,
          In (mkitem_record k (Some item)) done
          /\ ItemStats.itemName d = items.name item
          /\ ItemStats.itemType d = items.type item
          /\ ItemStats.currentStatus d = items.status item;
  item_keys_cover : forall record, In record done ->
      truthy (record_items record) = true ->
      In (record_item_id record) (map fst m)
}.

(** The statistics of an item after one more of its records. *)
Definition bump_item (d : ItemStats.t) : ItemStats.t :=
  ItemStats.mk (ItemStats.itemName d) (ItemStats.itemType d)
    (ItemStats.totalBorrowed d + 1) (ItemStats.currentStatus d).

End ItemCounts.

(* ================================================================== *)
(** * Properties *)

(** ** Lists, keys and lookups *)

Lemma mem_string_In (x : string) (l : list string) :
  mem_string x l = true <-> In x l.
Proof.
  unfold mem_string. rewrite existsb_exists. split.
  - intros [y [Hy Heq]]. apply String.eqb_eq in Heq. now subst.
  - intros H. exists x. split; [assumption | apply String.eqb_refl].
Qed.

Lemma mem_string_app (x : string) (l1 l2 : list string) :
  mem_string x (l1 ++ l2) = mem_string x l1 || mem_string x l2.
Proof. unfold mem_string. apply existsb_app. Qed.

Lemma mem_string_false (x : string) (l : list string) :
  mem_string x l = false <-> ~ In x l.
Proof.
  rewrite <- mem_string_In. destruct (mem_string x l); split; intros H;
    try reflexivity; try discriminate; try (intros H'; discriminate).
  exfalso. now apply H.
Qed.

Lemma unique_snoc (l : list string) (x : string) :
  unique String.eqb (l ++ [x])
  = unique String.eqb l && negb (mem_string x l).
Proof.
  induction l as [|y l IH]; simpl.
  - reflexivity.
  - rewrite IH, existsb_app. simpl. rewrite orb_false_r.
    rewrite (String.eqb_sym x y).
    destruct (existsb (String.eqb y) l), (String.eqb y x),
      (unique String.eqb l), (mem_string x l); reflexivity.
Qed.

Lemma forallb_snoc {A} (f : A -> bool) (l : list A) (x : A) :
  forallb f (l ++ [x]) = forallb f l && f x.
Proof. rewrite forallb_app. simpl. now rewrite andb_true_r. Qed.

Lemma forallb_map_same {A} (f : A -> bool) (g : A -> A) (l : list A) :
  forallb f l = true ->
  (forall a, In a l -> f a = true -> f (g a) = true) ->
  forallb f (map g l) = true.
Proof.
  intros Hl Hg. rewrite forallb_forall in *. intros b Hb.
  apply in_map_iff in Hb. destruct Hb as [a [<- Ha]]. auto.
Qed.

Lemma map_if_id {A} (c : A -> bool) (g : A -> A) (l : list A) :
  (forall a, In a l -> c a = false) ->
  map (fun a => if c a then g a else a) l = l.
Proof.
  intros H. induction l as [|a l IH]; simpl.
  - reflexivity.
  - rewrite (H a (or_introl eq_refl)). f_equal. apply IH.
    intros b Hb. apply H. now right.
Qed.

Lemma filter_all {A} (c : A -> bool) (l : list A) :
  (forall a, In a l -> c a = true) -> filter c l = l.
Proof.
  intros H. induction l as [|a l IH]; simpl.
  - reflexivity.
  - rewrite (H a (or_introl eq_refl)). f_equal. apply IH.
    intros b Hb. apply H. now right.
Qed.

(** ** The stable sort keeps the elements *)

Lemma insert_sorted_In {A} (cmp : A -> A -> Z) (x y : A) (l : list A) :
  In y (insert_sorted cmp x l) <-> y = x \/ In y l.
Proof.
  induction l as [|z l IH]; simpl.
  - intuition.
  - destruct (cmp x z <=? 0); simpl.
    + intuition.
    + rewrite IH. intuition.
Qed.

Lemma sort_In {A} (cmp : A -> A -> Z) (y : A) (l : list A) :
  In y (sort cmp l) <-> In y l.
Proof.
  unfold sort. induction l as [|x l IH]; simpl.
  - reflexivity.
  - rewrite insert_sorted_In, IH. intuition.
Qed.

Lemma insert_sorted_length {A} (cmp : A -> A -> Z) (x : A) (l : list A) :
  List.length (insert_sorted cmp x l) = S (List.length l).
Proof.
  induction l as [|z l IH]; simpl.
  - reflexivity.
  - destruct (cmp x z <=? 0); simpl; [reflexivity | now rewrite IH].
Qed.

Lemma sort_length {A} (cmp : A -> A -> Z) (l : list A) :
  List.length (sort cmp l) = List.length l.
Proof.
  unfold sort. induction l as [|x l IH]; simpl.
  - reflexivity.
  - now rewrite insert_sorted_length, IH.
Qed.

(** ** Statements that keep the constraints *)

Lemma refused_keeps (s : session) (q : statement) (db : database) :
  snd (run s q db) <> None -> fst (run s q db) = db.
Proof.
  unfold run. destruct (candidate s q db) as [db'|]; simpl.
  - destruct (integrity db'); simpl; [congruence | reflexivity].
  - reflexivity.
Qed.

Lemma run_integrity (s : session) (q : statement) (db : database) :
  integrity db = true -> integrity (fst (run s q db)) = true.
Proof.
  intros H. unfold run. destruct (candidate s q db) as [db'|]; simpl.
  - destruct (integrity db') eqn:E; simpl; assumption.
  - assumption.
Qed.

Lemma integrity_parts (db : database) :
  integrity db = true <->
  primary_keys db = true /\ unique_keys db = true /\ foreign_keys db = true.
Proof.
  unfold integrity. rewrite !andb_true_iff. tauto.
Qed.

(** An update of requests that keeps their keys and references. *)
Lemma integrity_update_requests (db : database)
    (f : borrowing_requests.row -> borrowing_requests.row) :
  integrity db = true ->
  (forall r, In r (tbl_borrowing_requests db) ->
             borrowing_requests.id (f r) = borrowing_requests.id r
             /\ request_refs db (f r) = true) ->
  integrity (with_borrowing_requests db (map f (tbl_borrowing_requests db)))
  = true.
Proof.
  intros Hi Hf. apply integrity_parts in Hi. destruct Hi as [Hp [Hu Hk]].
  assert (Hids : map borrowing_requests.id (map f (tbl_borrowing_requests db))
                 = map borrowing_requests.id (tbl_borrowing_requests db)).
  { rewrite map_map. apply map_ext_in. intros r Hr. apply (Hf r Hr). }
  apply integrity_parts. repeat split.
  - unfold primary_keys, request_ids in *. simpl. now rewrite Hids.
  - exact Hu.
  - unfold foreign_keys in *. simpl.
    rewrite !andb_true_iff in *. destruct Hk as [[Hr Hq] Hl].
    repeat split.
    + exact Hr.
    + rewrite forallb_forall. intros r' Hr'.
      apply in_map_iff in Hr'. destruct Hr' as [r [<- Hin]].
      apply (Hf r Hin).
    + unfold log_refs, request_ids in *. simpl. now rewrite Hids.
Qed.

(** A new request with a fresh key and resolved references. *)
Lemma integrity_insert_request (db : database) (r : borrowing_requests.row) :
  integrity db = true ->
  mem_string (borrowing_requests.id r) (request_ids db) = false ->
  request_refs db r = true ->
  integrity (with_borrowing_requests db (tbl_borrowing_requests db ++ [r]))
  = true.
Proof.
  intros Hi Hfresh Hrefs. apply integrity_parts in Hi.
  destruct Hi as [Hp [Hu Hk]]. apply integrity_parts. repeat split.
  - unfold primary_keys, request_ids in *. simpl.
    rewrite map_app. simpl. rewrite unique_snoc, Hfresh.
    rewrite !andb_true_iff in *. tauto.
  - exact Hu.
  - unfold foreign_keys in *. simpl.
    rewrite !andb_true_iff in *. destruct Hk as [[Hr Hq] Hl].
    repeat split.
    + exact Hr.
    + rewrite forallb_snoc, andb_true_iff. split; assumption.
    + rewrite forallb_forall in *. intros l Hl'. specialize (Hl l Hl').
      unfold log_refs, request_ids in *. simpl. rewrite map_app.
      rewrite mem_string_app. apply andb_true_iff in Hl.
      destruct Hl as [H1 H2]. apply andb_true_iff. split.
      * apply orb_true_iff. left. exact H1.
      * exact H2.
Qed.

(** A new log entry with a fresh key and resolved references. *)
Lemma integrity_insert_log (db : database) (l : activity_logs.row) :
  integrity db = true ->
  mem_string (activity_logs.id l)
             (map activity_logs.id (tbl_activity_logs db)) = false ->
  log_refs db l = true ->
  integrity (with_activity_logs db (tbl_activity_logs db ++ [l])) = true.
Proof.
  intros Hi Hfresh Hrefs. apply integrity_parts in Hi.
  destruct Hi as [Hp [Hu Hk]]. apply integrity_parts. repeat split.
  - unfold primary_keys in *. simpl.
    rewrite map_app. simpl. rewrite unique_snoc, Hfresh.
    rewrite !andb_true_iff in *. tauto.
  - exact Hu.
  - unfold foreign_keys in *. simpl.
    rewrite !andb_true_iff in *. destruct Hk as [[Hr Hq] Hl].
    repeat split; try assumption.
    rewrite forallb_snoc, andb_true_iff. split; assumption.
Qed.

(** An update of items that keeps their keys. *)
Lemma integrity_update_items (db : database) (f : items.row -> items.row) :
  integrity db = true ->
  (forall i, In i (tbl_items db) -> items.id (f i) = items.id i) ->
  integrity (with_items db (map f (tbl_items db))) = true.
Proof.
  intros Hi Hf. apply integrity_parts in Hi. destruct Hi as [Hp [Hu Hk]].
  assert (Hids : map items.id (map f (tbl_items db))
                 = map items.id (tbl_items db)).
  { rewrite map_map. apply map_ext_in. exact Hf. }
  apply integrity_parts. repeat split.
  - unfold primary_keys, item_ids in *. simpl. now rewrite Hids.
  - exact Hu.
  - unfold foreign_keys, request_refs, item_ids in *. simpl.
    now rewrite Hids.
Qed.

(* ------------------------------------------------------------------ *)
(** ** Authorization (row security on borrowing_requests) *)

Lemma with_borrowing_requests_same (db : database) :
  with_borrowing_requests db (tbl_borrowing_requests db) = db.
Proof. destruct db; reflexivity. Qed.

Lemma with_items_same (db : database) : with_items db (tbl_items db) = db.
Proof. destruct db; reflexivity. Qed.

Lemma with_activity_logs_same (db : database) :
  with_activity_logs db (tbl_activity_logs db) = db.
Proof. destruct db; reflexivity. Qed.

(** An UPDATE that acts on no row leaves the table as it is. *)
Lemma rls_update_nothing {R} (ps : list (policy R)) (db : database)
    (uid : option uuid) (where_ : R -> bool) (set : R -> R) (rows : list R) :
  (forall r, In r rows -> acts_on ps db uid UPDATE where_ r = false) ->
  rls_update ps db uid where_ set rows = Some rows.
Proof.
  intros H. unfold rls_update.
  assert (Hall : forallb (fun r => negb (acts_on ps db uid UPDATE where_ r)
                                   || passes_check ps db uid UPDATE (set r))
                         rows = true).
  { apply forallb_forall. intros r Hr. now rewrite (H r Hr). }
  rewrite Hall. f_equal. now apply map_if_id.
Qed.

(** C3. A caller who holds only the student role cannot update any
    borrowing request, whoever its borrower is: the UPDATE policy refuses
    every row and an UPDATE statement changes nothing.  No caller can insert
    a borrowing request whose [borrower_id] is not the caller's own
    identity: the statement is refused and nothing is written. *)
Theorem student_update_and_foreign_insert_denied
    (db : database) (s : session) (caller : uuid)
    (Hcaller : auth_uid s = Some caller)
    (Hrole : only_siswa db caller) :
  (forall r : borrowing_requests.row,
      passes_using policies_borrowing_requests db (auth_uid s) UPDATE r
      = false)
  /\ (forall where_ set,
         fst (run s (UPDATE_borrowing_requests where_ set) db) = db)
  /\ (forall (s' : session) (r : borrowing_requests.row),
         auth_uid s' <> Some (borrowing_requests.borrower_id r) ->
         run s' (INSERT_INTO_borrowing_requests r) db
         = (db, Some row_security_violation)).
Proof.
  destruct Hrole as [_ [Hadmin Hguru]].
  assert (Hpol : forall r : borrowing_requests.row,
             passes_using policies_borrowing_requests db (auth_uid s) UPDATE r
             = false).
  { intros r. rewrite Hcaller. unfold passes_using. simpl.
    now rewrite Hadmin, Hguru. }
  split; [exact Hpol|]. split.
  - intros where_ set. unfold run, candidate.
    rewrite rls_update_nothing.
    + simpl. rewrite with_borrowing_requests_same.
      now destruct (integrity db).
    + intros r _. unfold acts_on. rewrite Hpol.
      now rewrite andb_false_r.
  - intros s' r Hne. unfold run, candidate, rls_insert.
    assert (Hchk : passes_check policies_borrowing_requests db (auth_uid s')
                     INSERT r = false).
    { unfold passes_check. simpl. rewrite orb_false_r.
      destruct (auth_uid s') as [u|]; simpl; [|reflexivity].
      destruct (String.eqb_spec (borrowing_requests.borrower_id r) u).
      - exfalso. apply Hne. now subst.
      - reflexivity. }
    now rewrite Hchk.
Qed.

(** The student of the small school can neither approve the own pending
    request nor file a request in another student's name. *)
Lemma student_update_and_foreign_insert_denied_witness :
  fst (run (mksession (Some School.id_siswa) School.t0)
         (UPDATE_borrowing_requests
            (fun r => String.eqb (borrowing_requests.id r) School.id_request)
            (borrowing_requests.set_decision approved School.id_siswa
               School.t0 ""))
         (School.db tersedia pending))
  = School.db tersedia pending
  /\ run (mksession (Some School.id_siswa) School.t0)
       (INSERT_INTO_borrowing_requests
          (borrowing_requests.inserted (School.fresh 0) School.t0
             School.id_infokus School.id_siswa2 "Presentasi" 1736496000000
             1736503200000))
       (School.db tersedia pending)
     = (School.db tersedia pending, Some row_security_violation).
Proof.
  destruct (student_update_and_foreign_insert_denied
              (School.db tersedia pending)
              (mksession (Some School.id_siswa) School.t0)
              School.id_siswa eq_refl)
    as [_ [Hupd Hins]].
  - repeat split; reflexivity.
  - split.
    + apply Hupd.
    + apply Hins. simpl. discriminate.
Defined.

(* ------------------------------------------------------------------ *)
(** ** Approve and reject *)

Lemma staff_sees_request (db : database) (u : uuid)
    (r : borrowing_requests.row) :
  staff db u ->
  passes_using policies_borrowing_requests db (Some u) SELECT r = true.
Proof.
  unfold staff, passes_using. simpl. intros H.
  rewrite orb_false_r, <- orb_assoc, H. apply orb_true_r.
Qed.

Lemma staff_updates_request (db : database) (u : uuid)
    (r : borrowing_requests.row) :
  staff db u ->
  passes_using policies_borrowing_requests db (Some u) UPDATE r = true
  /\ passes_check policies_borrowing_requests db (Some u) UPDATE r = true.
Proof.
  unfold staff, passes_using, passes_check. simpl. intros H.
  now rewrite H.
Qed.

Lemma foreign_keys_request (db : database) (r : borrowing_requests.row) :
  integrity db = true -> In r (tbl_borrowing_requests db) ->
  request_refs db r = true.
Proof.
  intros Hi Hr. apply integrity_parts in Hi. destruct Hi as [_ [_ Hk]].
  unfold foreign_keys in Hk. rewrite !andb_true_iff in Hk.
  destruct Hk as [[_ Hq] _]. rewrite forallb_forall in Hq. now apply Hq.
Qed.

(** An UPDATE whose rewritten rows pass the check is carried out. *)
Lemma rls_update_accepted {R} (ps : list (policy R)) (db : database)
    (uid : option uuid) (where_ : R -> bool) (set : R -> R) (rows : list R) :
  (forall r, In r rows -> passes_check ps db uid UPDATE (set r) = true) ->
  rls_update ps db uid where_ set rows
  = Some (map (fun r => if acts_on ps db uid UPDATE where_ r
                        then set r else r) rows).
Proof.
  intros H. unfold rls_update.
  assert (Hall : forallb (fun r => negb (acts_on ps db uid UPDATE where_ r)
                                   || passes_check ps db uid UPDATE (set r))
                         rows = true).
  { apply forallb_forall. intros r Hr. rewrite (H r Hr). apply orb_true_r. }
  now rewrite Hall.
Qed.

(** The UPDATE of a staff member with a profile is accepted and rewrites
    exactly the rows with the given id. *)
Lemma decision_update (w : world) (u : uuid) (notes : string)
    (requestId : uuid) (status : request_status) (db : database) :
  integrity db = true ->
  auth_user w = Some u ->
  staff db u ->
  In u (profile_ids db) ->
  run (session_of w)
    (UPDATE_borrowing_requests
       (fun r => String.eqb (borrowing_requests.id r) requestId)
       (borrowing_requests.set_decision status u (Date_now w) notes))
    db
  = (with_borrowing_requests db
       (map (decided w u notes requestId status) (tbl_borrowing_requests db)),
     None).
Proof.
  intros Hi Hu Hstaff Hprof. unfold run, candidate.
  cbn [session_of auth_uid NOW]. rewrite Hu.
  rewrite rls_update_accepted.
  2:{ intros r _. apply (staff_updates_request db u _ Hstaff). }
  cbn [option_map].
  assert (Hmap :
            map (fun r =>
                   if acts_on policies_borrowing_requests db (Some u) UPDATE
                        (fun r => String.eqb (borrowing_requests.id r)
                                    requestId) r
                   then borrowing_requests.touch (db_clock w)
                          (borrowing_requests.set_decision status u
                             (Date_now w) notes r)
                   else r) (tbl_borrowing_requests db)
            = map (decided w u notes requestId status)
                  (tbl_borrowing_requests db)).
  { apply map_ext. intros r. unfold decided, acts_on.
    rewrite (staff_sees_request db u r Hstaff).
    now rewrite (proj1 (staff_updates_request db u r Hstaff)). }
  rewrite Hmap.
  rewrite integrity_update_requests; [reflexivity | assumption |].
  intros r Hr. unfold decided.
  destruct (String.eqb (borrowing_requests.id r) requestId).
  - split; [reflexivity|].
    pose proof (foreign_keys_request db r Hi Hr) as Hrefs.
    unfold request_refs in *. cbn.
    rewrite !andb_true_iff in *. destruct Hrefs as [[H1 H2] _].
    repeat split; try assumption. now apply mem_string_In.
  - split; [reflexivity|]. now apply foreign_keys_request.
Qed.

(** The activity-log INSERT of any caller is accepted when the key is
    fresh and the request and the performer exist. *)
Lemma log_insert (s : session) (l : activity_logs.row) (db : database) :
  integrity db = true ->
  mem_string (activity_logs.id l)
             (map activity_logs.id (tbl_activity_logs db)) = false ->
  In (activity_logs.request_id l) (request_ids db) ->
  In (activity_logs.performed_by l) (profile_ids db) ->
  run s (INSERT_INTO_activity_logs l) db
  = (with_activity_logs db (tbl_activity_logs db ++ [l]), None).
Proof.
  intros Hi Hfresh Hreq Hby. unfold run, candidate, rls_insert. simpl.
  rewrite integrity_insert_log; try assumption; [reflexivity|].
  unfold log_refs. apply andb_true_iff. split; now apply mem_string_In.
Qed.

(** An UPDATE of items touches no other table. *)
Lemma update_items_frame (s : session) (where_ : items.row -> bool)
    (set : items.row -> items.row) (db : database) :
  let db' := fst (run s (UPDATE_items where_ set) db) in
  tbl_profiles db' = tbl_profiles db
  /\ tbl_user_roles db' = tbl_user_roles db
  /\ tbl_borrowing_requests db' = tbl_borrowing_requests db
  /\ tbl_activity_logs db' = tbl_activity_logs db.
Proof.
  unfold run, candidate.
  destruct (rls_update policies_items db (auth_uid s) where_
              (fun r => items.touch (NOW s) (set r)) (tbl_items db))
    as [t|]; simpl.
  - destruct (integrity (with_items db t)); simpl; repeat split; reflexivity.
  - repeat split; reflexivity.
Qed.

Lemma decided_id (w : world) (u : uuid) (notes : string) (requestId : uuid)
    (status : request_status) (r : borrowing_requests.row) :
  borrowing_requests.id (decided w u notes requestId status r)
  = borrowing_requests.id r.
Proof.
  unfold decided.
  now destruct (String.eqb (borrowing_requests.id r) requestId).
Qed.

Lemma decided_ids (w : world) (u : uuid) (notes : string) (requestId : uuid)
    (status : request_status) (rows : list borrowing_requests.row) :
  map borrowing_requests.id (map (decided w u notes requestId status) rows)
  = map borrowing_requests.id rows.
Proof.
  rewrite map_map. apply map_ext. intros r. apply decided_id.
Qed.

(** What a rejection by a staff member with a profile does. *)
Lemma reject_run (w : world) (selectedRequest : option BorrowingRequest)
    (notes : string) (r0 : borrowing_requests.row) (u : uuid)
    (db : database) :
  integrity db = true ->
  auth_user w = Some u ->
  staff db u ->
  In u (profile_ids db) ->
  In r0 (tbl_borrowing_requests db) ->
  ~ In (uuid_generate_v4 w 0) (map activity_logs.id (tbl_activity_logs db)) ->
  handleApproveReject w selectedRequest notes (borrowing_requests.id r0)
    rejected db
  = (with_activity_logs
       (after_decision w u notes (borrowing_requests.id r0) rejected db)
       (tbl_activity_logs db
        ++ [decision_entry w u notes (borrowing_requests.id r0) rejected]),
     toast_success "Permintaan ditolak").
Proof.
  intros Hintegrity Huser Hstaff Hprofile Hrequest Hfresh.
  pose proof (decision_update w u notes (borrowing_requests.id r0) rejected
                db Hintegrity Huser Hstaff Hprofile) as Hupd.
  pose proof (run_integrity (session_of w)
                (UPDATE_borrowing_requests
                   (fun r => String.eqb (borrowing_requests.id r)
                               (borrowing_requests.id r0))
                   (borrowing_requests.set_decision rejected u (Date_now w)
                      notes))
                db Hintegrity) as Hi1.
  rewrite Hupd in Hi1. cbn [fst] in Hi1.
  assert (Hlog := log_insert (session_of w)
                    (decision_entry w u notes (borrowing_requests.id r0)
                       rejected)
                    (after_decision w u notes (borrowing_requests.id r0)
                       rejected db) Hi1).
  unfold handleApproveReject. rewrite Huser, Hupd.
  cbn [request_status_eqb].
  fold (after_decision w u notes (borrowing_requests.id r0) rejected db).
  assert (Hgo : fst (run (session_of w)
                       (INSERT_INTO_activity_logs
                          (decision_entry w u notes
                             (borrowing_requests.id r0) rejected))
                       (after_decision w u notes
                          (borrowing_requests.id r0) rejected db))
                = with_activity_logs
                    (after_decision w u notes
                       (borrowing_requests.id r0) rejected db)
                    (tbl_activity_logs db
                     ++ [decision_entry w u notes
                           (borrowing_requests.id r0) rejected])).
  { rewrite Hlog.
    - reflexivity.
    - apply mem_string_false. exact Hfresh.
    - unfold request_ids, after_decision. cbn. rewrite decided_ids.
      now apply in_map.
    - exact Hprofile. }
  unfold decision_entry in Hgo. cbn [request_status_eqb] in Hgo.
  destruct selectedRequest; now rewrite Hgo.
Qed.

(** C7. Rejecting an existing request (in particular a pending one) as
    admin or guru sets its status to rejected and records the approver and
    the time of the decision, leaves the items table, hence every asset's
    status, as it was, and appends exactly one activity-log entry, whose
    action is "reject". *)
Theorem reject_effect
    (w : world) (selectedRequest : option BorrowingRequest)
    (approvalNotes : string) (r0 : borrowing_requests.row) (u : uuid)
    (db : database)
    (Hintegrity : integrity db = true)
    (Huser : auth_user w = Some u)
    (Hstaff : staff db u)
    (Hprofile : In u (profile_ids db))
    (Hrequest : In r0 (tbl_borrowing_requests db))
    (Hfresh : ~ In (uuid_generate_v4 w 0)
                (map activity_logs.id (tbl_activity_logs db))) :
  let result :=
    handleApproveReject w selectedRequest approvalNotes
      (borrowing_requests.id r0) rejected db in
  snd result = toast_success "Permintaan ditolak"
  /\ tbl_borrowing_requests (fst result)
     = map (decided w u approvalNotes (borrowing_requests.id r0) rejected)
           (tbl_borrowing_requests db)
  /\ (exists r',
         In r' (tbl_borrowing_requests (fst result))
         /\ borrowing_requests.id r' = borrowing_requests.id r0
         /\ borrowing_requests.status r' = Some rejected
         /\ borrowing_requests.approved_by r' = Some u
         /\ borrowing_requests.approved_at r' = Some (Date_now w))
  /\ tbl_items (fst result) = tbl_items db
  /\ (exists l,
         tbl_activity_logs (fst result) = tbl_activity_logs db ++ [l]
         /\ l = activity_logs.inserted (uuid_generate_v4 w 0) (db_clock w)
                  (borrowing_requests.id r0) "reject" u (Some approvalNotes)
         /\ activity_logs.action l = "reject"
         /\ activity_logs.request_id l = borrowing_requests.id r0
         /\ activity_logs.performed_by l = u
         /\ activity_logs.notes l = Some approvalNotes
         /\ activity_logs.id l = uuid_generate_v4 w 0
         /\ activity_logs.created_at l = Some (db_clock w)).
Proof.
  intros result.
  assert (Hres := reject_run w selectedRequest approvalNotes r0 u db
                    Hintegrity Huser Hstaff Hprofile Hrequest Hfresh).
  fold result in Hres. rewrite Hres. cbn [fst snd].
  split; [reflexivity|]. split; [reflexivity|]. split; [|split].
  - exists (decided w u approvalNotes (borrowing_requests.id r0) rejected r0).
    split.
    + cbn. now apply in_map.
    + unfold decided. rewrite String.eqb_refl. cbn. repeat split.
  - reflexivity.
  - exists (decision_entry w u approvalNotes (borrowing_requests.id r0)
              rejected).
    cbn. repeat split.
Qed.

(** The guru of the small school rejects the pending request. *)
Lemma reject_effect_witness :
  snd (handleApproveReject (School.browser (Some School.id_guru)) None
         "Ruangan dipakai ujian" School.id_request rejected
         (School.db tersedia pending))
  = toast_success "Permintaan ditolak".
Proof.
  refine (proj1 (reject_effect (School.browser (Some School.id_guru)) None
                   "Ruangan dipakai ujian" (School.request pending)
                   School.id_guru (School.db tersedia pending)
                   eq_refl eq_refl eq_refl _ _ _)).
  - simpl. tauto.
  - simpl. tauto.
  - apply mem_string_false. reflexivity.
Defined.

(** The item UPDATE of an approval touches no other table, and keeps the
    constraints. *)
Lemma item_statement_frame (w : world) (it : items.row) (db : database) :
  let db' := after_item_update w it db in
  tbl_profiles db' = tbl_profiles db
  /\ tbl_user_roles db' = tbl_user_roles db
  /\ tbl_borrowing_requests db' = tbl_borrowing_requests db
  /\ tbl_activity_logs db' = tbl_activity_logs db.
Proof.
  unfold after_item_update, item_statement, update_items_eq_id.
  destruct (uuid_in (items.name it)) as [i0|].
  - apply update_items_frame.
  - cbn. repeat split.
Qed.

Lemma item_statement_integrity (w : world) (it : items.row) (db : database) :
  integrity db = true -> integrity (after_item_update w it db) = true.
Proof.
  intros Hi. unfold after_item_update, item_statement, update_items_eq_id.
  destruct (uuid_in (items.name it)) as [i0|].
  - now apply run_integrity.
  - exact Hi.
Qed.

(** A refused item UPDATE leaves the database as it was. *)
Lemma item_statement_refused (w : world) (it : items.row) (db : database) :
  snd (item_statement w it db) <> None -> after_item_update w it db = db.
Proof.
  unfold after_item_update, item_statement, update_items_eq_id.
  destruct (uuid_in (items.name it)) as [i0|]; [|reflexivity].
  unfold run.
  destruct (candidate (session_of w)
              (UPDATE_items (fun i => String.eqb (items.id i) i0)
                 (items.set_status (Some dipinjam))) db) as [c|];
    [|reflexivity].
  destruct (integrity c); [|reflexivity].
  intros H. now contradiction H.
Qed.

(** What an approval by a staff member with a profile does, for a selected
    request whose item is embedded. *)
Lemma approve_run (w : world) (sel : BorrowingRequest) (it : items.row)
    (notes : string) (r0 : borrowing_requests.row) (u : uuid)
    (db : database) :
  integrity db = true ->
  auth_user w = Some u ->
  staff db u ->
  In u (profile_ids db) ->
  In r0 (tbl_borrowing_requests db) ->
  ~ In (uuid_generate_v4 w 0) (map activity_logs.id (tbl_activity_logs db)) ->
  embedded_items sel = Some it ->
  handleApproveReject w (Some sel) notes (borrowing_requests.id r0) approved
    db
  = (with_activity_logs
       (after_item_update w it
          (after_decision w u notes (borrowing_requests.id r0) approved db))
       (tbl_activity_logs db
        ++ [decision_entry w u notes (borrowing_requests.id r0) approved]),
     toast_success "Permintaan disetujui").
Proof.
  intros Hintegrity Huser Hstaff Hprofile Hrequest Hfresh Hitem.
  pose proof (decision_update w u notes (borrowing_requests.id r0) approved
                db Hintegrity Huser Hstaff Hprofile) as Hupd.
  pose proof (run_integrity (session_of w)
                (UPDATE_borrowing_requests
                   (fun r => String.eqb (borrowing_requests.id r)
                               (borrowing_requests.id r0))
                   (borrowing_requests.set_decision approved u (Date_now w)
                      notes))
                db Hintegrity) as Hi1.
  rewrite Hupd in Hi1. cbn [fst] in Hi1.
  fold (after_decision w u notes (borrowing_requests.id r0) approved db)
    in Hi1, Hupd.
  set (db1 := after_decision w u notes (borrowing_requests.id r0) approved db)
    in *.
  pose proof (item_statement_integrity w it db1 Hi1) as Hi2.
  destruct (item_statement_frame w it db1) as [Fp [_ [Fr Fl]]].
  assert (Hlog := log_insert (session_of w)
                    (decision_entry w u notes (borrowing_requests.id r0)
                       approved)
                    (after_item_update w it db1) Hi2).
  unfold handleApproveReject. rewrite Huser, Hupd, Hitem.
  cbn [request_status_eqb].
  fold (item_statement w it db1). fold (after_item_update w it db1).
  unfold decision_entry in Hlog. cbn [request_status_eqb] in Hlog.
  rewrite Hlog.
  - cbn [fst]. rewrite Fl. reflexivity.
  - rewrite Fl. apply mem_string_false. exact Hfresh.
  - unfold request_ids. rewrite Fr. unfold db1, after_decision. cbn.
    rewrite decided_ids. now apply in_map.
  - unfold profile_ids. rewrite Fp. exact Hprofile.
Qed.

(** C1 (as amended). An approval by admin or guru makes no check of the
    asset: whatever the status of the referenced item, the request gets
    status approved with approver, time and notes recorded, the handler
    reports success (no conflict is signalled) and one entry is logged, whose
    action is "approve".  The request UPDATE and the item UPDATE are two
    statements: the first one is accepted and leaves the request approved
    with every item as it was; the second one runs on that state, and when
    it is refused the items stay as they were while the request stays
    approved and success is reported. *)
Theorem approve_without_availability_check
    (w : world) (sel : BorrowingRequest) (it : items.row)
    (approvalNotes : string) (r0 : borrowing_requests.row) (u : uuid)
    (db : database)
    (Hintegrity : integrity db = true)
    (Huser : auth_user w = Some u)
    (Hstaff : staff db u)
    (Hprofile : In u (profile_ids db))
    (Hrequest : In r0 (tbl_borrowing_requests db))
    (Hfresh : ~ In (uuid_generate_v4 w 0)
                (map activity_logs.id (tbl_activity_logs db)))
    (Hitem : embedded_items sel = Some it) :
  let result :=
    handleApproveReject w (Some sel) approvalNotes
      (borrowing_requests.id r0) approved db in
  let committed :=
    after_decision w u approvalNotes (borrowing_requests.id r0) approved db in
  snd result = toast_success "Permintaan disetujui"
  /\ tbl_borrowing_requests (fst result)
     = map (decided w u approvalNotes (borrowing_requests.id r0) approved)
           (tbl_borrowing_requests db)
  /\ (exists r',
         In r' (tbl_borrowing_requests (fst result))
         /\ borrowing_requests.id r' = borrowing_requests.id r0
         /\ borrowing_requests.status r' = Some approved
         /\ borrowing_requests.approved_by r' = Some u
         /\ borrowing_requests.approved_at r' = Some (Date_now w)
         /\ borrowing_requests.approval_notes r' = Some approvalNotes)
  /\ (exists l,
         tbl_activity_logs (fst result) = tbl_activity_logs db ++ [l]
         /\ l = activity_logs.inserted (uuid_generate_v4 w 0) (db_clock w)
                  (borrowing_requests.id r0) "approve" u (Some approvalNotes)
         /\ activity_logs.action l = "approve"
         /\ activity_logs.request_id l = borrowing_requests.id r0
         /\ activity_logs.performed_by l = u
         /\ activity_logs.notes l = Some approvalNotes
         /\ activity_logs.id l = uuid_generate_v4 w 0
         /\ activity_logs.created_at l = Some (db_clock w))
  /\ run (session_of w)
       (UPDATE_borrowing_requests
          (fun r => String.eqb (borrowing_requests.id r)
                      (borrowing_requests.id r0))
          (borrowing_requests.set_decision approved u (Date_now w)
             approvalNotes))
       db
     = (committed, None)
  /\ tbl_items committed = tbl_items db
  /\ tbl_items (fst result) = tbl_items (fst (item_statement w it committed))
  /\ (snd (item_statement w it committed) <> None ->
      tbl_items (fst result) = tbl_items db).
Proof.
  intros result committed.
  assert (Hres := approve_run w sel it approvalNotes r0 u db Hintegrity Huser
                    Hstaff Hprofile Hrequest Hfresh Hitem).
  fold result committed in Hres.
  destruct (item_statement_frame w it committed) as [_ [_ [Fr _]]].
  assert (Hrows : tbl_borrowing_requests (fst result)
                  = map (decided w u approvalNotes (borrowing_requests.id r0)
                           approved)
                        (tbl_borrowing_requests db)).
  { rewrite Hres. cbn [fst with_activity_logs tbl_borrowing_requests].
    rewrite Fr. reflexivity. }
  split; [now rewrite Hres|]. split; [exact Hrows|].
  split; [|split; [|split; [|split; [|split]]]].
  - exists (decided w u approvalNotes (borrowing_requests.id r0) approved r0).
    split.
    + rewrite Hrows. now apply in_map.
    + unfold decided. rewrite String.eqb_refl. cbn. repeat split.
  - exists (decision_entry w u approvalNotes (borrowing_requests.id r0)
              approved).
    split; [now rewrite Hres|]. cbn. repeat split.
  - exact (decision_update w u approvalNotes (borrowing_requests.id r0)
             approved db Hintegrity Huser Hstaff Hprofile).
  - reflexivity.
  - now rewrite Hres.
  - intros Hrefused. rewrite Hres. cbn [fst with_activity_logs tbl_items].
    now rewrite (item_statement_refused w it committed Hrefused).
Qed.

(** The admin of the small school approves the pending request for the key
    while the key is available: success is reported; the item UPDATE is
    refused, and the items are as before. *)
Lemma approve_without_availability_check_witness :
  snd (handleApproveReject (School.browser (Some School.id_admin))
         (hd_error (fetchRequests
                      (session_of (School.browser (Some School.id_admin)))
                      (School.db tersedia pending)))
         "Harap kembalikan tepat waktu" School.id_request approved
         (School.db tersedia pending))
  = toast_success "Permintaan disetujui"
  /\ tbl_items
       (fst (handleApproveReject (School.browser (Some School.id_admin))
               (hd_error (fetchRequests
                            (session_of
                               (School.browser (Some School.id_admin)))
                            (School.db tersedia pending)))
               "Harap kembalikan tepat waktu" School.id_request approved
               (School.db tersedia pending)))
     = tbl_items (School.db tersedia pending).
Proof.
  assert (Hprofile : In School.id_admin
                       (profile_ids (School.db tersedia pending)))
    by (simpl; tauto).
  assert (Hrequest : In (School.request pending)
                       (tbl_borrowing_requests (School.db tersedia pending)))
    by (simpl; tauto).
  assert (Hfresh : ~ In (uuid_generate_v4
                           (School.browser (Some School.id_admin)) 0)
                     (map activity_logs.id
                        (tbl_activity_logs (School.db tersedia pending))))
    by (apply mem_string_false; reflexivity).
  destruct (approve_without_availability_check
              (School.browser (Some School.id_admin))
              (mkBorrowingRequest (School.request pending)
                 (Some (School.kunci tersedia))
                 (Some School.p_siswa))
              (School.kunci tersedia)
              "Harap kembalikan tepat waktu" (School.request pending)
              School.id_admin (School.db tersedia pending)
              eq_refl eq_refl eq_refl Hprofile Hrequest Hfresh eq_refl)
    as (Hsuccess & _ & _ & _ & _ & _ & _ & Hrefused).
  split.
  - exact Hsuccess.
  - apply Hrefused. vm_compute. discriminate.
Defined.

(** C1, counterexample.  The key is already on loan (dipinjam, so not
    available) when the admin approves the pending request for it: the
    approval is not refused, the handler reports success and the request is
    approved. *)
Lemma approve_of_loaned_item_not_refused :
  map items.status (tbl_items (School.db dipinjam pending))
  = [Some dipinjam; Some tersedia]
  /\ snd (handleApproveReject (School.browser (Some School.id_admin))
            (hd_error (fetchRequests
                         (session_of (School.browser (Some School.id_admin)))
                         (School.db dipinjam pending)))
            "" School.id_request approved (School.db dipinjam pending))
     = toast_success "Permintaan disetujui"
  /\ map borrowing_requests.status
       (tbl_borrowing_requests
          (fst (handleApproveReject (School.browser (Some School.id_admin))
                  (hd_error (fetchRequests
                               (session_of
                                  (School.browser (Some School.id_admin)))
                               (School.db dipinjam pending)))
                  "" School.id_request approved
                  (School.db dipinjam pending))))
     = [Some approved].
Proof. vm_compute. repeat split. Qed.

(** When the selected item's name, read as a uuid, is the id of no item,
    the item UPDATE of an approval changes nothing. *)
Lemma item_update_by_name_misses (w : world) (it : items.row)
    (db : database) :
  (forall i0, uuid_in (items.name it) = Some i0 -> ~ In i0 (item_ids db)) ->
  after_item_update w it db = db.
Proof.
  intros Hmiss.
  unfold after_item_update, item_statement, update_items_eq_id.
  destruct (uuid_in (items.name it)) as [i0|]; [|reflexivity].
  unfold run, candidate.
  rewrite rls_update_nothing.
  - cbn [option_map]. rewrite with_items_same. now destruct (integrity db).
  - intros i Hi. unfold acts_on.
    destruct (String.eqb_spec (items.id i) i0) as [E|E].
    + exfalso. apply (Hmiss i0 eq_refl). subst i0. now apply in_map.
    + apply andb_false_r.
Qed.

(** C2, the code at the failing input.  The admin approves the pending
    request for the available key "Kunci Lab Komputer 1": the request
    becomes approved, and the key stays available (tersedia), because the
    item UPDATE looks for an item whose id is the key's name. *)
Theorem approve_leaves_item_available :
  map borrowing_requests.status
    (tbl_borrowing_requests
       (fst (handleApproveReject (School.browser (Some School.id_admin))
               (hd_error (fetchRequests
                            (session_of
                               (School.browser (Some School.id_admin)))
                            (School.db tersedia pending)))
               "" School.id_request approved (School.db tersedia pending))))
  = [Some approved]
  /\ map (fun i => (items.name i, items.status i))
       (tbl_items
          (fst (handleApproveReject (School.browser (Some School.id_admin))
                  (hd_error (fetchRequests
                               (session_of
                                  (School.browser (Some School.id_admin)))
                               (School.db tersedia pending)))
                  "" School.id_request approved
                  (School.db tersedia pending))))
     = [("Kunci Lab Komputer 1", Some tersedia);
        ("Infokus 01", Some tersedia)].
Proof. vm_compute. repeat split. Qed.

(* ------------------------------------------------------------------ *)
(** ** Creating a request *)

Lemma run_accepted (s : session) (q : statement) (db db' : database) :
  run s q db = (db', None) ->
  candidate s q db = Some db' /\ integrity db' = true.
Proof.
  unfold run. destruct (candidate s q db) as [c|]; [|discriminate].
  destruct (integrity c) eqn:E; [|discriminate].
  intros H. injection H as <-. now split.
Qed.

(** An INSERT into activity_logs touches no other table and at most adds
    the row. *)
Lemma insert_log_frame (s : session) (l : activity_logs.row)
    (db : database) :
  let db' := fst (run s (INSERT_INTO_activity_logs l) db) in
  tbl_profiles db' = tbl_profiles db
  /\ tbl_user_roles db' = tbl_user_roles db
  /\ tbl_items db' = tbl_items db
  /\ tbl_borrowing_requests db' = tbl_borrowing_requests db
  /\ (tbl_activity_logs db' = tbl_activity_logs db
      \/ tbl_activity_logs db' = tbl_activity_logs db ++ [l]).
Proof.
  unfold run, candidate, rls_insert.
  destruct (passes_check policies_activity_logs db (auth_uid s) INSERT l);
    cbn [option_map].
  - destruct (integrity (with_activity_logs db (tbl_activity_logs db ++ [l])));
      cbn; repeat split; auto.
  - cbn. repeat split; auto.
Qed.

Lemma falsy_false (s : string) : s <> "" -> falsy s = false.
Proof. intros H. unfold falsy. now apply String.eqb_neq. Qed.

Lemma falsy_true (s : string) : falsy s = true -> s = "".
Proof. unfold falsy. apply String.eqb_eq. Qed.

(** The caller sees the rows whose borrower he is. *)
Lemma borrower_sees_request (db : database) (u : uuid)
    (r : borrowing_requests.row) :
  borrowing_requests.borrower_id r = u ->
  passes_using policies_borrowing_requests db (Some u) SELECT r = true.
Proof.
  intros <-. unfold passes_using. cbn. now rewrite String.eqb_refl.
Qed.

(** A text [Date_parse] reads is a date of the browser, and the database
    takes its instant. *)
Lemma Date_parse_four_digit_year (offset : Z -> Z) (s : string) (t : Z) :
  Date_parse offset s = Some t -> four_digit_year t = true.
Proof.
  assert (Hmake : forall y mo d h mi sec,
             make_time offset y mo d h mi sec = Some t ->
             four_digit_year t = true).
  { intros y mo d h mi sec. unfold make_time.
    destruct ((1 <=? mo) && (mo <=? 12) && (1 <=? d)
              && (d <=? days_in_month y mo) && (h <=? 23) && (mi <=? 59)
              && (sec <=? 59)); [|discriminate].
    cbv zeta.
    destruct (four_digit_year _) eqn:E; [|discriminate].
    intros H. injection H as <-. exact E. }
  unfold Date_parse.
  destruct (separator s 4 "-" && separator s 7 "-" && separator s 10 "T"
            && separator s 13 ":"); [|discriminate].
  destruct (field s 0 4) as [y|]; [|discriminate].
  destruct (field s 5 2) as [mo|]; [|discriminate].
  destruct (field s 8 2) as [d|]; [|discriminate].
  destruct (field s 11 2) as [h|]; [|discriminate].
  destruct (field s 14 2) as [mi|]; [|discriminate].
  destruct (Nat.eqb (String.length s) 16); [apply Hmake|].
  destruct (Nat.eqb (String.length s) 19 && separator s 16 ":");
    [|discriminate].
  destruct (field s 17 2) as [sec|]; [apply Hmake | discriminate].
Qed.

Lemma Date_parse_new_Date (w : world) (s : string) (t : timestamptz) :
  Date_parse (utc_offset_minutes w) s = Some t -> new_Date w s = Some t.
Proof. intros H. unfold new_Date. now rewrite H. Qed.

Lemma Date_parse_accepted (w : world) (s : string) (t : timestamptz) :
  Date_parse (utc_offset_minutes w) s = Some t ->
  timestamptz_accepted w t = true.
Proof.
  intros H. unfold timestamptz_accepted.
  now rewrite (Date_parse_four_digit_year _ _ _ H).
Qed.

(** The handler changes the requests table only by a successful INSERT of
    the row built from the form. *)
Lemma handleBorrowRequest_cases (w : world) (st : ItemsForm)
    (db : database) :
  fst (handleBorrowRequest w st db) = db
  /\ (forall msg, snd (handleBorrowRequest w st db) <> toast_success msg)
  \/ exists item u start_ end_,
      complete st item
      /\ auth_user w = Some u
      /\ new_Date w (startTime st) = Some start_
      /\ new_Date w (endTime st) = Some end_
      /\ run (session_of w)
           (INSERT_INTO_borrowing_requests (requested w item u st start_ end_))
           db
         = (with_borrowing_requests db
              (tbl_borrowing_requests db
               ++ [requested w item u st start_ end_]), None)
      /\ snd (handleBorrowRequest w st db)
         = toast_success "Permintaan peminjaman berhasil dibuat"
      /\ tbl_borrowing_requests (fst (handleBorrowRequest w st db))
         = tbl_borrowing_requests db ++ [requested w item u st start_ end_]
      /\ tbl_items (fst (handleBorrowRequest w st db)) = tbl_items db
      /\ tbl_user_roles (fst (handleBorrowRequest w st db))
         = tbl_user_roles db.
Proof.
  unfold handleBorrowRequest.
  destruct (selectedItem st) as [item|] eqn:Hsel;
    [|left; split; [reflexivity | intros msg; discriminate]].
  destruct (falsy (purpose st)) eqn:Hp;
    [left; split; [reflexivity | intros msg; discriminate]|].
  destruct (falsy (startTime st)) eqn:Hs;
    [left; split; [reflexivity | intros msg; discriminate]|].
  destruct (falsy (endTime st)) eqn:He;
    [left; split; [reflexivity | intros msg; discriminate]|].
  cbn [orb].
  destruct (auth_user w) as [u|] eqn:Hu;
    [|left; split; [reflexivity | intros msg; discriminate]].
  destruct (new_Date w (startTime st)) as [start_|] eqn:Hstart;
    [|left; split; [reflexivity | intros msg; discriminate]].
  destruct (new_Date w (endTime st)) as [end_|] eqn:Hend;
    [|left; split; [reflexivity | intros msg; discriminate]].
  fold (requested w item u st start_ end_).
  destruct (timestamptz_accepted w start_ && timestamptz_accepted w end_);
    [|left; split; [reflexivity | intros msg; discriminate]].
  destruct (run (session_of w)
              (INSERT_INTO_borrowing_requests
                 (requested w item u st start_ end_)) db)
    as [db1 [err|]] eqn:Hrun;
    [left; split; [reflexivity | intros msg; discriminate]|].
  right. exists item, u, start_, end_.
  assert (Hdb1 : db1 = with_borrowing_requests db
                         (tbl_borrowing_requests db
                          ++ [requested w item u st start_ end_])).
  { apply run_accepted in Hrun. destruct Hrun as [Hc _].
    unfold candidate, rls_insert in Hc.
    destruct (passes_check policies_borrowing_requests db
                (auth_uid (session_of w)) INSERT
                (requested w item u st start_ end_)); [|discriminate].
    cbn [option_map] in Hc. now injection Hc as <-. }
  assert (Hne : forall s, falsy s = false -> s <> "").
  { intros s Hf E. subst s. discriminate. }
  split; [repeat split; auto|].
  split; [reflexivity|]. split; [auto|]. split; [auto|].
  split; [now rewrite <- Hdb1|].
  cbn [fst snd]. split; [reflexivity|].
  destruct (latest_created (select_borrowing_requests (session_of w) db1))
    as [r|].
  - destruct (insert_log_frame (session_of w)
                (activity_logs.inserted (uuid_generate_v4 w 1) (db_clock w)
                   (borrowing_requests.id r) "request" u
                   (Some ("Mengajukan peminjaman " ++ items.name item)%string))
                db1) as [_ [Fu [Fi [Fr _]]]].
    rewrite Fr, Fi, Fu, Hdb1. repeat split.
  - rewrite Hdb1. repeat split.
Qed.

Lemma find_app {A} (f : A -> bool) (l1 l2 : list A) :
  find f (l1 ++ l2)
  = match find f l1 with
    | Some x => Some x
    | None => find f l2
    end.
Proof.
  induction l1 as [|a l1 IH]; simpl; [reflexivity|].
  now destruct (f a).
Qed.

Lemma find_absent {A} (f : A -> bool) (l : list A) :
  (forall a, In a l -> f a = false) -> find f l = None.
Proof.
  intros H. induction l as [|a l IH]; simpl; [reflexivity|].
  rewrite (H a (or_introl eq_refl)). apply IH. intros b Hb. apply H. now right.
Qed.

Lemma has_role_ext (db db' : database) (uid : option uuid) (ro : app_role) :
  tbl_user_roles db' = tbl_user_roles db ->
  has_role db' uid ro = has_role db uid ro.
Proof. intros H. unfold has_role. now rewrite H. Qed.

Lemma request_visibility_ext (db db' : database) (uid : option uuid)
    (r : borrowing_requests.row) :
  tbl_user_roles db' = tbl_user_roles db ->
  passes_using policies_borrowing_requests db' uid SELECT r
  = passes_using policies_borrowing_requests db uid SELECT r.
Proof.
  intros H. unfold passes_using. cbn.
  now rewrite !(has_role_ext db db' uid _ H).
Qed.

(** Under the constraints, the INSERT of [handleBorrowRequest] is
    accepted. *)
Lemma insert_request_accepted (w : world) (st : ItemsForm) (item : items.row)
    (u : uuid) (start_ end_ : timestamptz) (db : database) :
  integrity db = true ->
  auth_user w = Some u ->
  In u (profile_ids db) ->
  In (items.id item) (item_ids db) ->
  ~ In (uuid_generate_v4 w 0) (request_ids db) ->
  run (session_of w)
    (INSERT_INTO_borrowing_requests (requested w item u st start_ end_)) db
  = (with_borrowing_requests db
       (tbl_borrowing_requests db ++ [requested w item u st start_ end_]),
     None).
Proof.
  intros Hi Hu Hprof Hitem Hfresh. unfold run, candidate, rls_insert.
  cbn [session_of auth_uid]. rewrite Hu.
  assert (Hchk : passes_check policies_borrowing_requests db (Some u) INSERT
                   (requested w item u st start_ end_) = true).
  { unfold passes_check. cbn. now rewrite String.eqb_refl. }
  rewrite Hchk. cbn [option_map].
  rewrite integrity_insert_request; [reflexivity | assumption | |].
  - apply mem_string_false. exact Hfresh.
  - unfold request_refs. cbn. rewrite !andb_true_iff. repeat split.
    + now apply mem_string_In.
    + now apply mem_string_In.
Qed.

(** The handler's run when the form is complete, the dates are dates that
    the database takes and the INSERT is accepted. *)
Lemma new_Date_borrow_run (w : world) (st : ItemsForm) (item : items.row)
    (u : uuid) (start_ end_ : timestamptz) (db db1 : database) :
  complete st item ->
  auth_user w = Some u ->
  new_Date w (startTime st) = Some start_ ->
  new_Date w (endTime st) = Some end_ ->
  timestamptz_accepted w start_ = true ->
  timestamptz_accepted w end_ = true ->
  run (session_of w)
    (INSERT_INTO_borrowing_requests (requested w item u st start_ end_)) db
  = (db1, None) ->
  handleBorrowRequest w st db
  = (match latest_created (select_borrowing_requests (session_of w) db1) with
     | Some r =>
         fst (run (session_of w)
                (INSERT_INTO_activity_logs (request_entry w item u r)) db1)
     | None => db1
     end,
     toast_success "Permintaan peminjaman berhasil dibuat").
Proof.
  intros [Hsel [Hp [Hs He]]] Hu Hstart Hend Hstart_in Hend_in Hrun.
  unfold handleBorrowRequest.
  rewrite Hsel, (falsy_false _ Hp), (falsy_false _ Hs), (falsy_false _ He).
  cbn [orb]. rewrite Hu, Hstart, Hend, Hstart_in, Hend_in. cbn [andb].
  fold (requested w item u st start_ end_). rewrite Hrun.
  reflexivity.
Qed.

(** The same for the values of the date and time control. *)
Lemma borrow_run (w : world) (st : ItemsForm) (item : items.row) (u : uuid)
    (start_ end_ : timestamptz) (db db1 : database) :
  complete st item ->
  auth_user w = Some u ->
  Date_parse (utc_offset_minutes w) (startTime st) = Some start_ ->
  Date_parse (utc_offset_minutes w) (endTime st) = Some end_ ->
  run (session_of w)
    (INSERT_INTO_borrowing_requests (requested w item u st start_ end_)) db
  = (db1, None) ->
  handleBorrowRequest w st db
  = (match latest_created (select_borrowing_requests (session_of w) db1) with
     | Some r =>
         fst (run (session_of w)
                (INSERT_INTO_activity_logs (request_entry w item u r)) db1)
     | None => db1
     end,
     toast_success "Permintaan peminjaman berhasil dibuat").
Proof.
  intros Hform Hu Hstart Hend Hrun.
  apply (new_Date_borrow_run w st item u start_ end_ db db1); auto.
  - now apply Date_parse_new_Date.
  - now apply Date_parse_new_Date.
  - now apply (Date_parse_accepted w (startTime st)).
  - now apply (Date_parse_accepted w (endTime st)).
Qed.

(** A request that was created is among the rows its borrower reads, and a
    lookup by its id finds it. *)
Lemma created_row_found (w : world) (u : uuid) (row : borrowing_requests.row)
    (db db' : database) :
  auth_user w = Some u ->
  borrowing_requests.borrower_id row = u ->
  integrity (with_borrowing_requests db (tbl_borrowing_requests db ++ [row]))
  = true ->
  tbl_borrowing_requests db' = tbl_borrowing_requests db ++ [row] ->
  find (fun r => String.eqb (borrowing_requests.id r)
                   (borrowing_requests.id row))
       (select_borrowing_requests (session_of w) db')
  = Some row.
Proof.
  intros Hu Hb Hi Hrows. unfold select_borrowing_requests, rls_select.
  cbn [session_of auth_uid]. rewrite Hu, Hrows, filter_app, find_app.
  rewrite find_absent.
  - cbn [filter]. rewrite (borrower_sees_request db' u row Hb).
    cbn [find]. now rewrite String.eqb_refl.
  - intros r Hr. apply filter_In in Hr. destruct Hr as [Hr _].
    apply integrity_parts in Hi. destruct Hi as [Hp _].
    unfold primary_keys, request_ids in Hp. cbn in Hp.
    rewrite map_app in Hp. cbn [map] in Hp. rewrite unique_snoc in Hp.
    rewrite !andb_true_iff in Hp. destruct Hp as [[_ [_ Hq]] _].
    apply negb_true_iff in Hq.
    apply mem_string_false in Hq.
    apply String.eqb_neq. intros E. apply Hq. rewrite <- E.
    now apply in_map.
Qed.

(** C9. A borrowing request that was created successfully is read back by
    its borrower with the window the form supplied (the instants
    [new Date(startTime)] and [new Date(endTime)], whatever texts the browser
    reads as dates) and with status pending. *)
Theorem created_request_reads_back
    (w : world) (st : ItemsForm) (db : database) (msg : string)
    (Hcreated : snd (handleBorrowRequest w st db) = toast_success msg) :
  exists start_ end_ row,
    new_Date w (startTime st) = Some start_
    /\ new_Date w (endTime st) = Some end_
    /\ find (fun r => String.eqb (borrowing_requests.id r)
                        (uuid_generate_v4 w 0))
            (select_borrowing_requests (session_of w)
               (fst (handleBorrowRequest w st db)))
       = Some row
    /\ borrowing_requests.start_time row = start_
    /\ borrowing_requests.end_time row = end_
    /\ borrowing_requests.status row = Some pending.
Proof.
  destruct (handleBorrowRequest_cases w st db)
    as [[_ Hno] | [item [u [start_ [end_ H]]]]].
  - now apply Hno in Hcreated.
  - destruct H as [_ [Hu [Hs [He [Hrun [_ [Hrows _]]]]]]].
    exists start_, end_, (requested w item u st start_ end_).
    apply run_accepted in Hrun. destruct Hrun as [_ Hi].
    repeat split; try assumption.
    apply (created_row_found w u (requested w item u st start_ end_) db
             (fst (handleBorrowRequest w st db)) Hu eq_refl Hi Hrows).
Qed.

(** The round trip of the specification: a student at UTC+7 asks for the
    key from "2025-01-10T08:00" to "2025-01-10T10:00"; the row read back
    has the window 2025-01-10T01:00:00Z to 2025-01-10T03:00:00Z, the same
    two instants, and status pending. *)
Lemma created_request_reads_back_witness :
  exists row,
    find (fun r => String.eqb (borrowing_requests.id r) (School.fresh 0))
         (select_borrowing_requests
            (session_of (School.browser (Some School.id_siswa2)))
            (fst (handleBorrowRequest
                    (School.browser (Some School.id_siswa2))
                    (mkItemsForm (Some School.infokus) "Presentasi"
                       "2025-01-10T08:00" "2025-01-10T10:00")
                    (School.db tersedia pending))))
    = Some row
    /\ Date_parse (fun _ => 420) "2025-01-10T08:00"
       = Some (borrowing_requests.start_time row)
    /\ Date_parse (fun _ => 420) "2025-01-10T10:00"
       = Some (borrowing_requests.end_time row)
    /\ borrowing_requests.start_time row = 1736470800000
    /\ borrowing_requests.end_time row = 1736478000000
    /\ borrowing_requests.status row = Some pending.
Proof.
  destruct (created_request_reads_back
              (School.browser (Some School.id_siswa2))
              (mkItemsForm (Some School.infokus) "Presentasi"
                 "2025-01-10T08:00" "2025-01-10T10:00")
              (School.db tersedia pending)
              "Permintaan peminjaman berhasil dibuat" eq_refl)
    as [start_ [end_ [row [Hs [He [Hf [Hrs [Hre Hst]]]]]]]].
  exists row. vm_compute in Hs, He.
  injection Hs as Hs. injection He as He.
  repeat split.
  - exact Hf.
  - now rewrite Hrs, <- Hs.
  - now rewrite Hre, <- He.
  - now rewrite Hrs, <- Hs.
  - now rewrite Hre, <- He.
  - exact Hst.
Defined.




(* ------------------------------------------------------------------ *)
(** ** Overdue *)

Lemma live_overdueb_spec (now : timestamptz) (r : borrowing_requests.row) :
  live_overdueb now r = true <-> live_overdue now r.
Proof.
  unfold live_overdueb, live_overdue. split.
  - destruct (borrowing_requests.status r) as [[]|]; try discriminate.
    destruct (borrowing_requests.returned_at r); try discriminate.
    intros H. apply Z.ltb_lt in H. repeat split. lia.
  - intros [H1 [H2 H3]]. rewrite H1, H2. apply Z.ltb_lt. lia.
Qed.

Lemma count_ext {A} (f g : A -> bool) (l : list A) :
  (forall a, f a = g a) -> count f l = count g l.
Proof.
  intros H. unfold count. f_equal. f_equal. now apply filter_ext.
Qed.

Lemma everyone_sees_items (s : session) (db : database) :
  select_items s db = tbl_items db.
Proof.
  unfold select_items, rls_select. now apply filter_all.
Qed.

Lemma staff_sees_all_requests (s : session) (u : uuid) (db : database) :
  auth_uid s = Some u -> staff db u ->
  select_borrowing_requests s db = tbl_borrowing_requests db.
Proof.
  intros Hu Hstaff. unfold select_borrowing_requests, rls_select.
  rewrite Hu. apply filter_all. intros r _.
  now apply staff_sees_request.
Qed.

(** C5 (as amended). On the report page the overdue figure is computed at
    read time: it is the number of requests, among those the caller may
    read (all of them for admin and guru), that are approved, not returned
    and past their end at the browser's clock.  The dashboard's overdue
    figure is something else: the number of items whose stored status is
    overdue, whatever the requests and the clock say. *)
Theorem overdue_figures
    (s : session) (now : timestamptz) (profile_id : option uuid)
    (db : database) :
  BorrowingStats.overdueItems (Reports.stats (Reports.fetchReportData s now db))
  = count (live_overdueb now) (select_borrowing_requests s db)
  /\ (forall r, live_overdueb now r = true <-> live_overdue now r)
  /\ (forall u, auth_uid s = Some u -> staff db u ->
                select_borrowing_requests s db = tbl_borrowing_requests db)
  /\ Dashboard.overdueItems (Dashboard.fetchStats s profile_id db)
     = count (fun i => is_value item_status_eqb (items.status i) overdue)
             (tbl_items db).
Proof.
  split; [|split; [|split]].
  - cbn. apply count_ext. intros r.
    unfold Reports.is_approved, live_overdueb, is_value, truthy.
    destruct (borrowing_requests.status r) as [[]|];
      destruct (borrowing_requests.returned_at r); reflexivity.
  - intros r. apply live_overdueb_spec.
  - intros u. apply staff_sees_all_requests.
  - cbn. now rewrite everyone_sees_items.
Qed.

(** C5, counterexample.  The request for the key is approved, not returned
    and its window ended at 2025-01-10T10:00Z; one minute later the key's
    stored status is still dipinjam.  One request is overdue by the live
    predicate and the report says 1, but the dashboard's overdue figure
    is 0. *)
Lemma dashboard_overdue_is_not_live :
  count (live_overdueb 1736503260000)
    (tbl_borrowing_requests (School.db dipinjam approved)) = 1
  /\ BorrowingStats.overdueItems
       (Reports.stats
          (Reports.fetchReportData
             (mksession (Some School.id_admin) 1736503260000)
             1736503260000 (School.db dipinjam approved))) = 1
  /\ Dashboard.overdueItems
       (Dashboard.fetchStats
          (mksession (Some School.id_admin) 1736503260000)
          (Some School.id_admin) (School.db dipinjam approved)) = 0.
Proof. vm_compute. repeat split. Qed.

(* ------------------------------------------------------------------ *)
(** ** Department statistics *)

Section Departments.
Import Reports.

Lemma count_snoc {A} (f : A -> bool) (l : list A) (x : A) :
  count f (l ++ [x]) = count f l + (if f x then 1 else 0).
Proof.
  unfold count. rewrite filter_app, length_app. cbn [filter].
  destruct (f x); cbn [List.length]; lia.
Qed.

Lemma count_nonneg {A} (f : A -> bool) (l : list A) : 0 <= count f l.
Proof. unfold count. lia. Qed.

Lemma count_none {A} (f : A -> bool) (l : list A) :
  (forall a, In a l -> f a = false) -> count f l = 0.
Proof.
  intros H. unfold count.
  replace (filter f l) with (@nil A); [reflexivity|].
  symmetry. induction l as [|a l IH]; cbn; [reflexivity|].
  rewrite (H a (or_introl eq_refl)). apply IH. intros b Hb. apply H.
  now right.
Qed.

Lemma count_positive {A} (f : A -> bool) (l : list A) :
  0 < count f l -> exists a, In a l /\ f a = true.
Proof.
  unfold count. destruct (filter f l) as [|a l'] eqn:E; cbn; [lia|].
  intros _. exists a. apply filter_In. rewrite E. now left.
Qed.

Lemma Map_has_keys {V} (k : string) (m : Map V) :
  Map_has k m = true <-> In k (map fst m).
Proof.
  unfold Map_has. rewrite existsb_exists, in_map_iff. split.
  - intros [e [He Hk]]. apply String.eqb_eq in Hk. now exists e.
  - intros [e [Hk He]]. exists e. split; [assumption|].
    now apply String.eqb_eq.
Qed.

Lemma Map_get_absent {V} (k : string) (m : Map V) :
  Map_has k m = false -> find (fun e => String.eqb (fst e) k) m = None.
Proof.
  unfold Map_has. intros H. apply find_absent. intros e He.
  destruct (String.eqb (fst e) k) eqn:E; [|reflexivity].
  assert (existsb (fun e => String.eqb (fst e) k) m = true)
    by (apply existsb_exists; now exists e).
  congruence.
Qed.

Lemma Map_get_present {V} (k : string) (m : Map V) :
  Map_has k m = true -> exists v, Map_get k m = Some v /\ In (k, v) m.
Proof.
  unfold Map_has, Map_get. intros H.
  destruct (find (fun e => String.eqb (fst e) k) m) as [[k' v]|] eqn:E.
  - apply find_some in E. destruct E as [Hin Hk]. cbn in Hk.
    apply String.eqb_eq in Hk. subst k'. now exists v.
  - apply existsb_exists in H. destruct H as [e [He Hk]].
    apply (List.find_none _ m E) in He. congruence.
Qed.

End Departments.

Lemma NoDup_snoc {A} (l : list A) (x : A) :
  NoDup l -> ~ In x l -> NoDup (l ++ [x]).
Proof.
  intros Hnd Hx. induction Hnd as [|y l Hy Hnd IH]; cbn.
  - constructor; [intros []|constructor].
  - constructor.
    + intros Hin. apply in_app_or in Hin. destruct Hin as [Hin | [E | []]].
      * now apply Hy.
      * apply Hx. left. now symmetry.
    + apply IH. intros Hin. apply Hx. now right.
Qed.

Section Tally.
Import Reports.

Lemma tally_present (m : Map DepartmentStats.t) (record : dept_record) :
  Map_has (department_of record) m = true ->
  exists d0,
    In (department_of record, d0) m
    /\ tally m record
       = map (fun e => if String.eqb (fst e) (department_of record)
                       then (department_of record, bump record d0) else e) m.
Proof.
  intros H. destruct (Map_get_present _ m H) as [d0 [Hget Hin]].
  exists d0. split; [exact Hin|].
  unfold tally. cbv zeta. rewrite H. cbn [negb]. rewrite Hget.
  unfold Map_set. now rewrite H.
Qed.

Lemma tally_absent (m : Map DepartmentStats.t) (record : dept_record) :
  Map_has (department_of record) m = false ->
  tally m record
  = m ++ [(department_of record,
           bump record (DepartmentStats.mk (department_of record) 0 0))].
Proof.
  intros H. unfold tally. cbv zeta. rewrite H. cbn [negb].
  set (k := department_of record) in *.
  assert (H1 : Map_set k (DepartmentStats.mk k 0 0) m
               = m ++ [(k, DepartmentStats.mk k 0 0)]).
  { unfold Map_set. now rewrite H. }
  rewrite H1.
  assert (Hget : Map_get k (m ++ [(k, DepartmentStats.mk k 0 0)])
                 = Some (DepartmentStats.mk k 0 0)).
  { unfold Map_get. rewrite find_app, (Map_get_absent k m H).
    cbn. now rewrite String.eqb_refl. }
  rewrite Hget.
  assert (Hhas : Map_has k (m ++ [(k, DepartmentStats.mk k 0 0)]) = true).
  { apply Map_has_keys. rewrite map_app. apply in_or_app. right. now left. }
  unfold Map_set. rewrite Hhas, map_app. cbn [map fst].
  rewrite String.eqb_refl. f_equal.
  apply map_if_id. intros e He.
  destruct (String.eqb (fst e) k) eqn:E; [|reflexivity].
  apply String.eqb_eq in E.
  assert (Map_has k m = true).
  { apply Map_has_keys. rewrite <- E. now apply in_map. }
  congruence.
Qed.

Lemma tally_step (m : Map DepartmentStats.t) (done : list dept_record)
    (record : dept_record) :
  tallied m done -> tallied (tally m record) (done ++ [record]).
Proof.
  intros [Hnd Hcnt Hcov].
  set (k := department_of record).
  destruct (Map_has k m) eqn:Hhas.
  - destruct (tally_present m record Hhas) as [d0 [Hin0 Heq]].
    fold k in Hin0, Heq. rewrite Heq.
    assert (Hkeys : map fst
                      (map (fun e => if String.eqb (fst e) k
                                     then (k, bump record d0) else e) m)
                    = map fst m).
    { rewrite map_map. apply map_ext. intros e.
      destruct (String.eqb_spec (fst e) k) as [E|E]; [now rewrite E|].
      reflexivity. }
    constructor.
    + now rewrite Hkeys.
    + intros k' d' Hin. apply in_map_iff in Hin.
      destruct Hin as [[ke de] [He Hine]]. cbn [fst] in He.
      rewrite !count_snoc.
      destruct (String.eqb_spec ke k) as [E|E].
      * injection He as <- <-. subst ke.
        destruct (Hcnt k d0 Hin0) as [Hj [Ht [Ha H1]]].
        assert (Hof : of_department k record = true).
        { unfold of_department. fold k. apply String.eqb_refl. }
        unfold approved_of_department at 2. rewrite Hof.
        cbn [bump DepartmentStats.jurusan DepartmentStats.totalRequests
               DepartmentStats.approvedRequests andb].
        repeat split; try lia.
        -- exact Hj.
        -- destruct (is_value request_status_eqb (record_status record)
                       approved); lia.
      * injection He as <- <-.
        destruct (Hcnt ke de Hine) as [Hj [Ht [Ha H1]]].
        assert (Hof : of_department ke record = false).
        { unfold of_department. fold k. apply String.eqb_neq. congruence. }
        unfold approved_of_department at 2. rewrite Hof.
        cbn [andb]. repeat split; try lia. exact Hj.
    + intros r Hr. rewrite Hkeys. apply in_app_or in Hr.
      destruct Hr as [Hr | [<- | []]].
      * now apply Hcov.
      * now apply Map_has_keys.
  - rewrite (tally_absent m record Hhas). fold k.
    assert (Hnot : ~ In k (map fst m)).
    { intros Hin. apply Map_has_keys in Hin. congruence. }
    assert (Hzero : forall r, In r done -> of_department k r = false).
    { intros r Hr. unfold of_department.
      destruct (String.eqb_spec (department_of r) k) as [E|E];
        [|reflexivity].
      exfalso. apply Hnot. rewrite <- E. now apply Hcov. }
    assert (Hzero' : forall r, In r done ->
                                approved_of_department k r = false).
    { intros r Hr. unfold approved_of_department. now rewrite Hzero. }
    constructor.
    + rewrite map_app. cbn [map fst]. now apply NoDup_snoc.
    + intros k' d' Hin. rewrite !count_snoc.
      apply in_app_or in Hin. destruct Hin as [Hin | [Hin | []]].
      * destruct (Hcnt k' d' Hin) as [Hj [Ht [Ha H1]]].
        assert (Hof : of_department k' record = false).
        { unfold of_department. fold k. apply String.eqb_neq.
          intros E. apply Hnot. rewrite E.
          now apply (in_map fst m (k', d')). }
        unfold approved_of_department at 2. rewrite Hof.
        cbn [andb]. repeat split; try lia. exact Hj.
      * injection Hin as <- <-.
        assert (Hof : of_department k record = true).
        { unfold of_department. fold k. apply String.eqb_refl. }
        unfold approved_of_department at 2. rewrite Hof.
        rewrite (count_none _ _ Hzero), (count_none _ _ Hzero').
        cbn [bump DepartmentStats.jurusan DepartmentStats.totalRequests
               DepartmentStats.approvedRequests andb].
        repeat split;
          try (destruct (is_value request_status_eqb (record_status record)
                           approved)); lia.
    + intros r Hr. rewrite map_app. apply in_or_app.
      apply in_app_or in Hr. destruct Hr as [Hr | [<- | []]].
      * left. now apply Hcov.
      * right. now left.
Qed.

Lemma tally_all (rest done : list dept_record) (m : Map DepartmentStats.t) :
  tallied m done -> tallied (fold_left tally rest m) (done ++ rest).
Proof.
  revert done m. induction rest as [|record rest IH]; intros done m H.
  - now rewrite app_nil_r.
  - cbn [fold_left].
    replace (done ++ record :: rest) with ((done ++ [record]) ++ rest)
      by (now rewrite <- app_assoc).
    apply IH. now apply tally_step.
Qed.

Lemma tallied_nil : tallied [] [].
Proof.
  constructor.
  - constructor.
  - intros k d [].
  - intros r [].
Qed.

End Tally.

Lemma departments_tallied (records : list Reports.dept_record)
    (dept : DepartmentStats.t) :
  In dept (Reports.departments records) ->
  1 <= DepartmentStats.totalRequests dept
  /\ DepartmentStats.totalRequests dept
     = count (of_department (DepartmentStats.jurusan dept)) records
  /\ DepartmentStats.approvedRequests dept
     = count (approved_of_department (DepartmentStats.jurusan dept)) records.
Proof.
  unfold Reports.departments. rewrite sort_In, in_map_iff.
  intros [[k d] [Hd Hin]]. cbn [snd] in Hd. subst d.
  pose proof (tally_all records [] [] tallied_nil) as [_ Hcnt _].
  cbn [app] in Hcnt. destruct (Hcnt k dept Hin) as [Hj [Ht [Ha H1]]].
  rewrite Hj. now repeat split.
Qed.

(** C10. Every row of the per-department table stands for at least one
    request: its [totalRequests] is the number of requests of that
    department among those read, it is at least 1, so the divisor of the
    row's approval rate is never zero; and a department no request belongs
    to has no row. *)
Theorem department_row_has_requests
    (s : session) (now : timestamptz) (db : database)
    (dept : DepartmentStats.t)
    (Hrow : In dept (Reports.departmentStats
                       (Reports.fetchReportData s now db))) :
  1 <= DepartmentStats.totalRequests dept
  /\ DepartmentStats.totalRequests dept <> 0
  /\ DepartmentStats.totalRequests dept
     = count (of_department (DepartmentStats.jurusan dept))
             (Reports.deptStatsData s db)
  /\ DepartmentStats.approvedRequests dept
     = count (approved_of_department (DepartmentStats.jurusan dept))
             (Reports.deptStatsData s db)
  /\ (exists record,
         In record (Reports.deptStatsData s db)
         /\ Reports.department_of record = DepartmentStats.jurusan dept)
  /\ (forall k,
         (forall record, In record (Reports.deptStatsData s db) ->
                         Reports.department_of record <> k) ->
         forall d, In d (Reports.departmentStats
                           (Reports.fetchReportData s now db)) ->
                   DepartmentStats.jurusan d <> k).
Proof.
  assert (Hex : forall d,
             In d (Reports.departments (Reports.deptStatsData s db)) ->
             exists record,
               In record (Reports.deptStatsData s db)
               /\ Reports.department_of record = DepartmentStats.jurusan d).
  { intros d Hd. destruct (departments_tallied _ d Hd) as [H1 [Ht _]].
    destruct (count_positive (of_department (DepartmentStats.jurusan d))
                (Reports.deptStatsData s db)) as [record [Hin Hof]];
      [lia|].
    exists record. split; [exact Hin|]. now apply String.eqb_eq. }
  cbn [Reports.fetchReportData Reports.departmentStats] in *.
  destruct (departments_tallied _ dept Hrow) as [H1 [Ht Ha]].
  repeat split; try assumption; try lia.
  - now apply Hex.
  - intros k Hnone d Hd E. destruct (Hex d Hd) as [record [Hin Hk]].
    apply (Hnone record Hin). congruence.
Qed.

(** The admin of the small school reads the report: the one request, of a
    TRKJ student, gives the row of "trkj". *)
Lemma department_row_has_requests_witness :
  exists record,
    In record (Reports.deptStatsData
                 (mksession (Some School.id_admin) School.t0)
                 (School.db tersedia pending))
    /\ Reports.department_of record = "trkj".
Proof.
  refine (proj1 (proj2 (proj2 (proj2 (proj2
            (department_row_has_requests
               (mksession (Some School.id_admin) School.t0) School.t0
               (School.db tersedia pending)
               (DepartmentStats.mk "trkj" 1 0) _)))))).
  vm_compute. left. reflexivity.
Defined.

(* ------------------------------------------------------------------ *)
(** ** The activity log *)

Lemma latest_created_In (rows : list borrowing_requests.row)
    (r : borrowing_requests.row) :
  latest_created rows = Some r -> In r rows.
Proof.
  unfold latest_created. intros H.
  apply (sort_In (fun a b => desc (borrowing_requests.created_at a)
                                  (borrowing_requests.created_at b))).
  destruct (sort _ rows) as [|x l]; [discriminate|].
  injection H as <-. now left.
Qed.

Lemma latest_created_some (rows : list borrowing_requests.row) :
  rows <> [] -> exists r, latest_created rows = Some r.
Proof.
  unfold latest_created. intros H.
  pose proof (sort_length (fun a b => desc (borrowing_requests.created_at a)
                                           (borrowing_requests.created_at b))
                rows) as Hlen.
  destruct (sort _ rows) as [|x l].
  - destruct rows; [now contradiction H | discriminate].
  - now exists x.
Qed.

(** A created request is logged: the entry has action "request" and names
    a request the borrower can read. *)
Lemma borrow_logged (w : world) (st : ItemsForm) (item : items.row)
    (u : uuid) (start_ end_ : timestamptz) (db : database) :
  integrity db = true ->
  complete st item ->
  auth_user w = Some u ->
  In u (profile_ids db) ->
  In (items.id item) (item_ids db) ->
  Date_parse (utc_offset_minutes w) (startTime st) = Some start_ ->
  Date_parse (utc_offset_minutes w) (endTime st) = Some end_ ->
  ~ In (uuid_generate_v4 w 0) (request_ids db) ->
  ~ In (uuid_generate_v4 w 1) (map activity_logs.id (tbl_activity_logs db)) ->
  exists r,
    In r (tbl_borrowing_requests db ++ [requested w item u st start_ end_])
    /\ tbl_activity_logs (fst (handleBorrowRequest w st db))
       = tbl_activity_logs db ++ [request_entry w item u r].
Proof.
  intros Hi Hform Hu Hprof Hitem Hs He Hfr Hfl.
  pose proof (insert_request_accepted w st item u start_ end_ db Hi Hu Hprof
                Hitem Hfr) as Hrun.
  rewrite (borrow_run w st item u start_ end_ db _ Hform Hu Hs He Hrun).
  cbn [fst].
  set (db1 := with_borrowing_requests db
                (tbl_borrowing_requests db
                 ++ [requested w item u st start_ end_])) in *.
  assert (Hi1 : integrity db1 = true).
  { apply run_accepted in Hrun. apply Hrun. }
  assert (Hvis : select_borrowing_requests (session_of w) db1 <> []).
  { unfold select_borrowing_requests, rls_select, db1.
    cbn [session_of auth_uid with_borrowing_requests tbl_borrowing_requests].
    rewrite Hu, filter_app. cbn [filter].
    rewrite (borrower_sees_request _ u (requested w item u st start_ end_)
               eq_refl).
    intros E. apply app_eq_nil in E. destruct E as [_ E]. discriminate. }
  destruct (latest_created_some _ Hvis) as [r Hr]. rewrite Hr.
  apply latest_created_In in Hr.
  unfold select_borrowing_requests, rls_select in Hr.
  apply filter_In in Hr. destruct Hr as [Hr _].
  exists r. split; [exact Hr|].
  rewrite (log_insert (session_of w) (request_entry w item u r) db1 Hi1).
  - reflexivity.
  - apply mem_string_false. exact Hfl.
  - change (In (borrowing_requests.id r)
               (map borrowing_requests.id (tbl_borrowing_requests db1))).
    now apply in_map.
  - exact Hprof.
Qed.

Lemma filter_nothing {A} (f : A -> bool) (l : list A) :
  (forall a, In a l -> f a = false) -> filter f l = [].
Proof.
  intros H. induction l as [|a l IH]; cbn; [reflexivity|].
  rewrite (H a (or_introl eq_refl)). apply IH. intros b Hb. apply H.
  now right.
Qed.

(** Without a request that goes, no log entry goes. *)
Lemma drop_requests_none (dead : borrowing_requests.row -> bool)
    (db : database) :
  (forall r, In r (tbl_borrowing_requests db) -> dead r = false) ->
  tbl_activity_logs (drop_requests dead db) = tbl_activity_logs db.
Proof.
  intros H. unfold drop_requests. cbn [tbl_activity_logs].
  rewrite (filter_nothing dead _ H). cbn [map].
  now apply filter_all.
Qed.

(** No policy lets a caller update or delete activity logs, or delete
    profiles or borrowing requests. *)
Lemma no_log_update (db : database) (uid : option uuid)
    (where_ : activity_logs.row -> bool) (l : activity_logs.row) :
  acts_on policies_activity_logs db uid UPDATE where_ l = false
  /\ acts_on policies_activity_logs db uid DELETE where_ l = false.
Proof. split; reflexivity. Qed.

Lemma no_profile_delete (db : database) (uid : option uuid)
    (where_ : profiles.row -> bool) (p : profiles.row) :
  acts_on policies_profiles db uid DELETE where_ p = false.
Proof. reflexivity. Qed.

Lemma no_request_delete (db : database) (uid : option uuid)
    (where_ : borrowing_requests.row -> bool) (r : borrowing_requests.row) :
  acts_on policies_borrowing_requests db uid DELETE where_ r = false.
Proof.
  unfold acts_on, passes_using. cbn. now rewrite andb_false_r.
Qed.

(** The entries of the log after a statement, for every statement but a
    DELETE on items: the entries before, followed by the inserted row if
    the statement was an accepted INSERT into activity_logs. *)
Lemma logs_kept (s : session) (q : statement) (db : database) :
  (forall where_, q <> DELETE_FROM_items where_) ->
  tbl_activity_logs (fst (run s q db)) = tbl_activity_logs db
  \/ exists l, q = INSERT_INTO_activity_logs l
               /\ tbl_activity_logs (fst (run s q db))
                  = tbl_activity_logs db ++ [l].
Proof.
  intros Hq. unfold run.
  destruct q; cbn [candidate];
    try (match goal with
         | |- context [option_map ?f ?o] =>
             destruct o; cbn [option_map];
             [match goal with
              | |- context [integrity ?d] => destruct (integrity d)
              end|];
             left; reflexivity
         end).
  - (* DELETE FROM profiles *)
    match goal with
    | |- context [integrity ?d] => destruct (integrity d) eqn:E
    end; [|now left].
    left. cbn [fst]. unfold drop_profiles.
    rewrite (filter_nothing _ (tbl_profiles db));
      [|intros p _; apply no_profile_delete].
    cbn [map]. rewrite drop_requests_none.
    + cbn [tbl_activity_logs]. now apply filter_all.
    + intros r _. reflexivity.
  - (* DELETE FROM user_roles *)
    match goal with
    | |- context [integrity ?d] => destruct (integrity d)
    end; now left.
  - (* DELETE FROM items *)
    now contradiction (Hq where_).
  - (* DELETE FROM borrowing_requests *)
    match goal with
    | |- context [integrity ?d] => destruct (integrity d) eqn:E
    end; [|now left].
    left. cbn [fst]. apply drop_requests_none.
    intros r _. apply no_request_delete.
  - (* INSERT INTO activity_logs *)
    unfold rls_insert.
    destruct (passes_check policies_activity_logs db (auth_uid s) INSERT r);
      cbn [option_map]; [|now left].
    destruct (integrity _); [|now left].
    right. now exists r.
  - (* UPDATE activity_logs *)
    rewrite rls_update_nothing; [|intros l _; apply no_log_update].
    cbn [option_map]. rewrite with_activity_logs_same.
    destruct (integrity db); now left.
  - (* DELETE FROM activity_logs *)
    unfold rls_delete. rewrite filter_all.
    + rewrite with_activity_logs_same. destruct (integrity db); now left.
    + intros l _. now rewrite (proj2 (no_log_update db (auth_uid s) where_ l)).
Qed.

(** A DELETE on items removes exactly the log entries of the requests for
    the removed items, and only admin or guru can remove an item. *)
Lemma logs_after_item_delete (s : session) (where_ : items.row -> bool)
    (db : database) (l : activity_logs.row) :
  In l (tbl_activity_logs db) ->
  ~ In l (tbl_activity_logs (fst (run s (DELETE_FROM_items where_) db))) ->
  has_role db (auth_uid s) admin || has_role db (auth_uid s) guru = true
  /\ exists r i,
      In r (tbl_borrowing_requests db)
      /\ borrowing_requests.id r = activity_logs.request_id l
      /\ In i (tbl_items db)
      /\ items.id i = borrowing_requests.item_id r
      /\ where_ i = true.
Proof.
  intros Hin Hgone. unfold run in Hgone. cbn [candidate] in Hgone.
  destruct (integrity _) in Hgone; [|now contradiction Hgone].
  cbn [fst] in Hgone. unfold drop_items, drop_requests in Hgone.
  cbn [tbl_activity_logs tbl_borrowing_requests with_items] in Hgone.
  rewrite filter_In in Hgone.
  destruct (mem_string (activity_logs.request_id l) _) eqn:Hmem in Hgone;
    [|exfalso; apply Hgone; now split].
  apply mem_string_In, in_map_iff in Hmem.
  destruct Hmem as [r [Hid Hr]]. apply filter_In in Hr.
  destruct Hr as [Hr Hdead].
  apply mem_string_In, in_map_iff in Hdead.
  destruct Hdead as [i [Hiid Hi]]. apply filter_In in Hi.
  destruct Hi as [Hi Hact]. unfold acts_on in Hact.
  rewrite !andb_true_iff in Hact. destruct Hact as [[_ Hpol] Hw].
  unfold passes_using in Hpol. cbn in Hpol. rewrite orb_false_r in Hpol.
  split; [exact Hpol|]. exists r, i. now repeat split.
Qed.

(** C8 (as amended). Creating, approving and rejecting a request each
    append one entry to the activity log.  No statement of any caller
    changes an entry: after every statement the log holds entries it held
    before and, for an accepted INSERT, the new row; an UPDATE or DELETE on
    activity_logs acts on no row.  Entries are not kept forever: an entry
    disappears when admin or guru deletes the item of its request, through
    the ON DELETE CASCADE of borrowing_requests and activity_logs, and in
    no other way. *)
Theorem activity_log_discipline
    (wb ws : world) (st : ItemsForm) (item : items.row) (u v : uuid)
    (start_ end_ : timestamptz) (sel : BorrowingRequest) (it : items.row)
    (notes : string) (r0 : borrowing_requests.row) (db : database)
    (Hintegrity : integrity db = true)
    (Hborrower : auth_user wb = Some u)
    (Hborrower_profile : In u (profile_ids db))
    (Hform : complete st item)
    (Hitem : In (items.id item) (item_ids db))
    (Hstart : Date_parse (utc_offset_minutes wb) (startTime st) = Some start_)
    (Hend : Date_parse (utc_offset_minutes wb) (endTime st) = Some end_)
    (Hfresh_request : ~ In (uuid_generate_v4 wb 0) (request_ids db))
    (Hfresh_log : ~ In (uuid_generate_v4 wb 1)
                    (map activity_logs.id (tbl_activity_logs db)))
    (Hstaff_user : auth_user ws = Some v)
    (Hstaff : staff db v)
    (Hstaff_profile : In v (profile_ids db))
    (Hrequest : In r0 (tbl_borrowing_requests db))
    (Hselected : embedded_items sel = Some it)
    (Hfresh_decision : ~ In (uuid_generate_v4 ws 0)
                         (map activity_logs.id (tbl_activity_logs db))) :
  (exists r,
      tbl_activity_logs (fst (handleBorrowRequest wb st db))
      = tbl_activity_logs db
        ++ [activity_logs.inserted (uuid_generate_v4 wb 1) (db_clock wb)
              (borrowing_requests.id r) "request" u
              (Some ("Mengajukan peminjaman " ++ items.name item)%string)])
  /\ tbl_activity_logs
       (fst (handleApproveReject ws (Some sel) notes
               (borrowing_requests.id r0) approved db))
     = tbl_activity_logs db
       ++ [activity_logs.inserted (uuid_generate_v4 ws 0) (db_clock ws)
             (borrowing_requests.id r0) "approve" v (Some notes)]
  /\ tbl_activity_logs
       (fst (handleApproveReject ws (Some sel) notes
               (borrowing_requests.id r0) rejected db))
     = tbl_activity_logs db
       ++ [activity_logs.inserted (uuid_generate_v4 ws 0) (db_clock ws)
             (borrowing_requests.id r0) "reject" v (Some notes)]
  /\ (forall s q db' l',
         In l' (tbl_activity_logs (fst (run s q db'))) ->
         In l' (tbl_activity_logs db') \/ q = INSERT_INTO_activity_logs l')
  /\ (forall s where_ set db',
         fst (run s (UPDATE_activity_logs where_ set) db') = db')
  /\ (forall s where_ db',
         fst (run s (DELETE_FROM_activity_logs where_) db') = db')
  /\ (forall s q db' l,
         In l (tbl_activity_logs db') ->
         ~ In l (tbl_activity_logs (fst (run s q db'))) ->
         (has_role db' (auth_uid s) admin || has_role db' (auth_uid s) guru
          = true)
         /\ exists where_ r i,
             q = DELETE_FROM_items where_
             /\ In r (tbl_borrowing_requests db')
             /\ borrowing_requests.id r = activity_logs.request_id l
             /\ In i (tbl_items db')
             /\ items.id i = borrowing_requests.item_id r
             /\ where_ i = true).
Proof.
  split; [|split; [|split; [|split; [|split; [|split]]]]].
  - destruct (borrow_logged wb st item u start_ end_ db Hintegrity Hform
                Hborrower Hborrower_profile Hitem Hstart Hend Hfresh_request
                Hfresh_log) as [r [_ Hr]].
    now exists r.
  - now rewrite (approve_run ws sel it notes r0 v db Hintegrity Hstaff_user
                   Hstaff Hstaff_profile Hrequest Hfresh_decision Hselected).
  - now rewrite (reject_run ws (Some sel) notes r0 v db Hintegrity Hstaff_user
                   Hstaff Hstaff_profile Hrequest Hfresh_decision).
  - intros s q db' l' Hin.
    assert (Hcases : (exists where_, q = DELETE_FROM_items where_)
                     \/ forall where_, q <> DELETE_FROM_items where_).
    { destruct q; try (right; intros w0; discriminate).
      left. now exists where_. }
    destruct Hcases as [[where_ ->] | Hq].
    + left. unfold run in Hin. cbn [candidate] in Hin.
      destruct (integrity _) in Hin; [|exact Hin].
      cbn [fst] in Hin. unfold drop_items, drop_requests in Hin.
      cbn [tbl_activity_logs] in Hin. now apply filter_In in Hin.
    + destruct (logs_kept s q db' Hq) as [E | [l [-> E]]];
        rewrite E in Hin; [now left|].
      apply in_app_or in Hin. destruct Hin as [Hin | [<- | []]];
        [now left | now right].
  - intros s where_ set db'. unfold run. cbn [candidate].
    rewrite rls_update_nothing; [|intros l _; apply no_log_update].
    cbn [option_map]. rewrite with_activity_logs_same.
    now destruct (integrity db').
  - intros s where_ db'. unfold run. cbn [candidate].
    unfold rls_delete. rewrite filter_all.
    + rewrite with_activity_logs_same. now destruct (integrity db').
    + intros l _.
      now rewrite (proj2 (no_log_update db' (auth_uid s) where_ l)).
  - intros s q db' l Hin Hgone.
    assert (Hcases : (exists where_, q = DELETE_FROM_items where_)
                     \/ forall where_, q <> DELETE_FROM_items where_).
    { destruct q; try (right; intros w0; discriminate).
      left. now exists where_. }
    destruct Hcases as [[where_ ->] | Hq].
    + destruct (logs_after_item_delete s where_ db' l Hin Hgone)
        as [Hrole [r [i H]]].
      split; [exact Hrole|]. exists where_, r, i. now split.
    + exfalso. apply Hgone.
      destruct (logs_kept s q db' Hq) as [E | [l0 [_ E]]]; rewrite E.
      * exact Hin.
      * apply in_or_app. now left.
Qed.

(** In the small school a student files a request and the admin decides on
    the pending one: the approval is logged after the entry that was
    there. *)
Lemma activity_log_discipline_witness :
  tbl_activity_logs
    (fst (handleApproveReject (School.browser (Some School.id_admin))
            (Some (mkBorrowingRequest (School.request pending)
                     (Some (School.kunci tersedia)) None))
            "Harap kembalikan tepat waktu" School.id_request approved
            (School.db tersedia pending)))
  = [School.log_row;
     activity_logs.inserted (School.fresh 0) (School.t0 + 61000)
       School.id_request "approve" School.id_admin
       (Some "Harap kembalikan tepat waktu")].
Proof.
  refine (proj1 (proj2 (activity_log_discipline
                          (School.browser (Some School.id_siswa2))
                          (School.browser (Some School.id_admin))
                          (mkItemsForm (Some School.infokus) "Presentasi"
                             "2025-01-10T08:00" "2025-01-10T10:00")
                          School.infokus School.id_siswa2 School.id_admin
                          1736470800000 1736478000000
                          (mkBorrowingRequest (School.request pending)
                             (Some (School.kunci tersedia)) None)
                          (School.kunci tersedia)
                          "Harap kembalikan tepat waktu"
                          (School.request pending)
                          (School.db tersedia pending)
                          eq_refl eq_refl _ _ _ eq_refl eq_refl _ _
                          eq_refl eq_refl _ _ eq_refl _))).
  - simpl. tauto.
  - repeat split; discriminate.
  - simpl. tauto.
  - apply mem_string_false. reflexivity.
  - apply mem_string_false. reflexivity.
  - simpl. tauto.
  - simpl. tauto.
  - apply mem_string_false. reflexivity.
Defined.

(** C8, counterexample.  The admin deletes the key "Kunci Lab Komputer 1".
    The statement is accepted, and with the item its request and the log
    entry of that request are gone. *)
Lemma item_delete_removes_log_entry :
  tbl_activity_logs (School.db tersedia pending) = [School.log_row]
  /\ run (mksession (Some School.id_admin) School.t0)
       (DELETE_FROM_items
          (fun i => String.eqb (items.id i) School.id_kunci))
       (School.db tersedia pending)
     = (mkdb School.profile_rows School.role_rows [School.infokus] [] [],
        None).
Proof. vm_compute. split; reflexivity. Qed.

(* ------------------------------------------------------------------ *)
(** ** Percentages *)

(** *** Binary64 arithmetic

    What the rounding of [SpecFloat] does to the values met here: the
    quotient of two counts and its product with 100. *)

(** Number of binary digits *)

Lemma digits2_pos_bounds (p : positive) :
  2 ^ (Zpos (digits2_pos p) - 1) <= Zpos p < 2 ^ Zpos (digits2_pos p).
Proof.
  induction p as [p IH|p IH|]; cbn [digits2_pos].
  - rewrite Pos2Z.inj_succ.
    replace (Z.succ (Zpos (digits2_pos p)) - 1)
      with (Z.succ (Zpos (digits2_pos p) - 1)) by lia.
    rewrite !Z.pow_succ_r by lia. lia.
  - rewrite Pos2Z.inj_succ.
    replace (Z.succ (Zpos (digits2_pos p)) - 1)
      with (Z.succ (Zpos (digits2_pos p) - 1)) by lia.
    rewrite !Z.pow_succ_r by lia. lia.
  - cbn. lia.
Qed.

Lemma digits2_pos_unique (p : positive) (d : Z) :
  2 ^ (d - 1) <= Zpos p < 2 ^ d -> Zpos (digits2_pos p) = d.
Proof.
  intros [Hlo Hhi]. pose proof (digits2_pos_bounds p) as [Blo Bhi].
  assert (0 < d).
  { destruct (Z.ltb_spec 0 d) as [|Hd]; [assumption|]. exfalso.
    destruct (Z.eq_dec d 0) as [->|Hne].
    - cbn in Hhi. lia.
    - rewrite Z.pow_neg_r in Hhi by lia. lia. }
  assert (Zpos (digits2_pos p) - 1 < d).
  { apply (Z.pow_lt_mono_r_iff 2); lia. }
  assert (d - 1 < Zpos (digits2_pos p)).
  { apply (Z.pow_lt_mono_r_iff 2); lia. }
  lia.
Qed.

(** Shifting with round and sticky bits *)

Lemma shr_1_m (mrs : shr_record) :
  0 <= shr_m mrs -> shr_m (shr_1 mrs) = shr_m mrs / 2.
Proof.
  destruct mrs as [m r s]. cbn [shr_m]. intros Hm.
  destruct m as [|[p|p|]|p]; cbn [shr_1 shr_m]; try lia; try reflexivity.
  - rewrite Pos2Z.inj_xI. apply Z.div_unique with 1; lia.
  - rewrite Pos2Z.inj_xO. apply Z.div_unique with 0; lia.
Qed.

Lemma shr_1_located (mrs : shr_record) (U N : Z) :
  0 < U -> located_rec mrs U N -> located_rec (shr_1 mrs) (2 * U) N.
Proof.
  intros HU [Hm Hl]. destruct mrs as [m r s]. cbn [shr_m shr_r shr_s] in *.
  unfold located_rec.
  destruct m as [|[p|p|]|p]; [| | | |lia].
  - destruct r, s; cbn [shr_1 shr_m shr_r shr_s orb located] in *; lia.
  - assert (E : Z.pos p~1 = 2 * Z.pos p + 1) by apply Pos2Z.inj_xI.
    rewrite E in Hl. clear E Hm.
    destruct r, s; cbn [shr_1 shr_m shr_r shr_s orb located] in *;
      (split; [lia|]); try split; nia.
  - assert (E : Z.pos p~0 = 2 * Z.pos p) by apply Pos2Z.inj_xO.
    rewrite E in Hl. clear E Hm.
    destruct r, s; cbn [shr_1 shr_m shr_r shr_s orb located] in *;
      (split; [lia|]); try split; nia.
  - destruct r, s; cbn [shr_1 shr_m shr_r shr_s orb located] in *; lia.
Qed.

Lemma iter_pos_shr_1 (p : positive) :
  forall (mrs : shr_record) (U N : Z),
    0 < U -> located_rec mrs U N ->
    located_rec (iter_pos shr_1 p mrs) (2 ^ Zpos p * U) N
    /\ shr_m (iter_pos shr_1 p mrs) = shr_m mrs / 2 ^ Zpos p.
Proof.
  induction p as [p IH|p IH|]; intros mrs U N HU Hl; cbn [iter_pos].
  - pose proof (shr_1_located mrs U N HU Hl) as H1.
    pose proof (shr_1_m mrs (proj1 Hl)) as M1.
    assert (HU2 : 0 < 2 * U) by lia.
    destruct (IH _ _ _ HU2 H1) as [H2 M2].
    assert (HU3 : 0 < 2 ^ Zpos p * (2 * U)) by (apply Z.mul_pos_pos; lia).
    destruct (IH _ _ _ HU3 H2) as [H3 M3].
    change (Z.pos p~1) with (2 * Z.pos p + 1).
    replace (2 ^ (2 * Zpos p + 1) * U)
      with (2 ^ Zpos p * (2 ^ Zpos p * (2 * U))).
    2:{ rewrite Z.pow_add_r, Z.pow_mul_r by lia.
        replace (2 ^ 2) with 4 by reflexivity.
        rewrite <- (Z.pow_mul_r 2 2) by lia.
        replace (2 * Zpos p) with (Zpos p + Zpos p) by lia.
        rewrite Z.pow_add_r by lia. cbn [Z.pow Z.pow_pos Pos.iter]. lia. }
    split; [exact H3|].
    rewrite M3, M2, M1, !Z.div_div by lia.
    f_equal. rewrite Z.pow_add_r, Z.pow_mul_r by lia.
    replace (2 ^ 2) with 4 by reflexivity.
    replace (4 ^ Zpos p) with (2 ^ Zpos p * 2 ^ Zpos p).
    + cbn [Z.pow Z.pow_pos Pos.iter]. lia.
    + rewrite <- Z.pow_add_r by lia.
      replace (Zpos p + Zpos p) with (2 * Zpos p) by lia.
      now rewrite Z.pow_mul_r by lia.
  - destruct (IH _ _ _ HU Hl) as [H2 M2].
    assert (HU3 : 0 < 2 ^ Zpos p * U) by (apply Z.mul_pos_pos; lia).
    destruct (IH _ _ _ HU3 H2) as [H3 M3].
    change (Z.pos p~0) with (2 * Z.pos p).
    replace (2 ^ (2 * Zpos p)) with (2 ^ Zpos p * 2 ^ Zpos p).
    2:{ rewrite <- Z.pow_add_r by lia. f_equal. lia. }
    split.
    + now rewrite <- Z.mul_assoc.
    + rewrite M3, M2, Z.div_div by lia. reflexivity.
  - split.
    + replace (2 ^ 1 * U) with (2 * U) by reflexivity.
      now apply shr_1_located.
    + replace (2 ^ 1) with 2 by reflexivity. apply shr_1_m. apply Hl.
Qed.

Lemma shr_spec (mrs : shr_record) (e n U N : Z) :
  0 < U -> located_rec mrs U N -> 0 <= n ->
  snd (shr mrs e n) = e + n
  /\ located_rec (fst (shr mrs e n)) (2 ^ n * U) N
  /\ shr_m (fst (shr mrs e n)) = shr_m mrs / 2 ^ n.
Proof.
  intros HU Hl Hn. destruct n as [|p|p]; [| |lia]; cbn [shr fst snd].
  - replace (2 ^ 0 * U) with U by (rewrite Z.pow_0_r; lia).
    rewrite Z.div_1_r. split; [lia | split; [exact Hl | reflexivity]].
  - destruct (iter_pos_shr_1 p mrs U N HU Hl) as [H1 H2].
    split; [reflexivity | split; assumption].
Qed.

Lemma round_located (mrs : shr_record) (U N : Z) :
  0 < U -> located_rec mrs U N ->
  let mr := round_nearest_even (shr_m mrs) (loc_of_shr_record mrs) in
  (mr = shr_m mrs \/ mr = shr_m mrs + 1)
  /\ 2 * Z.abs (mr * U - N) <= U.
Proof.
  intros HU [Hm Hl]. destruct mrs as [m r s]. cbn [shr_m shr_r shr_s] in *.
  destruct r, s; cbn [loc_of_shr_record round_nearest_even located] in *.
  - split; [right; reflexivity | nia].
  - destruct (Z.even m); (split; [tauto | nia]).
  - split; [left; reflexivity | nia].
  - split; [left; reflexivity | nia].
Qed.

Lemma Zdigits2_unique (m d : Z) :
  2 ^ (d - 1) <= m < 2 ^ d -> 0 < m -> Zdigits2 m = d.
Proof.
  intros H Hm. destruct m as [|p|p]; try lia.
  cbn [Zdigits2]. now apply digits2_pos_unique.
Qed.

Lemma pow2_pos (n : Z) : 0 <= n -> 0 < 2 ^ n.
Proof. intros. apply Z.pow_pos_nonneg; lia. Qed.

Lemma pow2_split (a b : Z) : 0 <= a -> 0 <= b -> 2 ^ (a + b) = 2 ^ a * 2 ^ b.
Proof. intros. now apply Z.pow_add_r. Qed.

(** Rounding to nearest of a value [N / U * 2 ^ ex] whose integer part
    [mx] has at least [prec] digits, away from overflow and underflow. *)
Lemma binary_round_aux_spec (mx ex : Z) (lx : location) (U N d : Z) :
  0 < U ->
  2 ^ (d - 1) <= mx < 2 ^ d ->
  prec <= d ->
  emin prec emax <= ex + (d - prec) ->
  ex + (d - prec) + 1 <= emax - prec ->
  located_rec (shr_record_of_loc mx lx) U N ->
  exists m e,
    binary_round_aux prec emax false mx ex lx = S754_finite false m e
    /\ 2 ^ 52 <= Zpos m < 2 ^ 53
    /\ (e = ex + (d - prec) \/ e = ex + (d - prec) + 1)
    /\ 2 * Z.abs (Zpos m * 2 ^ (e - ex) * U - N) <= 2 ^ (d - prec) * U.
Proof.
  intros HU Hmx Hd Hlo Hhi Hloc.
  unfold prec, emax, emin in *.
  set (n := d - 53) in *.
  assert (Hn : 0 <= n) by (unfold n; lia).
  assert (Hpd : 2 ^ (d - 1) = 2 ^ 52 * 2 ^ n).
  { rewrite <- pow2_split by lia. f_equal. unfold n. lia. }
  assert (Hpd' : 2 ^ d = 2 ^ 53 * 2 ^ n).
  { rewrite <- pow2_split by lia. f_equal. unfold n. lia. }
  pose proof (pow2_pos n Hn) as Hpn.
  assert (Hmx0 : 0 < mx) by (change (2 ^ 52) with 4503599627370496 in Hpd; nia).
  unfold binary_round_aux, shr_fexp.
  rewrite (Zdigits2_unique mx d Hmx Hmx0).
  assert (Hf1 : fexp 53 1024 (d + ex) - ex = n).
  { unfold fexp, emin, n. lia. }
  rewrite Hf1.
  destruct (shr_spec (shr_record_of_loc mx lx) ex n U N HU Hloc Hn)
    as [He1 [Hl1 Hm1]].
  destruct (shr (shr_record_of_loc mx lx) ex n) as [mrs1 e1].
  cbn [fst snd] in He1, Hl1, Hm1. subst e1.
  assert (Hmx' : shr_m (shr_record_of_loc mx lx) = mx).
  { destruct lx as [|[]]; reflexivity. }
  rewrite Hmx' in Hm1.
  assert (Hb1 : 2 ^ 52 <= shr_m mrs1 < 2 ^ 53).
  { rewrite Hm1. split.
    - apply Z.div_le_lower_bound; lia.
    - apply Z.div_lt_upper_bound; lia. }
  assert (HU1 : 0 < 2 ^ n * U) by (apply Z.mul_pos_pos; lia).
  destruct (round_located mrs1 (2 ^ n * U) N HU1 Hl1) as [Hmr Herr].
  set (mr := round_nearest_even (shr_m mrs1) (loc_of_shr_record mrs1)) in *.
  change (2 ^ 52) with 4503599627370496 in *.
  change (2 ^ 53) with 9007199254740992 in *.
  assert (Hcases : mr < 9007199254740992 \/ mr = 9007199254740992) by lia.
  destruct Hcases as [Hlt | Heq].
  - assert (Hdig : Zdigits2 mr = 53).
    { apply Zdigits2_unique; [|lia].
      change (2 ^ (53 - 1)) with 4503599627370496.
      change (2 ^ 53) with 9007199254740992. lia. }
    rewrite Hdig.
    assert (Hf2 : fexp 53 1024 (53 + (ex + n)) - (ex + n) = 0).
    { unfold fexp, emin. lia. }
    rewrite Hf2. cbn [shr shr_record_of_loc shr_m].
    destruct mr as [|pm|pm] eqn:Emr; try lia.
    assert (Hle : (ex + n <=? 1024 - 53) = true) by (apply Z.leb_le; lia).
    rewrite Hle. exists pm, (ex + n). split; [reflexivity|].
    split; [lia|]. split; [left; reflexivity|].
    replace (ex + n - ex) with n by lia.
    rewrite <- Z.mul_assoc. exact Herr.
  - assert (Hdig : Zdigits2 mr = 54).
    { rewrite Heq. reflexivity. }
    rewrite Hdig.
    assert (Hf2 : fexp 53 1024 (54 + (ex + n)) - (ex + n) = 1).
    { unfold fexp, emin. lia. }
    rewrite Hf2, Heq. cbn [shr shr_record_of_loc shr_m iter_pos shr_1].
    assert (Hle : (ex + n + 1 <=? 1024 - 53) = true) by (apply Z.leb_le; lia).
    rewrite Hle. exists 4503599627370496%positive, (ex + n + 1).
    split; [reflexivity|]. split; [lia|]. split; [right; reflexivity|].
    replace (ex + n + 1 - ex) with (n + 1) by lia.
    rewrite pow2_split by lia. change (2 ^ 1) with 2.
    rewrite Heq in Herr.
    replace (4503599627370496 * (2 ^ n * 2) * U)
      with (9007199254740992 * (2 ^ n * U)) by lia.
    exact Herr.
Qed.

Lemma iter_xO (p k : positive) : Zpos (Pos.iter xO p k) = Zpos p * 2 ^ Zpos k.
Proof.
  induction k as [|k IH] using Pos.peano_ind.
  - cbn [Pos.iter]. rewrite Pos2Z.inj_xO. change (2 ^ 1) with 2. lia.
  - rewrite Pos.iter_succ, Pos2Z.inj_xO, IH, Pos2Z.inj_succ, Z.pow_succ_r by lia.
    lia.
Qed.

(** The binary64 value of a positive integer below [2 ^ 53] is the
    integer, with a mantissa of 53 digits. *)
Lemma Number_spec (n : Z) :
  1 <= n < 2 ^ 53 ->
  exists m sh,
    Number n = S754_finite false m (- sh)
    /\ 0 <= sh <= 52
    /\ 2 ^ 52 <= Zpos m < 2 ^ 53
    /\ Zpos m = n * 2 ^ sh.
Proof.
  intros Hn. destruct n as [|p|p]; try lia.
  unfold Number, binary_normalize, binary_round.
  pose proof (digits2_pos_bounds p) as Hd.
  set (d := Zpos (digits2_pos p)) in *.
  assert (Hd53 : 1 <= d <= 53).
  { split; [unfold d; lia|].
    destruct (Z.leb_spec d 53) as [|Hgt]; [assumption|].
    assert (2 ^ 53 <= 2 ^ (d - 1)) by (apply Z.pow_le_mono_r; lia). lia. }
  assert (Hf : fexp prec emax (d + 0) = d - 53).
  { unfold fexp, emin, prec, emax. lia. }
  rewrite Hf.
  assert (Hal : exists mz,
             shl_align p 0 (d - 53) = (mz, d - 53)
             /\ Zpos mz = Zpos p * 2 ^ (53 - d)).
  { unfold shl_align. replace (d - 53 - 0) with (d - 53) by lia.
    destruct (d - 53) as [|k|k] eqn:E; try lia.
    - exists p. split; [reflexivity|].
      replace (53 - d) with 0 by lia. rewrite Z.pow_0_r. lia.
    - exists (Pos.iter xO p k). split; [reflexivity|].
      rewrite iter_xO. f_equal. f_equal. lia. }
  destruct Hal as [mz [Hal Hmz]]. rewrite Hal.
  assert (Hb : 2 ^ 52 <= Zpos mz < 2 ^ 53).
  { rewrite Hmz.
    replace (2 ^ 52) with (2 ^ (d - 1) * 2 ^ (53 - d))
      by (rewrite <- pow2_split by lia; f_equal; lia).
    replace (2 ^ 53) with (2 ^ d * 2 ^ (53 - d))
      by (rewrite <- pow2_split by lia; f_equal; lia).
    pose proof (pow2_pos (53 - d)). nia. }
  assert (Hloc : located_rec (shr_record_of_loc (Zpos mz) loc_Exact) 1
                   (Zpos mz)).
  { split; cbn; lia. }
  assert (Hb' : 2 ^ (53 - 1) <= Zpos mz < 2 ^ 53) by exact Hb.
  destruct (binary_round_aux_spec (Zpos mz) (d - 53) loc_Exact 1 (Zpos mz) 53
              ltac:(lia) Hb' ltac:(unfold prec; lia)
              ltac:(unfold emin, prec, emax; lia)
              ltac:(unfold prec, emax; lia) Hloc)
    as [m [e [Hr [Hm [He Herr]]]]].
  unfold prec, emax in *.
  - rewrite Hr.
    change (2 ^ (53 - 53) * 1) with 1 in Herr.
    change (2 ^ 52) with 4503599627370496 in *.
    change (2 ^ 53) with 9007199254740992 in *.
    assert (He' : e = d - 53).
    { destruct He as [He | He]; [lia|]. exfalso.
      rewrite He in Herr.
      replace (d - 53 + (53 - 53) + 1 - (d - 53)) with 1 in Herr by lia.
      change (2 ^ 1) with 2 in Herr. lia. }
    subst e. replace (d - 53 - (d - 53)) with 0 in Herr by lia.
    rewrite Z.pow_0_r in Herr.
    assert (Zpos m = Zpos mz) by lia.
    exists m, (53 - d). split; [f_equal; lia|].
    split; [lia|]. split; [lia|]. lia.
Qed.

(** The location computed from a remainder. *)
Lemma new_location_located (U q r : Z) :
  0 < U -> 0 <= r < U -> 0 <= q ->
  located_rec (shr_record_of_loc q (new_location U r)) U (q * U + r).
Proof.
  intros HU Hr Hq. unfold new_location, new_location_even, new_location_odd.
  destruct (Z.even U) eqn:Ev.
  - destruct (Z.eqb_spec r 0) as [->|Hr0].
    + split; cbn [shr_record_of_loc shr_m shr_r shr_s located]; lia.
    + destruct (Z.compare_spec (2 * r) U) as [E|E|E]; split;
        cbn [shr_record_of_loc shr_m shr_r shr_s located]; lia.
  - destruct (Z.eqb_spec r 0) as [->|Hr0].
    + split; cbn [shr_record_of_loc shr_m shr_r shr_s located]; lia.
    + assert (Hodd : 2 * r <> U).
      { intros E. rewrite <- E, Z.even_mul in Ev. discriminate. }
      destruct (Z.compare_spec (2 * r + 1) U) as [E|E|E]; split;
        cbn [shr_record_of_loc shr_m shr_r shr_s located]; lia.
Qed.

(** Division of two positive values with 53-digit mantissas. *)
Lemma js_div_spec (ma mt : positive) (ea et : Z) :
  2 ^ 52 <= Zpos ma < 2 ^ 53 ->
  2 ^ 52 <= Zpos mt < 2 ^ 53 ->
  -52 <= ea <= 0 -> -52 <= et <= 0 ->
  exists mq n1 s1,
    js_div (S754_finite false ma ea) (S754_finite false mt et)
    = S754_finite false mq (ea - et - 53 + s1)
    /\ 2 ^ 52 <= Zpos mq < 2 ^ 53
    /\ 0 <= n1 <= 1 /\ (s1 = n1 \/ s1 = n1 + 1)
    /\ 2 * Z.abs (Zpos mq * 2 ^ s1 * Zpos mt - Zpos ma * 2 ^ 53)
       <= 2 ^ n1 * Zpos mt.
Proof.
  intros Ha Ht Hea Het.
  unfold js_div, SFdiv, SFdiv_core_binary. cbn [xorb].
  rewrite (Zdigits2_unique (Zpos ma) 53) by (change (2 ^ (53 - 1)) with (2 ^ 52); lia).
  rewrite (Zdigits2_unique (Zpos mt) 53) by (change (2 ^ (53 - 1)) with (2 ^ 52); lia).
  assert (He' : Z.min (fexp prec emax (53 + ea - (53 + et))) (ea - et)
                = ea - et - 53).
  { unfold fexp, emin, prec, emax. lia. }
  rewrite He'.
  replace (ea - et - (ea - et - 53)) with 53 by lia.
  rewrite Z.shiftl_mul_pow2 by lia.
  change (2 ^ 52) with 4503599627370496 in *.
  change (2 ^ 53) with 9007199254740992 in *.
  pose proof (Z.div_eucl_eq (Zpos ma * 9007199254740992) (Zpos mt)
                ltac:(lia)) as Heq.
  pose proof (Z.mod_pos_bound (Zpos ma * 9007199254740992) (Zpos mt)
                ltac:(lia)) as Hrem.
  unfold Z.modulo in Hrem.
  destruct (Z.div_eucl (Zpos ma * 9007199254740992) (Zpos mt)) as [q r].
  assert (Hq : 4503599627370496 <= q < 18014398509481984) by nia.
  set (d := if q <? 9007199254740992 then 53 else 54).
  assert (Hqd : 2 ^ (d - 1) <= q < 2 ^ d).
  { unfold d. destruct (Z.ltb_spec q 9007199254740992).
    - change (2 ^ (53 - 1)) with 4503599627370496.
      change (2 ^ 53) with 9007199254740992. lia.
    - change (2 ^ (54 - 1)) with 9007199254740992.
      change (2 ^ 54) with 18014398509481984. lia. }
  assert (Hd : 53 <= d <= 54).
  { unfold d. destruct (q <? 9007199254740992); lia. }
  assert (Hloc : located_rec (shr_record_of_loc q (new_location (Zpos mt) r))
                   (Zpos mt) (Zpos ma * 9007199254740992)).
  { rewrite Heq. rewrite (Z.mul_comm (Zpos mt) q).
    apply new_location_located; lia. }
  destruct (binary_round_aux_spec q (ea - et - 53)
              (new_location (Zpos mt) r) (Zpos mt)
              (Zpos ma * 9007199254740992) d
              ltac:(lia) Hqd ltac:(unfold prec; lia)
              ltac:(unfold emin, prec, emax; lia)
              ltac:(unfold prec, emax; lia) Hloc)
    as [mq [eq [Hr [Hmq [Heq' Herr]]]]].
  unfold prec in *.
  exists mq, (d - 53), (eq - (ea - et - 53)).
  split; [rewrite Hr; f_equal; lia|].
  split; [exact Hmq|]. split; [lia|]. split; [lia|].
  exact Herr.
Qed.

(** Multiplication by 100 of a positive value with a 53-digit mantissa. *)
Lemma js_mul_100_spec (mq : positive) (eq : Z) :
  2 ^ 52 <= Zpos mq < 2 ^ 53 ->
  -200 <= eq <= 200 ->
  exists mp n2 s2,
    js_mul (S754_finite false mq eq) (Number 100)
    = S754_finite false mp (eq - 46 + s2)
    /\ 2 ^ 52 <= Zpos mp < 2 ^ 53
    /\ 52 <= n2 <= 53 /\ (s2 = n2 \/ s2 = n2 + 1)
    /\ 2 * Z.abs (Zpos mp * 2 ^ s2 - Zpos mq * (100 * 2 ^ 46)) <= 2 ^ n2.
Proof.
  intros Hq Heq.
  change (Number 100) with (S754_finite false 7036874417766400 (-46)).
  unfold js_mul, SFmul. cbn [xorb]. rewrite Pos2Z.inj_mul.
  change (2 ^ 52) with 4503599627370496 in *.
  change (2 ^ 53) with 9007199254740992 in *.
  change (100 * 2 ^ 46) with 7036874417766400.
  set (P := Zpos mq * 7036874417766400).
  assert (HP : 2 ^ 104 <= P < 2 ^ 106).
  { unfold P.
    change (2 ^ 104) with 20282409603651670423947251286016.
    change (2 ^ 106) with 81129638414606681695789005144064. lia. }
  set (d := if P <? 2 ^ 105 then 105 else 106).
  assert (HPd : 2 ^ (d - 1) <= P < 2 ^ d).
  { unfold d. destruct (Z.ltb_spec P (2 ^ 105)).
    - change (2 ^ (105 - 1)) with (2 ^ 104). lia.
    - change (2 ^ (106 - 1)) with (2 ^ 105). lia. }
  assert (Hd : 105 <= d <= 106).
  { unfold d. destruct (P <? 2 ^ 105); lia. }
  assert (Hloc : located_rec (shr_record_of_loc P loc_Exact) 1 P).
  { split; cbn [shr_record_of_loc shr_m shr_r shr_s located]; unfold P; lia. }
  destruct (binary_round_aux_spec P (eq + -46) loc_Exact 1 P d
              ltac:(lia) HPd ltac:(unfold prec; lia)
              ltac:(unfold emin, prec, emax; lia)
              ltac:(unfold prec, emax; lia) Hloc)
    as [mp [ep [Hr [Hmp [Hep Herr]]]]].
  unfold prec in *.
  exists mp, (d - 53), (ep - (eq + -46)).
  split; [rewrite Hr; f_equal; lia|].
  change (2 ^ 52) with 4503599627370496 in *.
  change (2 ^ 53) with 9007199254740992 in *.
  split; [exact Hmp|]. split; [lia|]. split; [lia|].
  rewrite !Z.mul_1_r in Herr. exact Herr.
Qed.

Lemma cancel_le (x y k : Z) : 0 < k -> x * k <= y * k -> x <= y.
Proof. intros Hk H. now apply Z.mul_le_mono_pos_r in H. Qed.

Lemma cancel_lt (x y k : Z) : 0 < k -> x * k < y * k -> x < y.
Proof. intros Hk H. now apply Z.mul_lt_mono_pos_r in H. Qed.

(** The two rounding errors, in units of [2 ^ -99], against the distance
    of [100 * a / t] from the nearest tie.  [A = a * W], [X = mq * S1 * t],
    [Y = mp * S2 * S1 * t], [B = t * W], [KB = K * t * W], [R = rho * W]. *)
Lemma error_budget (A X Y B KB R t : Z) :
  1 <= t <= 2 ^ 43 ->
  - (2 * t) <= 2 * X - 2 ^ 54 * A <= 2 * t ->
  - (2 ^ 55 * t) <= 2 * Y - 2 * (100 * 2 ^ 46) * X <= 2 ^ 55 * t ->
  200 * A = 2 * KB + R - B ->
  (1 <= R -> (2 * KB - B) * 2 ^ 99 <= 2 * Y)
  /\ (R <= 2 * B - 1 -> 2 * Y < (2 * KB + B) * 2 ^ 99)
  /\ (R = 0 -> 1 <= B ->
      (2 * KB - 3 * B) * 2 ^ 99 <= 2 * Y < (2 * KB + B) * 2 ^ 99).
Proof.
  change (2 ^ 43) with 8796093022208.
  change (2 ^ 54) with 18014398509481984.
  change (2 ^ 55) with 36028797018963968.
  change (100 * 2 ^ 46) with 7036874417766400.
  change (2 ^ 99) with 633825300114114700748351602688.
  intros Ht HX HY HK. repeat split; intros; lia.
Qed.

(** [Math.round((a / t) * 100)] in binary64 against the exact
    [round(100 * a / t)]: equal, or one less at a tie. *)
Theorem rounded_percentage_spec (a t : Z) :
  0 <= a <= t -> 1 <= t <= 2 ^ 43 ->
  exists p,
    rounded_percentage a t = Some p
    /\ (p = specified_percentage a t
        \/ ((200 * a) mod (2 * t) = t
            /\ p = specified_percentage a t - 1)).
Proof.
  intros Ha Ht.
  assert (Ht53 : 1 <= t < 2 ^ 53).
  { change (2 ^ 43) with 8796093022208 in Ht.
    change (2 ^ 53) with 9007199254740992. lia. }
  destruct (Number_spec t Ht53) as [mt [tau [HNt [Htau [Hmt Emt]]]]].
  unfold specified_percentage. rewrite (proj2 (Z.eqb_neq t 0)) by lia.
  destruct (Z.eq_dec a 0) as [->|Ha0].
  - exists 0. split.
    + unfold rounded_percentage. rewrite HNt. reflexivity.
    + left. symmetry. apply Z.div_small. lia.
  - assert (Ha53 : 1 <= a < 2 ^ 53) by lia.
    destruct (Number_spec a Ha53) as [ma [al [HNa [Hal [Hma Ema]]]]].
    assert (Hle : tau <= al).
    { destruct (Z.leb_spec tau al) as [|Hgt]; [assumption|]. exfalso.
      assert (E : 2 ^ tau = 2 ^ al * 2 ^ (tau - al)).
      { rewrite <- pow2_split by lia. f_equal. lia. }
      assert (2 ^ 1 <= 2 ^ (tau - al)) by (apply Z.pow_le_mono_r; lia).
      change (2 ^ 1) with 2 in *.
      pose proof (pow2_pos al ltac:(lia)).
      rewrite E in Emt. nia. }
    set (W := 2 ^ (al - tau)).
    set (T := 2 ^ tau).
    assert (HW : 1 <= W) by (pose proof (pow2_pos (al - tau)); unfold W; lia).
    assert (HT : 0 < T) by (apply pow2_pos; lia).
    assert (EW : 2 ^ al = W * T).
    { unfold W, T. rewrite <- pow2_split by lia. f_equal. lia. }
    rewrite EW in Ema. fold T in Emt.
    destruct (js_div_spec ma mt (- al) (- tau) Hma Hmt ltac:(lia) ltac:(lia))
      as [mq [n1 [s1 [Hdiv [Hmq [Hn1 [Hs1 Herr1]]]]]]].
    destruct (js_mul_100_spec mq (- al - - tau - 53 + s1) Hmq ltac:(lia))
      as [mp [n2 [s2 [Hmul [Hmp [Hn2 [Hs2 Herr2]]]]]]].
    unfold rounded_percentage. rewrite HNa, HNt, Hdiv, Hmul.
    cbn [Math_round].
    assert (Hneg : (0 <=? - al - - tau - 53 + s1 - 46 + s2) = false).
    { apply Z.leb_gt. lia. }
    rewrite Hneg.
    set (c := 2 ^ (99 - s1 - s2)).
    assert (Hc : 0 < c) by (apply pow2_pos; lia).
    assert (Eg : 2 ^ (- (- al - - tau - 53 + s1 - 46 + s2)) = W * c).
    { unfold W, c. rewrite <- pow2_split by lia. f_equal. lia. }
    assert (Eg1 : 2 ^ (- (- al - - tau - 53 + s1 - 46 + s2) + 1)
                  = 2 * (W * c)).
    { rewrite pow2_split, Eg by lia. change (2 ^ 1) with 2. lia. }
    rewrite Eg, Eg1.
    assert (Ec : c * 2 ^ s1 * 2 ^ s2 = 2 ^ 99).
    { unfold c. rewrite <- !pow2_split by lia. f_equal. lia. }
    pose proof (Z.div_mod (200 * a + t) (2 * t) ltac:(lia)) as Hdm.
    pose proof (Z.mod_pos_bound (200 * a + t) (2 * t) ltac:(lia)) as Hrho.
    set (K := (200 * a + t) / (2 * t)) in *.
    set (rho := (200 * a + t) mod (2 * t)) in *.
    (* the two error bounds, normalised *)
    assert (HX : - (2 * t) <= 2 * (Zpos mq * 2 ^ s1 * t) - 2 ^ 54 * (a * W)
                 <= 2 * t).
    { rewrite Emt, Ema in Herr1.
      assert (Hn : 2 ^ n1 <= 2).
      { change 2 with (2 ^ 1) at 2. apply Z.pow_le_mono_r; lia. }
      assert (HtT : 0 <= t * T) by (apply Z.mul_nonneg_nonneg; lia).
      pose proof (Z.mul_le_mono_nonneg_r _ _ _ HtT Hn) as Hb.
      change (2 ^ 54) with (2 * 2 ^ 53).
      split; apply (cancel_le _ _ T HT); clear - Herr1 Hb; lia. }
    assert (HY : - (2 ^ 55 * t)
                 <= 2 * (Zpos mp * 2 ^ s2 * 2 ^ s1 * t)
                    - 2 * (100 * 2 ^ 46) * (Zpos mq * 2 ^ s1 * t)
                 <= 2 ^ 55 * t).
    { assert (B2 : - 2 ^ n2
                   <= 2 * (Zpos mp * 2 ^ s2 - Zpos mq * (100 * 2 ^ 46))
                   <= 2 ^ n2) by (clear - Herr2; lia).
      pose proof (pow2_pos s1 ltac:(lia)) as Hs1p.
      assert (Hst : 0 <= 2 ^ s1 * t) by (apply Z.mul_nonneg_nonneg; lia).
      pose proof (Z.mul_le_mono_nonneg_r _ _ _ Hst (proj1 B2)) as L1.
      pose proof (Z.mul_le_mono_nonneg_r _ _ _ Hst (proj2 B2)) as L2.
      assert (Hn : 2 ^ n2 * 2 ^ s1 <= 2 ^ 55).
      { rewrite <- pow2_split by lia. apply Z.pow_le_mono_r; lia. }
      assert (Ht0 : 0 <= t) by lia.
      pose proof (Z.mul_le_mono_nonneg_r _ _ _ Ht0 Hn) as Hb.
      clear - L1 L2 Hb. lia. }
    assert (HK : 200 * (a * W) = 2 * (K * t * W) + rho * W - t * W).
    { assert (E : (200 * a + t) * W = (2 * t * K + rho) * W)
        by (now rewrite <- Hdm).
      lia. }
    destruct (error_budget (a * W) (Zpos mq * 2 ^ s1 * t)
                (Zpos mp * 2 ^ s2 * 2 ^ s1 * t) (t * W) (K * t * W)
                (rho * W) t Ht HX HY HK) as [Hlow [Hup Htie]].
    clear Herr1 Herr2 HX HY HK Emt Ema Hmt Hma Hmq Hmp EW Eg Eg1.
    pose (k := t * 2 ^ s1 * 2 ^ s2).
    assert (Hk : 0 < k).
    { unfold k. apply Z.mul_pos_pos; [apply Z.mul_pos_pos|];
        [lia | apply pow2_pos; lia | apply pow2_pos; lia]. }
    assert (HWc : 0 < W * c) by (apply Z.mul_pos_pos; lia).
    assert (HB : 1 <= t * W) by (clear - Ht HW; nia).
    assert (Elow : forall j : Z,
               (2 * (K * t * W) + j * (t * W)) * (c * 2 ^ s1 * 2 ^ s2)
               = (2 * K + j) * (W * c) * k) by (intros j; unfold k; ring).
    assert (Emp : 2 * (Zpos mp * 2 ^ s2 * 2 ^ s1 * t) = 2 * Zpos mp * k)
      by (unfold k; ring).
    rewrite <- Ec in Hlow, Hup, Htie.
    replace (2 * (K * t * W) - t * W)
      with (2 * (K * t * W) + (-1) * (t * W)) in Hlow by ring.
    replace (2 * (K * t * W) + t * W)
      with (2 * (K * t * W) + 1 * (t * W)) in Hup, Htie by ring.
    replace (2 * (K * t * W) - 3 * (t * W))
      with (2 * (K * t * W) + (-3) * (t * W)) in Htie by ring.
    rewrite (Elow (-1)), Emp in Hlow. rewrite (Elow 1), Emp in Hup.
    rewrite (Elow (-3)), (Elow 1), Emp in Htie.
    remember (W * c) as G eqn:EG.
    remember (Zpos mp) as P eqn:EP.
    assert (Hrw : rho = 0 -> rho * W = 0) by (intros ->; reflexivity).
    assert (Hr1 : rho <> 0 -> 1 <= rho * W) by (clear - Hrho HW; nia).
    assert (Hr2 : rho * W <= 2 * (t * W) - 1) by (clear - Hrho HW Ht; nia).
    exists ((2 * P + G) / (2 * G)). split; [reflexivity|].
    destruct (Z.eq_dec rho 0) as [Hr0 | Hr0].
    + (* a tie *)
      destruct (Htie (Hrw Hr0) HB) as [H1 H2].
      apply cancel_le in H1; [|exact Hk].
      apply cancel_lt in H2; [|exact Hk].
      assert (Hq1 : K - 1 <= (2 * P + G) / (2 * G)).
      { apply Z.div_le_lower_bound; [lia|]. clear - H1 HWc. lia. }
      assert (Hq2 : (2 * P + G) / (2 * G) < K + 1).
      { apply Z.div_lt_upper_bound; [lia|]. clear - H2 HWc. lia. }
      assert (Hmod : (200 * a) mod (2 * t) = t).
      { symmetry. apply (Z.mod_unique _ _ (K - 1)); [clear - Ht; lia|].
        clear - Hdm Hr0. lia. }
      destruct (Z.eq_dec ((2 * P + G) / (2 * G)) K) as [E|E].
      * left. exact E.
      * right. split; [exact Hmod | clear - Hq1 Hq2 E; lia].
    + (* no tie *)
      specialize (Hlow (Hr1 Hr0)). specialize (Hup Hr2).
      apply cancel_le in Hlow; [|exact Hk].
      apply cancel_lt in Hup; [|exact Hk].
      left. symmetry.
      apply (Z.div_unique _ _ K (2 * P + G - 2 * G * K));
        clear - Hlow Hup HWc; lia.
Qed.

Lemma count_le_length {A} (f : A -> bool) (l : list A) :
  count f l <= Z.of_nat (List.length l).
Proof.
  unfold count. apply Nat2Z.inj_le. apply filter_length_le.
Qed.

Lemma count_mono {A} (f g : A -> bool) (l : list A) :
  (forall a, f a = true -> g a = true) -> count f l <= count g l.
Proof.
  intros H. unfold count. apply Nat2Z.inj_le.
  induction l as [|a l IH]; cbn [filter]; [lia|].
  destruct (f a) eqn:Ef.
  - rewrite (H a Ef). cbn [List.length]. lia.
  - destruct (g a); cbn [List.length]; lia.
Qed.

(** C6 (as amended). The percentage under "Disetujui" is 0 when there is
    no request, without any division.  Otherwise it is, like the rate of
    every department's row, [Math.round] of the binary64 product
    [(approved / total) * 100].  For every ledger (of at most [2 ^ 43]
    requests) that number is the specified [round(100 * approved / total)]
    with ties rounded up, except that when [100 * approved / total] lies
    exactly halfway between two integers it may be one less.  6 approved
    requests out of 10 report 60. *)
Theorem reported_percentages
    (s : session) (now : timestamptz) (db : database)
    (Hsize : BorrowingStats.totalRequests
               (Reports.stats (Reports.fetchReportData s now db))
             <= 2 ^ 43) :
  (exists p,
      Reports.approved_percentage
        (Reports.stats (Reports.fetchReportData s now db)) = Some p
      /\ (p = specified_percentage
               (BorrowingStats.approvedRequests
                  (Reports.stats (Reports.fetchReportData s now db)))
               (BorrowingStats.totalRequests
                  (Reports.stats (Reports.fetchReportData s now db)))
          \/ (tie (BorrowingStats.approvedRequests
                     (Reports.stats (Reports.fetchReportData s now db)))
                  (BorrowingStats.totalRequests
                     (Reports.stats (Reports.fetchReportData s now db)))
              /\ p = specified_percentage
                       (BorrowingStats.approvedRequests
                          (Reports.stats (Reports.fetchReportData s now db)))
                       (BorrowingStats.totalRequests
                          (Reports.stats (Reports.fetchReportData s now db)))
                     - 1)))
  /\ (BorrowingStats.totalRequests
        (Reports.stats (Reports.fetchReportData s now db)) = 0 ->
      Reports.approved_percentage
        (Reports.stats (Reports.fetchReportData s now db)) = Some 0)
  /\ (forall dept,
         In dept (Reports.departmentStats (Reports.fetchReportData s now db))
         ->
         exists p,
           Reports.department_percentage dept = Some p
           /\ (p = specified_percentage
                    (DepartmentStats.approvedRequests dept)
                    (DepartmentStats.totalRequests dept)
               \/ (tie (DepartmentStats.approvedRequests dept)
                       (DepartmentStats.totalRequests dept)
                   /\ p = specified_percentage
                            (DepartmentStats.approvedRequests dept)
                            (DepartmentStats.totalRequests dept) - 1)))
  /\ Reports.approved_percentage
       (Reports.stats
          (Reports.fetchReportData
             (mksession (Some School.id_admin) School.t0) School.t0
             (ledger 6 10))) = Some 60
  /\ map Reports.department_percentage
       (Reports.departmentStats
          (Reports.fetchReportData
             (mksession (Some School.id_admin) School.t0) School.t0
             (ledger 6 10))) = [Some 60].
Proof.
  cbn [Reports.fetchReportData Reports.stats Reports.departmentStats
         Reports.overall BorrowingStats.totalRequests
         BorrowingStats.approvedRequests] in *.
  set (rows := select_borrowing_requests s db) in *.
  split; [|split; [|split; [|split]]].
  - unfold Reports.approved_percentage, Reports.overall, tie.
    cbn [BorrowingStats.totalRequests BorrowingStats.approvedRequests].
    destruct (Z.ltb_spec 0 (Z.of_nat (List.length rows))) as [Hpos|Hzero].
    + apply rounded_percentage_spec; [|lia].
      split; [apply count_nonneg | apply count_le_length].
    + exists 0. split; [reflexivity|]. left.
      unfold specified_percentage.
      assert (E : Z.of_nat (List.length rows) = 0) by lia.
      now rewrite E.
  - intros E. unfold Reports.approved_percentage, Reports.overall.
    cbn [BorrowingStats.totalRequests]. now rewrite E.
  - intros dept Hdept.
    destruct (departments_tallied _ dept Hdept) as [H1 [Ht Ha]].
    unfold Reports.department_percentage, tie.
    apply rounded_percentage_spec.
    + rewrite Ha, Ht. split; [apply count_nonneg|].
      apply count_mono. intros r Hr. unfold approved_of_department in Hr.
      now apply andb_true_iff in Hr.
    + split; [exact H1|].
      rewrite Ht.
      pose proof (count_le_length
                    (of_department (DepartmentStats.jurusan dept))
                    (Reports.deptStatsData s db)) as Hle.
      unfold Reports.deptStatsData in Hle at 2.
      rewrite length_map in Hle. fold rows in Hle. lia.
  - vm_compute. reflexivity.
  - vm_compute. reflexivity.
Qed.

(** Ten requests, six of them approved: the report says 60. *)
Lemma reported_percentages_witness :
  exists p,
    Reports.approved_percentage
      (Reports.stats
         (Reports.fetchReportData
            (mksession (Some School.id_admin) School.t0) School.t0
            (ledger 6 10))) = Some p
    /\ (p = 60 \/ (tie 6 10 /\ p = 59)).
Proof.
  refine (proj1 (reported_percentages
                   (mksession (Some School.id_admin) School.t0) School.t0
                   (ledger 6 10) _)).
  vm_compute. discriminate.
Defined.

(** C6, counterexample.  Of 40 requests 23 are approved, so
    [100 * 23 / 40 = 57.5] and the specified percentage is 58; the report
    shows 57, on the overall card and in the department's row, because
    [23 / 40] then times [100] is 57.49999999999999 in binary64. *)
Lemma percentage_of_23_in_40 :
  BorrowingStats.totalRequests
    (Reports.stats
       (Reports.fetchReportData
          (mksession (Some School.id_admin) School.t0) School.t0
          (ledger 23 40))) = 40
  /\ BorrowingStats.approvedRequests
       (Reports.stats
          (Reports.fetchReportData
             (mksession (Some School.id_admin) School.t0) School.t0
             (ledger 23 40))) = 23
  /\ specified_percentage 23 40 = 58
  /\ Reports.approved_percentage
       (Reports.stats
          (Reports.fetchReportData
             (mksession (Some School.id_admin) School.t0) School.t0
             (ledger 23 40))) = Some 57
  /\ map Reports.department_percentage
       (Reports.departmentStats
          (Reports.fetchReportData
             (mksession (Some School.id_admin) School.t0) School.t0
             (ledger 23 40))) = [Some 57].
Proof. vm_compute. repeat split. Qed.

(* ================================================================== *)
(** * Further properties

    What the schema, the handlers and the read paths do beyond the claims
    above. *)

(* ------------------------------------------------------------------ *)
(** ** Who may change which table *)

(** A DELETE on profiles acts on no row and removes nothing. *)
Lemma drop_no_profiles (db : database) (uid : option uuid)
    (where_ : profiles.row -> bool) :
  drop_profiles (acts_on policies_profiles db uid DELETE where_) db = db.
Proof.
  unfold drop_profiles.
  rewrite (filter_nothing _ (tbl_profiles db));
    [|intros p _; apply no_profile_delete].
  cbn [map]. unfold drop_requests. cbn [tbl_borrowing_requests tbl_profiles
    tbl_user_roles tbl_items tbl_activity_logs mem_string existsb negb].
  rewrite (filter_nothing (fun _ => false)); [|reflexivity].
  cbn [map mem_string existsb negb].
  rewrite !filter_all; try reflexivity.
  now destruct db.
Qed.

(** A DELETE on borrowing_requests acts on no row and removes nothing. *)
Lemma drop_no_requests (db : database) (uid : option uuid)
    (where_ : borrowing_requests.row -> bool) :
  drop_requests (acts_on policies_borrowing_requests db uid DELETE where_) db
  = db.
Proof.
  unfold drop_requests.
  rewrite (filter_nothing
             (acts_on policies_borrowing_requests db uid DELETE where_)
             (tbl_borrowing_requests db));
    [|intros r _; apply no_request_delete].
  cbn [map mem_string existsb negb].
  rewrite !filter_all; try reflexivity.
  - now destruct db.
  - intros r _. now rewrite no_request_delete.
Qed.

(** Removing requests or items leaves profiles and roles alone. *)
Lemma drop_items_frame (dead : items.row -> bool) (db : database) :
  tbl_profiles (drop_items dead db) = tbl_profiles db
  /\ tbl_user_roles (drop_items dead db) = tbl_user_roles db.
Proof. split; reflexivity. Qed.

Ltac settle_run :=
  match goal with
  | |- context [option_map ?f ?o] =>
      destruct o; cbn [option_map];
      [match goal with
       | |- context [integrity ?d] => destruct (integrity d)
       end|]
  | |- context [integrity ?d] => destruct (integrity d)
  end.

(** X1. Roles are in the hands of the admins: whatever statement a caller
    without the admin role sends, the table user_roles stays as it is, and
    with it the result of [has_role] for every user and role.  In
    particular nobody can grant himself a role. *)
Theorem roles_change_only_by_admin
    (s : session) (q : statement) (db : database)
    (Hcaller : has_role db (auth_uid s) admin = false) :
  tbl_user_roles (fst (run s q db)) = tbl_user_roles db
  /\ (forall u ro, has_role (fst (run s q db)) u ro = has_role db u ro).
Proof.
  assert (H : tbl_user_roles (fst (run s q db)) = tbl_user_roles db).
  { unfold run. destruct q; cbn [candidate];
      try (settle_run; reflexivity).
    - (* DELETE FROM profiles *)
      rewrite drop_no_profiles. now destruct (integrity db).
    - (* INSERT INTO user_roles *)
      unfold rls_insert, passes_check. cbn [policies_user_roles existsb
        applies policy_cmd command_eqb WITH_CHECK USING andb orb].
      rewrite Hcaller. reflexivity.
    - (* UPDATE user_roles *)
      rewrite rls_update_nothing.
      + cbn [option_map]. now destruct (integrity _).
      + intros r _. unfold acts_on, passes_using.
        cbn [policies_user_roles existsb applies policy_cmd command_eqb
               USING andb orb].
        rewrite Hcaller. reflexivity.
    - (* DELETE FROM user_roles *)
      unfold rls_delete. rewrite filter_all.
      + now destruct (integrity _).
      + intros r _. unfold acts_on, passes_using.
        cbn [policies_user_roles existsb applies policy_cmd command_eqb
               USING andb orb].
        rewrite Hcaller. reflexivity. }
  split; [exact H|].
  intros u ro. unfold has_role. now rewrite H.
Qed.

(** The student of the small school cannot make himself a guru. *)
Lemma roles_change_only_by_admin_witness :
  tbl_user_roles
    (fst (run (mksession (Some School.id_siswa) School.t0)
            (INSERT_INTO_user_roles
               (user_roles.mk "0e000000-0000-4000-8000-000000000009"
                  School.id_siswa guru (Some School.t0)))
            (School.db tersedia pending)))
  = School.role_rows.
Proof.
  refine (proj1 (roles_change_only_by_admin
                   (mksession (Some School.id_siswa) School.t0) _
                   (School.db tersedia pending) _)).
  reflexivity.
Defined.

(** The rows an accepted UPDATE of profiles rewrites keep their [id]: the
    policy's USING is also the check of the new row. *)
Lemma profile_update_ids (db : database) (uid : option uuid)
    (where_ : profiles.row -> bool) (set : profiles.row -> profiles.row)
    (t : list profiles.row) :
  rls_update policies_profiles db uid where_ set (tbl_profiles db) = Some t ->
  map profiles.id t = map profiles.id (tbl_profiles db)
  /\ (forall p, In p (tbl_profiles db) -> uid <> Some (profiles.id p) ->
                In p t).
Proof.
  unfold rls_update.
  destruct (forallb _ (tbl_profiles db)) eqn:Hall; [|discriminate].
  intros E. injection E as <-. rewrite forallb_forall in Hall. split.
  - rewrite map_map. apply map_ext_in. intros p Hp.
    specialize (Hall p Hp).
    destruct (acts_on policies_profiles db uid UPDATE where_ p) eqn:Hact;
      [|reflexivity].
    cbn [negb orb] in Hall.
    unfold acts_on, passes_using in Hact.
    unfold passes_check in Hall.
    cbn [policies_profiles existsb applies policy_cmd command_eqb USING
           WITH_CHECK andb orb] in Hact, Hall.
    rewrite orb_false_r in Hall.
    rewrite orb_false_r in Hact. apply andb_true_iff in Hact.
    destruct Hact as [Hown _].
    destruct uid as [u|]; [|discriminate].
    cbn [sql_eq] in Hown, Hall.
    apply String.eqb_eq in Hown, Hall. congruence.
  - intros p Hp Hne. apply in_map_iff. exists p. split; [|exact Hp].
    destruct (acts_on policies_profiles db uid UPDATE where_ p) eqn:Hact;
      [|reflexivity].
    exfalso. apply Hne.
    unfold acts_on, passes_using in Hact.
    cbn [policies_profiles existsb applies policy_cmd command_eqb USING
           andb orb] in Hact.
    rewrite orb_false_r in Hact. apply andb_true_iff in Hact.
    destruct Hact as [Hown _].
    destruct uid as [u|]; [|discriminate].
    cbn [sql_eq] in Hown. apply String.eqb_eq in Hown. now subst.
Qed.

(** X2. No statement of any caller adds, removes or re-identifies a
    profile: the list of profile ids stays the same, and the rows of other
    users stay as they are (a caller can only rewrite the own row).  An
    INSERT into profiles is refused and a DELETE acts on no row. *)
Theorem profiles_are_fixed (s : session) (q : statement) (db : database) :
  map profiles.id (tbl_profiles (fst (run s q db)))
  = map profiles.id (tbl_profiles db)
  /\ (forall p, In p (tbl_profiles db) ->
                auth_uid s <> Some (profiles.id p) ->
                In p (tbl_profiles (fst (run s q db))))
  /\ (forall r, run s (INSERT_INTO_profiles r) db
                = (db, Some row_security_violation))
  /\ (forall where_, fst (run s (DELETE_FROM_profiles where_) db) = db).
Proof.
  assert (Hdel : forall where_,
             fst (run s (DELETE_FROM_profiles where_) db) = db).
  { intros where_. unfold run. cbn [candidate].
    rewrite drop_no_profiles. now destruct (integrity db). }
  assert (Hframe :
            tbl_profiles (fst (run s q db)) = tbl_profiles db
            \/ exists where_ set t,
                q = UPDATE_profiles where_ set
                /\ rls_update policies_profiles db (auth_uid s) where_
                     (fun r => profiles.touch (NOW s) (set r))
                     (tbl_profiles db) = Some t
                /\ tbl_profiles (fst (run s q db)) = t).
  { destruct q; try (left; unfold run; cbn [candidate]; settle_run;
                     reflexivity).
    - (* INSERT INTO profiles *)
      left. reflexivity.
    - (* UPDATE profiles *)
      unfold run. cbn [candidate].
      destruct (rls_update policies_profiles db (auth_uid s) where_ _
                  (tbl_profiles db)) as [t|] eqn:E; cbn [option_map].
      + destruct (integrity _); [|now left].
        right. exists where_, set, t. now repeat split.
      + now left.
    - (* DELETE FROM profiles *)
      left. now rewrite Hdel. }
  split; [|split; [|split]].
  - destruct Hframe as [-> | [where_ [set [t [_ [Ht ->]]]]]]; [reflexivity|].
    now apply (profile_update_ids _ _ _ _ _ Ht).
  - intros p Hp Hne.
    destruct Hframe as [-> | [where_ [set [t [_ [Ht ->]]]]]]; [exact Hp|].
    now apply (profile_update_ids _ _ _ _ _ Ht).
  - intros r. reflexivity.
  - exact Hdel.
Qed.

(** X3. The items table changes only at the hands of admin or guru:
    whatever statement a caller without these roles sends (a student,
    somebody without a role, nobody at all), the items stay as they
    are. *)
Theorem items_change_only_by_staff
    (s : session) (q : statement) (db : database)
    (Hadmin : has_role db (auth_uid s) admin = false)
    (Hguru : has_role db (auth_uid s) guru = false) :
  tbl_items (fst (run s q db)) = tbl_items db.
Proof.
  assert (Hpol : forall c (i : items.row),
             c <> SELECT ->
             passes_using policies_items db (auth_uid s) c i = false).
  { intros c i Hc. unfold passes_using.
    cbn [policies_items existsb applies policy_cmd USING andb orb].
    rewrite Hadmin, Hguru.
    destruct c; try reflexivity. now contradiction Hc. }
  unfold run. destruct q; cbn [candidate];
    try (settle_run; reflexivity).
  - (* INSERT INTO items *)
    unfold rls_insert, passes_check.
    cbn [policies_items existsb applies policy_cmd command_eqb WITH_CHECK
           USING andb orb].
    rewrite Hadmin, Hguru. reflexivity.
  - (* UPDATE items *)
    rewrite rls_update_nothing.
    + cbn [option_map]. now destruct (integrity _).
    + intros i _. unfold acts_on. rewrite (Hpol UPDATE); [|discriminate].
      now rewrite andb_false_r.
  - (* DELETE FROM items *)
    assert (Hnone : forall i, In i (tbl_items db) ->
               acts_on policies_items db (auth_uid s) DELETE where_ i
               = false).
    { intros i _. unfold acts_on. rewrite (Hpol DELETE); [|discriminate].
      now rewrite andb_false_r. }
    unfold drop_items, drop_requests.
    cbn [tbl_items with_items].
    rewrite (filter_all (fun i => negb (acts_on policies_items db (auth_uid s)
                                          DELETE where_ i))).
    + now destruct (integrity _).
    + intros i Hi. now rewrite Hnone.
Qed.

(** The student of the small school cannot mark the key as damaged. *)
Lemma items_change_only_by_staff_witness :
  tbl_items
    (fst (run (mksession (Some School.id_siswa) School.t0)
            (UPDATE_items (fun _ => true) (items.set_status (Some rusak)))
            (School.db tersedia pending)))
  = [School.kunci tersedia; School.infokus].
Proof.
  refine (items_change_only_by_staff
            (mksession (Some School.id_siswa) School.t0) _
            (School.db tersedia pending) _ _); reflexivity.
Defined.

(** X4. A caller who is neither admin nor guru reads exactly the own
    borrowing requests, never one of another borrower; without a signed-in
    user no request is read at all. *)
Theorem non_staff_reads_own_requests
    (s : session) (db : database)
    (Hadmin : has_role db (auth_uid s) admin = false)
    (Hguru : has_role db (auth_uid s) guru = false) :
  select_borrowing_requests s db
  = filter (fun r => sql_eq String.eqb
                       (Some (borrowing_requests.borrower_id r)) (auth_uid s))
           (tbl_borrowing_requests db)
  /\ (forall r, In r (select_borrowing_requests s db) ->
                In r (tbl_borrowing_requests db)
                /\ auth_uid s = Some (borrowing_requests.borrower_id r))
  /\ (auth_uid s = None -> select_borrowing_requests s db = []).
Proof.
  assert (E : select_borrowing_requests s db
              = filter (fun r => sql_eq String.eqb
                                   (Some (borrowing_requests.borrower_id r))
                                   (auth_uid s))
                       (tbl_borrowing_requests db)).
  { unfold select_borrowing_requests, rls_select. apply filter_ext.
    intros r. unfold passes_using.
    cbn [policies_borrowing_requests existsb applies policy_cmd command_eqb
           USING andb orb].
    rewrite Hadmin, Hguru. now rewrite !orb_false_r. }
  split; [exact E|]. split.
  - intros r Hr. rewrite E in Hr. apply filter_In in Hr.
    destruct Hr as [Hin Hown]. split; [exact Hin|].
    destruct (auth_uid s) as [u|]; [|discriminate].
    cbn [sql_eq] in Hown. apply String.eqb_eq in Hown. now subst.
  - intros Hnone. rewrite E, Hnone. now apply filter_nothing.
Qed.

(** The second student of the small school, who has filed nothing, reads
    no request. *)
Lemma non_staff_reads_own_requests_witness :
  select_borrowing_requests (mksession (Some School.id_siswa2) School.t0)
    (School.db tersedia pending)
  = filter (fun r => sql_eq String.eqb
                       (Some (borrowing_requests.borrower_id r))
                       (Some School.id_siswa2))
           [School.request pending].
Proof.
  refine (proj1 (non_staff_reads_own_requests
                   (mksession (Some School.id_siswa2) School.t0)
                   (School.db tersedia pending) _ _)); reflexivity.
Defined.

(** A DELETE on items by a caller who is neither admin nor guru removes
    nothing. *)
Lemma items_frame_requests (s : session) (where_ : items.row -> bool)
    (db : database) :
  has_role db (auth_uid s) admin = false ->
  has_role db (auth_uid s) guru = false ->
  tbl_borrowing_requests (fst (run s (DELETE_FROM_items where_) db))
  = tbl_borrowing_requests db.
Proof.
  intros Hadmin Hguru. unfold run. cbn [candidate].
  destruct (integrity _); [|reflexivity].
  cbn [fst]. unfold drop_items, drop_requests.
  cbn [tbl_borrowing_requests with_items tbl_items].
  rewrite (filter_nothing
             (acts_on policies_items db (auth_uid s) DELETE where_)).
  - cbn [map]. now apply filter_all.
  - intros i _. unfold acts_on, passes_using.
    cbn [policies_items existsb applies policy_cmd command_eqb USING
           andb orb].
    rewrite Hadmin, Hguru. reflexivity.
Qed.

(** X5. The ways the table of borrowing requests changes.  After a
    statement the table is as before, or a row with the caller as borrower
    was appended by an INSERT, or admin or guru rewrote the rows selected by
    an UPDATE (stamped by the trigger), or admin or guru deleted items and
    the requests for them went with them.  No DELETE on borrowing_requests
    and no statement on another table does anything to it. *)
Theorem requests_change_discipline
    (s : session) (q : statement) (db : database) :
  tbl_borrowing_requests (fst (run s q db)) = tbl_borrowing_requests db
  \/ (exists r,
         q = INSERT_INTO_borrowing_requests r
         /\ auth_uid s = Some (borrowing_requests.borrower_id r)
         /\ tbl_borrowing_requests (fst (run s q db))
            = tbl_borrowing_requests db ++ [r])
  \/ (exists where_ set,
         q = UPDATE_borrowing_requests where_ set
         /\ has_role db (auth_uid s) admin || has_role db (auth_uid s) guru
            = true
         /\ tbl_borrowing_requests (fst (run s q db))
            = map (fun r => if where_ r
                            then borrowing_requests.touch (NOW s) (set r)
                            else r)
                  (tbl_borrowing_requests db))
  \/ (exists where_,
         q = DELETE_FROM_items where_
         /\ has_role db (auth_uid s) admin || has_role db (auth_uid s) guru
            = true
         /\ tbl_borrowing_requests (fst (run s q db))
            = filter (fun r =>
                        negb (mem_string (borrowing_requests.item_id r)
                                (map items.id (filter where_ (tbl_items db)))))
                     (tbl_borrowing_requests db)).
Proof.
  destruct (has_role db (auth_uid s) admin || has_role db (auth_uid s) guru)
    eqn:Hstaff.
  - (* staff *)
    destruct q;
      try (left; unfold run; cbn [candidate]; settle_run; reflexivity).
    + (* DELETE FROM profiles *)
      left. unfold run. cbn [candidate]. rewrite drop_no_profiles.
      now destruct (integrity db).
    + (* DELETE FROM items *)
      unfold run. cbn [candidate].
      destruct (integrity _); [|now left].
      right. right. right. exists where_. split; [reflexivity|].
      split; [reflexivity|].
      cbn [fst]. unfold drop_items, drop_requests.
      cbn [tbl_borrowing_requests with_items tbl_items].
      apply filter_ext. intros r. do 3 f_equal.
      apply filter_ext. intros i. unfold acts_on, passes_using.
      cbn [policies_items existsb applies policy_cmd command_eqb USING
             andb orb].
      now rewrite Hstaff.
    + (* INSERT INTO borrowing_requests *)
      unfold run. cbn [candidate]. unfold rls_insert.
      destruct (passes_check policies_borrowing_requests db (auth_uid s)
                  INSERT r) eqn:Hchk; cbn [option_map]; [|now left].
      destruct (integrity _); [|now left].
      right. left. exists r. split; [reflexivity|]. split; [|reflexivity].
      unfold passes_check in Hchk.
      cbn [policies_borrowing_requests existsb applies policy_cmd command_eqb
             WITH_CHECK USING andb orb] in Hchk.
      rewrite orb_false_r in Hchk.
      destruct (auth_uid s) as [u|]; [|discriminate].
      cbn [sql_eq] in Hchk. apply String.eqb_eq in Hchk. now subst.
    + (* UPDATE borrowing_requests *)
      unfold run. cbn [candidate]. rewrite rls_update_accepted.
      * cbn [option_map]. destruct (integrity _); [|now left].
        right. right. left. exists where_, set. split; [reflexivity|].
        split; [reflexivity|]. cbn [fst tbl_borrowing_requests
                                      with_borrowing_requests].
        apply map_ext. intros r. unfold acts_on, passes_using.
        cbn [policies_borrowing_requests existsb applies policy_cmd
               command_eqb USING andb orb].
        rewrite Hstaff. rewrite orb_false_r.
        rewrite <- orb_assoc, Hstaff, orb_true_r. reflexivity.
      * intros r _. unfold passes_check.
        cbn [policies_borrowing_requests existsb applies policy_cmd
               command_eqb WITH_CHECK USING andb orb].
        now rewrite Hstaff.
    + (* DELETE FROM borrowing_requests *)
      left. unfold run. cbn [candidate]. rewrite drop_no_requests.
      now destruct (integrity db).
  - (* not staff *)
    apply orb_false_iff in Hstaff. destruct Hstaff as [Hadmin Hguru].
    destruct q;
      try (left; unfold run; cbn [candidate]; settle_run; reflexivity).
    + left. unfold run. cbn [candidate]. rewrite drop_no_profiles.
      now destruct (integrity db).
    + (* DELETE FROM items *)
      left.
      pose proof (items_frame_requests s where_ db Hadmin Hguru) as H.
      exact H.
    + (* INSERT INTO borrowing_requests *)
      unfold run. cbn [candidate]. unfold rls_insert.
      destruct (passes_check policies_borrowing_requests db (auth_uid s)
                  INSERT r) eqn:Hchk; cbn [option_map]; [|now left].
      destruct (integrity _); [|now left].
      right. left. exists r. split; [reflexivity|]. split; [|reflexivity].
      unfold passes_check in Hchk.
      cbn [policies_borrowing_requests existsb applies policy_cmd command_eqb
             WITH_CHECK USING andb orb] in Hchk.
      rewrite orb_false_r in Hchk.
      destruct (auth_uid s) as [u|]; [|discriminate].
      cbn [sql_eq] in Hchk. apply String.eqb_eq in Hchk. now subst.
    + (* UPDATE borrowing_requests *)
      left. unfold run. cbn [candidate]. rewrite rls_update_nothing.
      * cbn [option_map]. now destruct (integrity _).
      * intros r _. unfold acts_on, passes_using.
        cbn [policies_borrowing_requests existsb applies policy_cmd
               command_eqb USING andb orb].
        rewrite Hadmin, Hguru. now rewrite andb_false_r.
    + left. unfold run. cbn [candidate]. rewrite drop_no_requests.
      now destruct (integrity db).
Qed.

(* ------------------------------------------------------------------ *)
(** ** The log accepts every writer *)

(** X6. The policy of activity_logs checks nothing: every caller, signed
    in or not, can append an entry for any existing request in the name of
    any existing profile; the statement is accepted and the constraints
    still hold. *)
Theorem anyone_may_log_in_any_name
    (s : session) (l : activity_logs.row) (db : database)
    (Hintegrity : integrity db = true)
    (Hfresh : ~ In (activity_logs.id l)
                (map activity_logs.id (tbl_activity_logs db)))
    (Hrequest : In (activity_logs.request_id l) (request_ids db))
    (Hperformer : In (activity_logs.performed_by l) (profile_ids db)) :
  run s (INSERT_INTO_activity_logs l) db
  = (with_activity_logs db (tbl_activity_logs db ++ [l]), None)
  /\ integrity (fst (run s (INSERT_INTO_activity_logs l) db)) = true.
Proof.
  assert (E := log_insert s l db Hintegrity
                 (proj2 (mem_string_false _ _) Hfresh) Hrequest Hperformer).
  split; [exact E|]. now apply run_integrity.
Qed.

(** Nobody is signed in, and an "approve" entry in the admin's name is
    accepted. *)
Lemma anyone_may_log_in_any_name_witness :
  run (mksession None School.t0)
    (INSERT_INTO_activity_logs
       (activity_logs.inserted (School.fresh 0) School.t0 School.id_request
          "approve" School.id_admin None))
    (School.db tersedia pending)
  = (with_activity_logs (School.db tersedia pending)
       [School.log_row;
        activity_logs.inserted (School.fresh 0) School.t0 School.id_request
          "approve" School.id_admin None],
     None).
Proof.
  refine (proj1 (anyone_may_log_in_any_name (mksession None School.t0)
                   (activity_logs.inserted (School.fresh 0) School.t0
                      School.id_request "approve" School.id_admin None)
                   (School.db tersedia pending) eq_refl _ _ _)).
  - apply mem_string_false. reflexivity.
  - simpl. tauto.
  - simpl. tauto.
Defined.

(** UPDATEs of requests and of items by a caller who is neither admin nor
    guru are accepted and change nothing. *)
Lemma non_staff_decision_update (s : session) (db : database)
    (where_ : borrowing_requests.row -> bool)
    (set : borrowing_requests.row -> borrowing_requests.row) :
  integrity db = true ->
  has_role db (auth_uid s) admin = false ->
  has_role db (auth_uid s) guru = false ->
  run s (UPDATE_borrowing_requests where_ set) db = (db, None).
Proof.
  intros Hi Hadmin Hguru. unfold run. cbn [candidate].
  rewrite rls_update_nothing.
  - cbn [option_map]. rewrite with_borrowing_requests_same. now rewrite Hi.
  - intros r _. unfold acts_on, passes_using.
    cbn [policies_borrowing_requests existsb applies policy_cmd command_eqb
           USING andb orb].
    rewrite Hadmin, Hguru. now rewrite andb_false_r.
Qed.

Lemma non_staff_item_update (s : session) (db : database)
    (where_ : items.row -> bool) (set : items.row -> items.row) :
  integrity db = true ->
  has_role db (auth_uid s) admin = false ->
  has_role db (auth_uid s) guru = false ->
  run s (UPDATE_items where_ set) db = (db, None).
Proof.
  intros Hi Hadmin Hguru. unfold run. cbn [candidate].
  rewrite rls_update_nothing.
  - cbn [option_map]. rewrite with_items_same. now rewrite Hi.
  - intros i _. unfold acts_on, passes_using.
    cbn [policies_items existsb applies policy_cmd command_eqb USING
           andb orb].
    rewrite Hadmin, Hguru. reflexivity.
Qed.

(** The item UPDATE of an approval, sent by such a caller, changes nothing,
    refused or not. *)
Lemma non_staff_item_statement (w : world) (it : items.row) (u : uuid)
    (db : database) :
  integrity db = true ->
  auth_user w = Some u ->
  has_role db (Some u) admin = false ->
  has_role db (Some u) guru = false ->
  after_item_update w it db = db.
Proof.
  intros Hi Hu Hadmin Hguru.
  unfold after_item_update, item_statement, update_items_eq_id.
  destruct (uuid_in (items.name it)) as [i0|]; [|reflexivity].
  rewrite non_staff_item_update;
    [reflexivity | assumption | cbn [session_of auth_uid]; now rewrite Hu ..].
Qed.

(** X7. [handleApproveReject] has no role check of its own.  Run by a
    signed-in caller who is neither admin nor guru, for an existing request,
    its request UPDATE is accepted without acting on any row and its item
    UPDATE, refused or not, changes nothing; the handler goes on, appends
    one entry with the action "approve" or "reject" in the caller's name and
    reports success, while requests and items are what they were. *)
Theorem decision_of_non_staff_is_logged_not_applied
    (w : world) (selectedRequest : option BorrowingRequest)
    (approvalNotes : string) (requestId : uuid) (status : request_status)
    (u : uuid) (db : database)
    (Hintegrity : integrity db = true)
    (Huser : auth_user w = Some u)
    (Hadmin : has_role db (Some u) admin = false)
    (Hguru : has_role db (Some u) guru = false)
    (Hprofile : In u (profile_ids db))
    (Hrequest : In requestId (request_ids db))
    (Hselected : forall sel, selectedRequest = Some sel ->
                             embedded_items sel <> None)
    (Hfresh : ~ In (uuid_generate_v4 w 0)
                (map activity_logs.id (tbl_activity_logs db))) :
  let result :=
    handleApproveReject w selectedRequest approvalNotes requestId status db in
  run (session_of w)
    (UPDATE_borrowing_requests
       (fun r => String.eqb (borrowing_requests.id r) requestId)
       (borrowing_requests.set_decision status u (Date_now w) approvalNotes))
    db
  = (db, None)
  /\ (forall it, fst (item_statement w it db) = db)
  /\ snd result
     = toast_success (if request_status_eqb status approved
                      then "Permintaan disetujui" else "Permintaan ditolak")
  /\ exists l,
       fst result = with_activity_logs db (tbl_activity_logs db ++ [l])
       /\ activity_logs.action l
          = (if request_status_eqb status approved
             then "approve" else "reject")
       /\ activity_logs.request_id l = requestId
       /\ activity_logs.performed_by l = u
       /\ activity_logs.notes l = Some approvalNotes
       /\ activity_logs.id l = uuid_generate_v4 w 0
       /\ activity_logs.created_at l = Some (db_clock w).
Proof.
  intros result.
  assert (Hupd : run (session_of w)
                   (UPDATE_borrowing_requests
                      (fun r => String.eqb (borrowing_requests.id r) requestId)
                      (borrowing_requests.set_decision status u (Date_now w)
                         approvalNotes))
                   db
                 = (db, None)).
  { apply non_staff_decision_update;
      [assumption | cbn [session_of auth_uid]; now rewrite Huser ..]. }
  assert (Hitems : forall it, fst (item_statement w it db) = db).
  { intros it.
    exact (non_staff_item_statement w it u db Hintegrity Huser Hadmin Hguru). }
  assert (Hlog := log_insert (session_of w)
                    (decision_entry w u approvalNotes requestId status) db
                    Hintegrity (proj2 (mem_string_false _ _) Hfresh)
                    Hrequest Hprofile).
  unfold decision_entry in Hlog.
  assert (Hres : result
                 = (with_activity_logs db
                      (tbl_activity_logs db
                       ++ [decision_entry w u approvalNotes requestId status]),
                    toast_success (if request_status_eqb status approved
                                   then "Permintaan disetujui"
                                   else "Permintaan ditolak"))).
  { unfold result, handleApproveReject. rewrite Huser, Hupd.
    destruct selectedRequest as [sel|].
    - destruct (request_status_eqb status approved) eqn:Est.
      + destruct (embedded_items sel) as [it|] eqn:Eit;
          [|now contradiction (Hselected sel eq_refl)].
        fold (item_statement w it db). rewrite (Hitems it).
        rewrite Hlog. unfold decision_entry. now rewrite Est.
      + rewrite Hlog. unfold decision_entry. now rewrite Est.
    - rewrite Hlog. unfold decision_entry. reflexivity. }
  split; [exact Hupd|]. split; [exact Hitems|].
  rewrite Hres. cbn [fst snd]. split; [reflexivity|].
  exists (decision_entry w u approvalNotes requestId status).
  cbn. repeat split.
Qed.

(** The student of the small school "approves" the own pending request:
    the request UPDATE is accepted and nothing is approved, and success is
    reported. *)
Lemma decision_of_non_staff_is_logged_not_applied_witness :
  run (session_of (School.browser (Some School.id_siswa)))
    (UPDATE_borrowing_requests
       (fun r => String.eqb (borrowing_requests.id r) School.id_request)
       (borrowing_requests.set_decision approved School.id_siswa
          (Date_now (School.browser (Some School.id_siswa))) ""))
    (School.db tersedia pending)
  = (School.db tersedia pending, None)
  /\ snd (handleApproveReject (School.browser (Some School.id_siswa))
            (Some (mkBorrowingRequest (School.request pending)
                     (Some (School.kunci tersedia)) (Some School.p_siswa)))
            "" School.id_request approved (School.db tersedia pending))
     = toast_success "Permintaan disetujui".
Proof.
  assert (Hprofile : In School.id_siswa
                       (profile_ids (School.db tersedia pending)))
    by (simpl; tauto).
  assert (Hrequest : In School.id_request
                       (request_ids (School.db tersedia pending)))
    by (simpl; tauto).
  assert (Hselected : forall sel,
             Some (mkBorrowingRequest (School.request pending)
                     (Some (School.kunci tersedia)) (Some School.p_siswa))
             = Some sel ->
             embedded_items sel <> None).
  { intros sel E. injection E as <-. discriminate. }
  assert (Hfresh : ~ In (uuid_generate_v4
                           (School.browser (Some School.id_siswa)) 0)
                     (map activity_logs.id
                        (tbl_activity_logs (School.db tersedia pending))))
    by (apply mem_string_false; reflexivity).
  destruct (decision_of_non_staff_is_logged_not_applied
              (School.browser (Some School.id_siswa))
              (Some (mkBorrowingRequest (School.request pending)
                       (Some (School.kunci tersedia)) (Some School.p_siswa)))
              "" School.id_request approved School.id_siswa
              (School.db tersedia pending)
              eq_refl eq_refl eq_refl eq_refl Hprofile Hrequest Hselected
              Hfresh)
    as (Hupd & _ & Hsuccess & _).
  split; [exact Hupd | exact Hsuccess].
Defined.

(* ------------------------------------------------------------------ *)
(** ** The [updated_at] triggers *)

(** The rows of a table after an accepted UPDATE: rows that were there, and
    rewritten rows. *)
Lemma rls_update_rows {R} (ps : list (policy R)) (db : database)
    (uid : option uuid) (where_ : R -> bool) (set : R -> R)
    (rows t : list R) (r' : R) :
  rls_update ps db uid where_ set rows = Some t -> In r' t ->
  In r' rows \/ exists r, In r rows /\ where_ r = true /\ r' = set r.
Proof.
  unfold rls_update. destruct (forallb _ rows); [|discriminate].
  intros E Hin. injection E as <-. apply in_map_iff in Hin.
  destruct Hin as [r [Hr Hin]].
  destruct (acts_on ps db uid UPDATE where_ r) eqn:Hact.
  - right. exists r. split; [exact Hin|]. split; [|now symmetry].
    unfold acts_on in Hact. now apply andb_true_iff in Hact.
  - left. now subst.
Qed.

(** X8. The BEFORE UPDATE triggers: after an UPDATE of items, borrowing
    requests or profiles every row of the table is a row that was there,
    untouched, or a row selected by the WHERE clause and rewritten, and
    then its [updated_at] is the time of the statement, whatever the SET
    clause says. *)
Theorem updates_are_stamped (s : session) (db : database) :
  (forall where_ set i,
      In i (tbl_items (fst (run s (UPDATE_items where_ set) db))) ->
      In i (tbl_items db)
      \/ (items.updated_at i = Some (NOW s)
          /\ exists i0, In i0 (tbl_items db) /\ where_ i0 = true
                        /\ i = items.touch (NOW s) (set i0)))
  /\ (forall where_ set r,
        In r (tbl_borrowing_requests
                (fst (run s (UPDATE_borrowing_requests where_ set) db))) ->
        In r (tbl_borrowing_requests db)
        \/ (borrowing_requests.updated_at r = Some (NOW s)
            /\ exists r0, In r0 (tbl_borrowing_requests db)
                          /\ where_ r0 = true
                          /\ r = borrowing_requests.touch (NOW s) (set r0)))
  /\ (forall where_ set p,
        In p (tbl_profiles (fst (run s (UPDATE_profiles where_ set) db))) ->
        In p (tbl_profiles db)
        \/ (profiles.updated_at p = Some (NOW s)
            /\ exists p0, In p0 (tbl_profiles db) /\ where_ p0 = true
                          /\ p = profiles.touch (NOW s) (set p0))).
Proof.
  split; [|split]; intros where_ set x; unfold run; cbn [candidate].
  - destruct (rls_update policies_items db (auth_uid s) where_ _
                (tbl_items db)) as [t|] eqn:E; cbn [option_map];
      [|now left].
    destruct (integrity _); [|now left]. cbn [fst with_items tbl_items].
    intros Hin.
    destruct (rls_update_rows _ _ _ _ _ _ _ _ E Hin)
      as [Hold | [i0 [H0 [Hw ->]]]]; [now left|].
    right. split; [reflexivity|]. now exists i0.
  - destruct (rls_update policies_borrowing_requests db (auth_uid s) where_ _
                (tbl_borrowing_requests db)) as [t|] eqn:E;
      cbn [option_map]; [|now left].
    destruct (integrity _); [|now left].
    cbn [fst with_borrowing_requests tbl_borrowing_requests].
    intros Hin.
    destruct (rls_update_rows _ _ _ _ _ _ _ _ E Hin)
      as [Hold | [r0 [H0 [Hw ->]]]]; [now left|].
    right. split; [reflexivity|]. now exists r0.
  - destruct (rls_update policies_profiles db (auth_uid s) where_ _
                (tbl_profiles db)) as [t|] eqn:E; cbn [option_map];
      [|now left].
    destruct (integrity _); [|now left]. cbn [fst with_profiles tbl_profiles].
    intros Hin.
    destruct (rls_update_rows _ _ _ _ _ _ _ _ E Hin)
      as [Hold | [p0 [H0 [Hw ->]]]]; [now left|].
    right. split; [reflexivity|]. now exists p0.
Qed.

(* ------------------------------------------------------------------ *)
(** ** Sign-up *)

Lemma present_app {A} (l1 l2 : list (option A)) :
  present (l1 ++ l2) = present l1 ++ present l2.
Proof.
  induction l1 as [|[a|] l1 IH]; cbn [present app]; [reflexivity| |exact IH].
  now rewrite IH.
Qed.

Lemma forallb_impl {A} (f g : A -> bool) (l : list A) :
  (forall a, f a = true -> g a = true) ->
  forallb f l = true -> forallb g l = true.
Proof.
  intros H. rewrite !forallb_forall. intros Hf a Ha. apply H. now apply Hf.
Qed.

(** A new profile with a fresh key and a fresh e-mail address keeps the
    constraints. *)
Lemma integrity_insert_profile (db : database) (p : profiles.row) :
  integrity db = true ->
  mem_string (profiles.id p) (profile_ids db) = false ->
  mem_string (profiles.email p) (map profiles.email (tbl_profiles db))
  = false ->
  profiles.nim_nip p = None ->
  integrity (with_profiles db (tbl_profiles db ++ [p])) = true.
Proof.
  intros Hi Hid Hemail Hnim. apply integrity_parts in Hi.
  destruct Hi as [Hp [Hu Hk]]. apply integrity_parts.
  assert (Hids : profile_ids (with_profiles db (tbl_profiles db ++ [p]))
                 = profile_ids db ++ [profiles.id p]).
  { unfold profile_ids. cbn [with_profiles tbl_profiles].
    now rewrite map_app. }
  assert (Hmono : forall x,
             mem_string x (profile_ids db) = true ->
             mem_string x (profile_ids db ++ [profiles.id p]) = true).
  { intros x Hx. rewrite mem_string_app, Hx. reflexivity. }
  repeat split.
  - unfold primary_keys in *. rewrite Hids. unfold item_ids, request_ids in *.
    cbn [with_profiles tbl_user_roles tbl_items tbl_borrowing_requests
           tbl_activity_logs].
    rewrite unique_snoc, Hid. rewrite !andb_true_iff in *. tauto.
  - unfold unique_keys in *.
    cbn [with_profiles tbl_profiles tbl_user_roles].
    rewrite !map_app, present_app. cbn [map present]. rewrite Hnim.
    cbn [present]. rewrite app_nil_r, unique_snoc, Hemail.
    rewrite !andb_true_iff in *. tauto.
  - unfold foreign_keys in *. rewrite !andb_true_iff in *.
    destruct Hk as [[Hr Hq] Hl]. repeat split.
    + rewrite Hids. cbn [with_profiles tbl_user_roles].
      revert Hr. apply forallb_impl. intros r. apply Hmono.
    + cbn [with_profiles tbl_borrowing_requests]. revert Hq.
      apply forallb_impl. intros r. unfold request_refs.
      rewrite Hids. unfold item_ids. cbn [with_profiles tbl_items].
      rewrite !andb_true_iff. intros [[H1 H2] H3]. repeat split.
      * exact H1.
      * now apply Hmono.
      * destruct (borrowing_requests.approved_by r); [now apply Hmono|].
        reflexivity.
    + cbn [with_profiles tbl_activity_logs]. revert Hl.
      apply forallb_impl. intros l. unfold log_refs.
      rewrite Hids. unfold request_ids.
      cbn [with_profiles tbl_borrowing_requests].
      rewrite !andb_true_iff. intros [H1 H2]. split; [exact H1|].
      now apply Hmono.
Qed.

(** X9. Sign-up.  For a new user with an e-mail address and a key that no
    profile has, [handle_new_user] appends the profile (the name from the
    metadata, "User" without one), touches no other table, keeps the
    constraints, and leaves the new user without any role. *)
Theorem new_user_gets_profile_and_no_role
    (now : timestamptz) (NEW : auth_users.row) (email : string)
    (db : database)
    (Hintegrity : integrity db = true)
    (Hemail : auth_users.email NEW = Some email)
    (Hfresh_id : ~ In (auth_users.id NEW) (profile_ids db))
    (Hfresh_email : ~ In email (map profiles.email (tbl_profiles db))) :
  snd (handle_new_user now NEW db) = None
  /\ tbl_profiles (fst (handle_new_user now NEW db))
     = tbl_profiles db
       ++ [profiles.mk (auth_users.id NEW)
             (COALESCE (auth_users.raw_user_meta_data_full_name NEW) "User")
             email None None None None (Some now) (Some now)]
  /\ tbl_user_roles (fst (handle_new_user now NEW db)) = tbl_user_roles db
  /\ tbl_items (fst (handle_new_user now NEW db)) = tbl_items db
  /\ tbl_borrowing_requests (fst (handle_new_user now NEW db))
     = tbl_borrowing_requests db
  /\ tbl_activity_logs (fst (handle_new_user now NEW db))
     = tbl_activity_logs db
  /\ integrity (fst (handle_new_user now NEW db)) = true
  /\ (forall ro,
         has_role (fst (handle_new_user now NEW db))
           (Some (auth_users.id NEW)) ro = false).
Proof.
  unfold handle_new_user. rewrite Hemail. cbv zeta.
  set (p := profiles.mk _ _ email None None None None (Some now) (Some now)).
  assert (Hi : integrity (with_profiles db (tbl_profiles db ++ [p])) = true).
  { apply integrity_insert_profile; try assumption.
    - now apply mem_string_false.
    - now apply mem_string_false.
    - reflexivity. }
  rewrite Hi. cbn [fst snd with_profiles tbl_profiles tbl_user_roles
                     tbl_items tbl_borrowing_requests tbl_activity_logs].
  repeat split; try assumption.
  intros ro. unfold has_role. cbn [with_profiles tbl_user_roles].
  apply integrity_parts in Hintegrity. destruct Hintegrity as [_ [_ Hk]].
  unfold foreign_keys in Hk. rewrite !andb_true_iff in Hk.
  destruct Hk as [[Hr _] _]. rewrite forallb_forall in Hr.
  destruct (existsb _ (tbl_user_roles db)) eqn:E; [|reflexivity].
  exfalso. apply existsb_exists in E. destruct E as [r [Hin Hr']].
  apply andb_true_iff in Hr'. destruct Hr' as [Hu _].
  cbn [sql_eq] in Hu. apply String.eqb_eq in Hu.
  apply Hfresh_id. rewrite <- Hu. apply mem_string_In. now apply Hr.
Qed.

(** A new teacher signs up at the small school: the profile is there, and
    no role with it. *)
Lemma new_user_gets_profile_and_no_role_witness :
  has_role
    (fst (handle_new_user School.t0
            (auth_users.mk "0a000000-0000-4000-8000-000000000005"
               (Some "dosen2@sekolah.ac.id")
               (Some "Siti Rahayu, S.Kom, M.T"))
            (School.db tersedia pending)))
    (Some "0a000000-0000-4000-8000-000000000005") guru = false.
Proof.
  refine (proj2 (proj2 (proj2 (proj2 (proj2 (proj2 (proj2
            (new_user_gets_profile_and_no_role School.t0
               (auth_users.mk "0a000000-0000-4000-8000-000000000005"
                  (Some "dosen2@sekolah.ac.id")
                  (Some "Siti Rahayu, S.Kom, M.T"))
               "dosen2@sekolah.ac.id" (School.db tersedia pending)
               eq_refl eq_refl _ _))))))) guru).
  - apply mem_string_false. reflexivity.
  - apply mem_string_false. reflexivity.
Defined.

(** X10. Sign-up, refused.  When a profile already has the e-mail address
    or the key of the new user, or the new user has no e-mail address,
    [handle_new_user] fails and the database stays as it is. *)
Theorem sign_up_with_known_address_is_refused
    (now : timestamptz) (NEW : auth_users.row) (db : database)
    (Hknown : (exists email, auth_users.email NEW = Some email
                             /\ In email (map profiles.email (tbl_profiles db)))
              \/ In (auth_users.id NEW) (profile_ids db)
              \/ auth_users.email NEW = None) :
  handle_new_user now NEW db = (db, Some integrity_violation).
Proof.
  unfold handle_new_user.
  destruct (auth_users.email NEW) as [email|] eqn:E; [|reflexivity].
  cbv zeta.
  set (p := profiles.mk _ _ email None None None None (Some now) (Some now)).
  assert (Hi : integrity (with_profiles db (tbl_profiles db ++ [p])) = false).
  { unfold integrity.
    destruct Hknown as [[e [Ee Hin]] | [Hin | Hnone]]; [| |discriminate].
    - injection Ee as <-.
      assert (Hu : unique_keys (with_profiles db (tbl_profiles db ++ [p]))
                   = false).
      { unfold unique_keys. cbn [with_profiles tbl_profiles].
        rewrite map_app. cbn [map]. rewrite unique_snoc.
        cbn [profiles.email p].
        rewrite (proj2 (mem_string_In _ _) Hin). cbn [negb].
        now rewrite andb_false_r. }
      rewrite Hu. now rewrite andb_false_r.
    - assert (Hp : primary_keys (with_profiles db (tbl_profiles db ++ [p]))
                   = false).
      { unfold primary_keys, profile_ids. cbn [with_profiles tbl_profiles].
        rewrite map_app. cbn [map]. rewrite unique_snoc.
        cbn [profiles.id p]. fold (profile_ids db).
        rewrite (proj2 (mem_string_In _ _) Hin). cbn [negb].
        now rewrite andb_false_r. }
      now rewrite Hp. }
  now rewrite Hi.
Qed.

(** The address of the admin is taken. *)
Lemma sign_up_with_known_address_is_refused_witness :
  handle_new_user School.t0
    (auth_users.mk "0a000000-0000-4000-8000-000000000005"
       (Some "admin@sekolah.ac.id") None)
    (School.db tersedia pending)
  = (School.db tersedia pending, Some integrity_violation).
Proof.
  refine (sign_up_with_known_address_is_refused School.t0 _
            (School.db tersedia pending) _).
  left. exists "admin@sekolah.ac.id". split; [reflexivity|].
  simpl. tauto.
Defined.

(* ------------------------------------------------------------------ *)
(** ** Ordered reads *)

Lemma insert_sorted_Permutation {A} (cmp : A -> A -> Z) (x : A)
    (l : list A) :
  Permutation (insert_sorted cmp x l) (x :: l).
Proof.
  induction l as [|y l IH]; cbn [insert_sorted].
  - reflexivity.
  - destruct (cmp x y <=? 0).
    + reflexivity.
    + rewrite IH. apply perm_swap.
Qed.

Lemma sort_Permutation {A} (cmp : A -> A -> Z) (l : list A) :
  Permutation (sort cmp l) l.
Proof.
  unfold sort. induction l as [|x l IH]; cbn [fold_right].
  - reflexivity.
  - rewrite insert_sorted_Permutation. now constructor.
Qed.

Section SortOrder.
Context {A : Type}.
Variable cmp : A -> A -> Z.
Hypothesis cmp_total : forall a b, cmp a b <= 0 \/ cmp b a <= 0.
Hypothesis cmp_trans :
  forall a b c, cmp a b <= 0 -> cmp b c <= 0 -> cmp a c <= 0.

Lemma insert_sorted_sorted (x : A) (l : list A) :
  StronglySorted (fun a b => cmp a b <= 0) l ->
  StronglySorted (fun a b => cmp a b <= 0) (insert_sorted cmp x l).
Proof.
  induction l as [|y l IH]; intros Hs; cbn [insert_sorted].
  - constructor; constructor.
  - apply StronglySorted_inv in Hs. destruct Hs as [Hl Hy].
    destruct (Z.leb_spec (cmp x y) 0) as [Hle|Hgt].
    + constructor.
      * now constructor.
      * constructor; [exact Hle|].
        rewrite Forall_forall in *. intros z Hz.
        apply (cmp_trans x y z Hle). now apply Hy.
    + constructor.
      * now apply IH.
      * rewrite Forall_forall in *. intros z Hz.
        apply insert_sorted_In in Hz. destruct Hz as [-> | Hz].
        -- destruct (cmp_total y x); [assumption | lia].
        -- now apply Hy.
Qed.

Lemma sort_sorted (l : list A) :
  StronglySorted (fun a b => cmp a b <= 0) (sort cmp l).
Proof.
  unfold sort. induction l as [|x l IH]; cbn [fold_right].
  - constructor.
  - now apply insert_sorted_sorted.
Qed.

End SortOrder.

Lemma In_firstn {A} (n : nat) (l : list A) (x : A) :
  In x (firstn n l) -> In x l.
Proof.
  intros H. rewrite <- (firstn_skipn n l). apply in_or_app. now left.
Qed.

Lemma In_skipn {A} (n : nat) (l : list A) (x : A) :
  In x (skipn n l) -> In x l.
Proof.
  intros H. rewrite <- (firstn_skipn n l). apply in_or_app. now right.
Qed.

Lemma StronglySorted_firstn {A} (R : A -> A -> Prop) (n : nat) (l : list A) :
  StronglySorted R l ->
  StronglySorted R (firstn n l)
  /\ (forall a b, In a (firstn n l) -> In b (skipn n l) -> R a b).
Proof.
  revert n. induction l as [|x l IH]; intros n Hs.
  - rewrite firstn_nil, skipn_nil. split; [constructor | intros a b []].
  - apply StronglySorted_inv in Hs. destruct Hs as [Hl Hx].
    destruct n as [|n]; cbn [firstn skipn].
    + split; [constructor | intros a b []].
    + destruct (IH n Hl) as [Hf Hr]. split.
      * constructor; [exact Hf|].
        rewrite Forall_forall in *. intros z Hz. apply Hx.
        now apply (In_firstn n).
      * intros a b [<- | Ha] Hb.
        -- rewrite Forall_forall in Hx. apply Hx.
           now apply (In_skipn n).
        -- now apply Hr.
Qed.

Lemma StronglySorted_map {A B} (R : B -> B -> Prop) (f : A -> B)
    (l : list A) :
  StronglySorted (fun a b => R (f a) (f b)) l -> StronglySorted R (map f l).
Proof.
  induction 1 as [|x l Hl IH Hx]; cbn [map]; constructor.
  - exact IH.
  - rewrite Forall_forall in *. intros z Hz. apply in_map_iff in Hz.
    destruct Hz as [y [<- Hy]]. now apply Hx.
Qed.

Lemma desc_total (a b : option timestamptz) : desc a b <= 0 \/ desc b a <= 0.
Proof. destruct a, b; cbn; lia. Qed.

Lemma desc_trans (a b c : option timestamptz) :
  desc a b <= 0 -> desc b c <= 0 -> desc a c <= 0.
Proof. destruct a, b, c; cbn; lia. Qed.

Lemma sort_newest_first {A} (key : A -> option timestamptz) (l : list A) :
  newest_first key (sort (fun a b => desc (key a) (key b)) l).
Proof.
  unfold newest_first.
  apply (sort_sorted (fun a b => desc (key a) (key b))).
  - intros a b. apply desc_total.
  - intros a b c. apply desc_trans.
Qed.

Lemma sort_largest_first {A} (figure : A -> Z) (l : list A) :
  largest_first figure (sort (fun a b => figure b - figure a) l).
Proof.
  unfold largest_first.
  assert (H := sort_sorted (fun a b => figure b - figure a)).
  assert (E : forall l0,
             StronglySorted (fun a b => figure b - figure a <= 0) l0 ->
             StronglySorted (fun a b => figure b <= figure a) l0).
  { induction 1 as [|x l0 Hl IH Hx]; constructor; [exact IH|].
    rewrite Forall_forall in *. intros z Hz. specialize (Hx z Hz). lia. }
  apply E, H.
  - intros a b. lia.
  - intros a b c. lia.
Qed.

Lemma everyone_sees_profiles (s : session) (db : database) :
  select_profiles s db = tbl_profiles db.
Proof.
  unfold select_profiles, rls_select. now apply filter_all.
Qed.

(** X11. [fetchItems] shows every caller, signed in or not, all items,
    each once, from the latest [created_at] to the earliest. *)
Theorem fetchItems_lists_every_item (s : session) (db : database) :
  Permutation (fetchItems s db) (tbl_items db)
  /\ newest_first items.created_at (fetchItems s db)
  /\ List.length (fetchItems s db) = List.length (tbl_items db).
Proof.
  unfold fetchItems. rewrite everyone_sees_items. split; [|split].
  - apply sort_Permutation.
  - apply sort_newest_first.
  - apply sort_length.
Qed.

(** A reference that resolves is embedded. *)
Lemma find_item_by_id (db : database) (k : uuid) :
  In k (item_ids db) ->
  exists it, find (fun i => String.eqb (items.id i) k) (tbl_items db) = Some it
             /\ items.id it = k /\ In it (tbl_items db).
Proof.
  intros H. unfold item_ids in H. apply in_map_iff in H.
  destruct H as [i [Hid Hin]].
  destruct (find (fun i => String.eqb (items.id i) k) (tbl_items db))
    as [it|] eqn:E.
  - apply find_some in E. destruct E as [Hit Hk].
    apply String.eqb_eq in Hk. now exists it.
  - apply (List.find_none _ _ E) in Hin. cbn in Hin.
    rewrite Hid, String.eqb_refl in Hin. discriminate.
Qed.

Lemma find_profile_by_id (db : database) (k : uuid) :
  In k (profile_ids db) ->
  exists p, find (fun p => String.eqb (profiles.id p) k) (tbl_profiles db)
            = Some p
            /\ profiles.id p = k /\ In p (tbl_profiles db).
Proof.
  intros H. unfold profile_ids in H. apply in_map_iff in H.
  destruct H as [i [Hid Hin]].
  destruct (find (fun p => String.eqb (profiles.id p) k) (tbl_profiles db))
    as [p|] eqn:E.
  - apply find_some in E. destruct E as [Hit Hk].
    apply String.eqb_eq in Hk. now exists p.
  - apply (List.find_none _ _ E) in Hin. cbn in Hin.
    rewrite Hid, String.eqb_refl in Hin. discriminate.
Qed.

(** With the references of the schema in place, the item and the borrower
    of a stored request are embedded. *)
Lemma embed_resolves (s : session) (db : database)
    (r : borrowing_requests.row) :
  integrity db = true -> In r (tbl_borrowing_requests db) ->
  exists it p,
    embedded_items (embed s db r) = Some it
    /\ items.id it = borrowing_requests.item_id r
    /\ In it (tbl_items db)
    /\ embedded_profiles (embed s db r) = Some p
    /\ profiles.id p = borrowing_requests.borrower_id r
    /\ In p (tbl_profiles db).
Proof.
  intros Hi Hr. pose proof (foreign_keys_request db r Hi Hr) as Hrefs.
  unfold request_refs in Hrefs. rewrite !andb_true_iff in Hrefs.
  destruct Hrefs as [[Hitem Hprof] _].
  apply mem_string_In in Hitem, Hprof.
  destruct (find_item_by_id db _ Hitem) as [it [Eit [Hid Hin]]].
  destruct (find_profile_by_id db _ Hprof) as [p [Ep [Hpid Hpin]]].
  exists it, p. unfold embed. cbn [embedded_items embedded_profiles].
  rewrite everyone_sees_items, everyone_sees_profiles.
  now repeat split.
Qed.

Lemma fetchRequests_embed (s : session) (db : database) :
  fetchRequests s db
  = map (embed s db)
        (sort (fun a b => desc (borrowing_requests.requested_at a)
                               (borrowing_requests.requested_at b))
              (select_borrowing_requests s db)).
Proof. reflexivity. Qed.

Lemma columns_embed (s : session) (db : database)
    (l : list borrowing_requests.row) :
  map columns (map (embed s db) l) = l.
Proof.
  rewrite map_map. cbn [embed columns]. apply map_id.
Qed.

Lemma newest_first_embed (s : session) (db : database)
    (key : borrowing_requests.row -> option timestamptz)
    (l : list borrowing_requests.row) :
  newest_first key l ->
  newest_first (fun x => key (columns x)) (map (embed s db) l).
Proof.
  unfold newest_first. intros H.
  induction H as [|x l Hl IH Hx]; cbn [map]; constructor.
  - exact IH.
  - rewrite Forall_forall in *. intros z Hz. apply in_map_iff in Hz.
    destruct Hz as [y [<- Hy]]. cbn [embed columns]. now apply Hx.
Qed.

(** X12. With the references of the schema in place, [fetchRequests]
    yields the requests the caller may read, each once, from the latest
    [requested_at] to the earliest, and each row carries its item and its
    borrower's profile: [request.items] and [request.profiles] are never
    null. *)
Theorem fetchRequests_rows_are_complete
    (s : session) (db : database)
    (Hintegrity : integrity db = true) :
  Permutation (map columns (fetchRequests s db))
              (select_borrowing_requests s db)
  /\ newest_first (fun x => borrowing_requests.requested_at (columns x))
       (fetchRequests s db)
  /\ (forall x, In x (fetchRequests s db) ->
        exists it p,
          embedded_items x = Some it
          /\ items.id it = borrowing_requests.item_id (columns x)
          /\ In it (tbl_items db)
          /\ embedded_profiles x = Some p
          /\ profiles.id p = borrowing_requests.borrower_id (columns x)
          /\ In p (tbl_profiles db)).
Proof.
  rewrite fetchRequests_embed. split; [|split].
  - rewrite columns_embed. apply sort_Permutation.
  - apply newest_first_embed. apply sort_newest_first.
  - intros x Hx. apply in_map_iff in Hx. destruct Hx as [r [<- Hr]].
    apply sort_In in Hr. unfold select_borrowing_requests, rls_select in Hr.
    apply filter_In in Hr. destruct Hr as [Hr _].
    cbn [columns embed]. now apply (embed_resolves s db r).
Qed.

(** The admin of the small school fetches the requests: the one row carries
    the key and the student. *)
Lemma fetchRequests_rows_are_complete_witness :
  Permutation
    (map columns
       (fetchRequests (mksession (Some School.id_admin) School.t0)
          (School.db tersedia pending)))
    (select_borrowing_requests (mksession (Some School.id_admin) School.t0)
       (School.db tersedia pending)).
Proof.
  refine (proj1 (fetchRequests_rows_are_complete
                   (mksession (Some School.id_admin) School.t0)
                   (School.db tersedia pending) _)).
  reflexivity.
Defined.

(* ------------------------------------------------------------------ *)
(** ** The dashboard *)

(** X13. [fetchRecentRequests] shows at most five requests, all readable
    by the caller and, for the role "siswa", all of the given profile, from
    the latest [created_at] to the earliest.  If a request of the query is
    left out, five are shown and none of those left out is later than one
    that is shown. *)
Theorem recent_requests_on_dashboard
    (s : session) (userRole : option string) (profile_id : option uuid)
    (db : database) :
  (List.length (fetchRecentRequests s userRole profile_id db) <= 5)%nat
  /\ newest_first (fun x => borrowing_requests.created_at (columns x))
       (fetchRecentRequests s userRole profile_id db)
  /\ (forall x, In x (fetchRecentRequests s userRole profile_id db) ->
        In (columns x) (select_borrowing_requests s db)
        /\ x = embed s db (columns x)
        /\ (userRole = Some "siswa" ->
            profile_id = Some (borrowing_requests.borrower_id (columns x))))
  /\ (exists rest,
        Permutation
          (map columns (fetchRecentRequests s userRole profile_id db) ++ rest)
          (if is_value String.eqb userRole "siswa"
           then filter (fun r => sql_eq String.eqb
                                   (Some (borrowing_requests.borrower_id r))
                                   profile_id)
                       (select_borrowing_requests s db)
           else select_borrowing_requests s db)
        /\ (rest <> [] ->
            List.length (fetchRecentRequests s userRole profile_id db) = 5%nat)
        /\ (forall x r,
              In x (fetchRecentRequests s userRole profile_id db) ->
              In r rest ->
              desc (borrowing_requests.created_at (columns x))
                   (borrowing_requests.created_at r) <= 0)).
Proof.
  unfold fetchRecentRequests. cbv zeta.
  set (query := if is_value String.eqb userRole "siswa"
                then filter _ (select_borrowing_requests s db)
                else select_borrowing_requests s db).
  set (sorted := sort _ query).
  assert (Hsorted : newest_first borrowing_requests.created_at sorted)
    by apply sort_newest_first.
  destruct (StronglySorted_firstn _ 5 sorted Hsorted) as [Hfirst Hrest].
  split; [|split; [|split]].
  - rewrite length_map, length_firstn. lia.
  - now apply newest_first_embed.
  - intros x Hx. apply in_map_iff in Hx. destruct Hx as [r [<- Hr]].
    cbn [columns embed]. apply In_firstn in Hr. apply sort_In in Hr.
    subst query. split; [|split; [reflexivity|]].
    + destruct (is_value String.eqb userRole "siswa"); [|exact Hr].
      now apply filter_In in Hr.
    + intros ->. cbn [is_value String.eqb Ascii.eqb Bool.eqb] in Hr.
      apply filter_In in Hr. destruct Hr as [_ Hown].
      destruct profile_id as [p|]; [|discriminate].
      cbn [sql_eq] in Hown. apply String.eqb_eq in Hown. now subst.
  - exists (skipn 5 sorted). split; [|split].
    + rewrite columns_embed, firstn_skipn. apply sort_Permutation.
    + intros Hne. rewrite length_map, length_firstn.
      destruct (Nat.le_gt_cases 5 (List.length sorted)) as [Hle|Hlt];
        [lia|].
      exfalso. apply Hne. apply skipn_all2. lia.
    + intros x r Hx Hr. apply in_map_iff in Hx.
      destruct Hx as [r0 [<- Hr0]]. cbn [columns embed].
      now apply Hrest.
Qed.

(** The items counted on the dashboard, status by status. *)
Lemma item_statuses_partition (l : list items.row) :
  Z.of_nat (List.length l)
  = count (fun i => is_value item_status_eqb (items.status i) tersedia) l
    + count (fun i => is_value item_status_eqb (items.status i) dipinjam) l
    + count (fun i => is_value item_status_eqb (items.status i) overdue) l
    + count (fun i => is_value item_status_eqb (items.status i) rusak) l
    + count (fun i => negb (truthy (items.status i))) l.
Proof.
  unfold count. induction l as [|i l IH]; [reflexivity|].
  cbn [filter List.length].
  destruct (items.status i) as [[]|]; cbn [is_value item_status_eqb truthy
    negb List.length]; lia.
Qed.

(** X14. The item figures of the dashboard.  "Total Item" is the number of
    all items; it is the sum of "Tersedia", "Dipinjam", "Terlambat" and the
    items that are damaged or without status, so the three figures shown
    never exceed the total.  "Peminjaman Saya" counts only requests of the
    given profile. *)
Theorem dashboard_item_figures
    (s : session) (profile_id : option uuid) (db : database) :
  Dashboard.totalItems (Dashboard.fetchStats s profile_id db)
  = Z.of_nat (List.length (tbl_items db))
  /\ Dashboard.totalItems (Dashboard.fetchStats s profile_id db)
     = Dashboard.availableItems (Dashboard.fetchStats s profile_id db)
       + Dashboard.borrowedItems (Dashboard.fetchStats s profile_id db)
       + Dashboard.overdueItems (Dashboard.fetchStats s profile_id db)
       + count (fun i => is_value item_status_eqb (items.status i) rusak)
               (tbl_items db)
       + count (fun i => negb (truthy (items.status i))) (tbl_items db)
  /\ Dashboard.availableItems (Dashboard.fetchStats s profile_id db)
     + Dashboard.borrowedItems (Dashboard.fetchStats s profile_id db)
     + Dashboard.overdueItems (Dashboard.fetchStats s profile_id db)
     <= Dashboard.totalItems (Dashboard.fetchStats s profile_id db)
  /\ Dashboard.myActiveRequests (Dashboard.fetchStats s profile_id db)
     <= count (fun r => sql_eq String.eqb
                          (Some (borrowing_requests.borrower_id r))
                          profile_id)
              (select_borrowing_requests s db).
Proof.
  unfold Dashboard.fetchStats. cbv zeta.
  cbn [Dashboard.totalItems Dashboard.availableItems Dashboard.borrowedItems
         Dashboard.overdueItems Dashboard.myActiveRequests].
  rewrite everyone_sees_items.
  pose proof (item_statuses_partition (tbl_items db)) as P.
  pose proof (count_nonneg
                (fun i => is_value item_status_eqb (items.status i) rusak)
                (tbl_items db)).
  pose proof (count_nonneg (fun i => negb (truthy (items.status i)))
                (tbl_items db)).
  repeat split; try lia.
  apply count_mono. intros r Hr. now apply andb_true_iff in Hr.
Qed.

(* ------------------------------------------------------------------ *)
(** ** The item list and its filters *)

Lemma prefix_app (q s : string) :
  prefix q s = true <-> exists b, s = (q ++ b)%string.
Proof.
  revert s. induction q as [|c q IH]; intros s.
  - split; [|now destruct s]. intros _. now exists s.
  - destruct s as [|d s]; cbn [prefix].
    + split; [discriminate|]. intros [b Hb]. discriminate.
    + destruct (Ascii.ascii_dec c d) as [->|Hne].
      * rewrite IH. split.
        -- intros [b ->]. now exists b.
        -- intros [b Hb]. cbn in Hb. injection Hb as ->. now exists b.
      * split; [discriminate|]. intros [b Hb]. cbn in Hb.
        injection Hb as E _. now contradiction Hne.
Qed.

Lemma includes_occurs (s q : string) :
  includes s q = true <-> occurs_in q s.
Proof.
  unfold occurs_in. induction s as [|c s IH]; cbn [includes].
  - rewrite orb_false_r, prefix_app. split.
    + intros [b Hb]. exists "", b. exact Hb.
    + intros [a [b Hb]]. destruct a; [|discriminate]. now exists b.
  - rewrite orb_true_iff, prefix_app, IH. split.
    + intros [[b Hb] | [a [b Hb]]].
      * now exists "", b.
      * exists (String c a), b. cbn. now rewrite Hb.
    + intros [a [b Hb]]. destruct a as [|d a].
      * left. now exists b.
      * right. cbn in Hb. injection Hb as _ Hb. now exists a, b.
Qed.

Lemma filter_filter {A} (f g : A -> bool) (l : list A) :
  filter f (filter g l) = filter (fun a => g a && f a) l.
Proof.
  induction l as [|a l IH]; cbn [filter]; [reflexivity|].
  destruct (g a); cbn [filter andb]; [|exact IH].
  destruct (f a); now rewrite IH.
Qed.

Lemma filterItems_listed (toLowerCase : string -> string)
    (items : list items.row) (searchQuery filterStatus filterType : string) :
  filterItems toLowerCase items searchQuery filterStatus filterType
  = filter (listed toLowerCase searchQuery filterStatus filterType) items.
Proof.
  unfold filterItems, listed. cbv zeta.
  destruct (falsy searchQuery), (String.eqb filterStatus "all"),
    (String.eqb filterType "all"); cbn [negb orb andb];
    rewrite ?filter_filter; try (apply filter_ext; intros item);
    rewrite ?andb_true_r, ?andb_assoc; try reflexivity.
  symmetry. now apply filter_all.
Qed.

(** X15. [filterItems] keeps the items in their order and lists exactly
    those that pass the three criteria together: the search text (if any)
    occurs, whatever the case, in the name or in the room; the status is
    the selected one (unless "all"); the type is the selected one (unless
    "all").  Without criteria every item is listed, and filtering a second
    time changes nothing.  The case mapping is any function. *)
Theorem filterItems_lists_the_matches (toLowerCase : string -> string)
    (items : list items.row) (searchQuery filterStatus filterType : string) :
  (exists keep,
      filterItems toLowerCase items searchQuery filterStatus filterType
      = filter keep items)
  /\ (forall item,
         In item (filterItems toLowerCase items searchQuery filterStatus
                    filterType)
         <-> In item items
             /\ (searchQuery = ""
                 \/ occurs_in (toLowerCase searchQuery)
                      (toLowerCase (items.name item))
                 \/ occurs_in (toLowerCase searchQuery)
                      (toLowerCase (items.room_name item)))
             /\ (filterStatus = "all"
                 \/ option_map item_status_text (items.status item)
                    = Some filterStatus)
             /\ (filterType = "all" \/ items.type item = filterType))
  /\ filterItems toLowerCase items "" "all" "all" = items
  /\ filterItems toLowerCase
       (filterItems toLowerCase items searchQuery filterStatus filterType)
       searchQuery filterStatus filterType
     = filterItems toLowerCase items searchQuery filterStatus filterType.
Proof.
  split; [|split; [|split]].
  - eexists. apply filterItems_listed.
  - intros item. rewrite filterItems_listed, filter_In. unfold listed.
    rewrite !andb_true_iff, !orb_true_iff, !includes_occurs.
    unfold falsy. rewrite !String.eqb_eq.
    assert (Est : is_value String.eqb
                    (option_map item_status_text (items.status item))
                    filterStatus = true
                  <-> option_map item_status_text (items.status item)
                      = Some filterStatus).
    { destruct (items.status item) as [st|]; cbn [option_map is_value].
      - rewrite String.eqb_eq. split; congruence.
      - split; discriminate. }
    rewrite Est. tauto.
  - reflexivity.
  - rewrite !filterItems_listed, filter_filter. apply filter_ext.
    intros item. now destruct (listed _ _ _ _ item).
Qed.

(* ------------------------------------------------------------------ *)
(** ** Handlers at the edges *)

(** A log entry for a request that does not exist breaks the reference of
    [activity_logs.request_id]. *)
Lemma log_of_missing_request_refused (s : session) (l : activity_logs.row)
    (db : database) :
  ~ In (activity_logs.request_id l) (request_ids db) ->
  fst (run s (INSERT_INTO_activity_logs l) db) = db.
Proof.
  intros Hmiss. unfold run. cbn [candidate]. unfold rls_insert.
  destruct (passes_check policies_activity_logs db (auth_uid s) INSERT l);
    cbn [option_map]; [|reflexivity].
  assert (E : integrity (with_activity_logs db (tbl_activity_logs db ++ [l]))
              = false).
  { unfold integrity, foreign_keys.
    cbn [with_activity_logs tbl_activity_logs tbl_borrowing_requests
           tbl_user_roles].
    rewrite forallb_snoc. unfold log_refs at 2. unfold request_ids.
    cbn [with_activity_logs tbl_borrowing_requests].
    fold (request_ids db).
    rewrite (proj2 (mem_string_false _ _) Hmiss).
    cbn [andb]. now rewrite ?andb_false_r. }
  now rewrite E.
Qed.

(** An UPDATE of requests by an id that no request has changes nothing and
    raises no error. *)
Lemma decision_update_misses (s : session) (requestId : uuid)
    (set : borrowing_requests.row -> borrowing_requests.row)
    (db : database) :
  integrity db = true ->
  ~ In requestId (request_ids db) ->
  run s (UPDATE_borrowing_requests
           (fun r => String.eqb (borrowing_requests.id r) requestId) set) db
  = (db, None).
Proof.
  intros Hi Hmiss. unfold run. cbn [candidate].
  rewrite rls_update_nothing.
  - cbn [option_map]. rewrite with_borrowing_requests_same. now rewrite Hi.
  - intros r Hr. unfold acts_on.
    destruct (String.eqb_spec (borrowing_requests.id r) requestId) as [E|E].
    + exfalso. apply Hmiss. rewrite <- E. unfold request_ids.
      now apply in_map.
    + apply andb_false_r.
Qed.

(** X16. A decision on a request that is gone.  When no request has the
    given id, the request UPDATE of [handleApproveReject] acts on no row
    without an error, the log entry is refused by the reference of
    [activity_logs.request_id] and the refusal is not looked at: requests
    and log are as before and the handler reports success.  Nothing at all
    is written unless the selected item's name, read as a uuid, is the id
    of an item. *)
Theorem decision_on_missing_request_reports_success
    (w : world) (selectedRequest : option BorrowingRequest)
    (approvalNotes : string) (requestId : uuid) (status : request_status)
    (u : uuid) (db : database)
    (Hintegrity : integrity db = true)
    (Huser : auth_user w = Some u)
    (Hid : uuid_in requestId = Some requestId)
    (Hmissing : ~ In requestId (request_ids db))
    (Hselected : forall sel, selectedRequest = Some sel ->
                             embedded_items sel <> None) :
  let result :=
    handleApproveReject w selectedRequest approvalNotes requestId status db in
  snd result
  = toast_success (if request_status_eqb status approved
                   then "Permintaan disetujui" else "Permintaan ditolak")
  /\ tbl_borrowing_requests (fst result) = tbl_borrowing_requests db
  /\ tbl_activity_logs (fst result) = tbl_activity_logs db
  /\ tbl_profiles (fst result) = tbl_profiles db
  /\ tbl_user_roles (fst result) = tbl_user_roles db
  /\ ((forall sel it i0,
          selectedRequest = Some sel -> embedded_items sel = Some it ->
          uuid_in (items.name it) = Some i0 -> ~ In i0 (item_ids db)) ->
      fst result = db).
Proof.
  intros result.
  assert (Hlog : forall l db', activity_logs.request_id l = requestId ->
             tbl_borrowing_requests db' = tbl_borrowing_requests db ->
             fst (run (session_of w) (INSERT_INTO_activity_logs l) db') = db').
  { intros l db' El Edb. apply log_of_missing_request_refused.
    rewrite El. unfold request_ids. now rewrite Edb. }
  assert (Hres :
            result
            = (match selectedRequest with
               | Some sel =>
                   if request_status_eqb status approved
                   then match embedded_items sel with
                        | Some it => after_item_update w it db
                        | None => db
                        end
                   else db
               | None => db
               end,
               toast_success (if request_status_eqb status approved
                              then "Permintaan disetujui"
                              else "Permintaan ditolak"))).
  { unfold result, handleApproveReject. rewrite Huser.
    rewrite (decision_update_misses _ _ _ _ Hintegrity Hmissing).
    destruct selectedRequest as [sel|]; [|now rewrite Hlog].
    destruct (request_status_eqb status approved); [|now rewrite Hlog].
    destruct (embedded_items sel) as [it|] eqn:Eit;
      [|now contradiction (Hselected sel eq_refl)].
    fold (item_statement w it db). fold (after_item_update w it db).
    rewrite Hlog; [reflexivity | reflexivity |].
    now destruct (item_statement_frame w it db) as [_ [_ [Fr _]]]. }
  rewrite Hres. cbn [fst snd]. split; [reflexivity|].
  assert (Hframe :
            forall db', db' = db \/ (exists it, db' = after_item_update w it db) ->
            tbl_borrowing_requests db' = tbl_borrowing_requests db
            /\ tbl_activity_logs db' = tbl_activity_logs db
            /\ tbl_profiles db' = tbl_profiles db
            /\ tbl_user_roles db' = tbl_user_roles db).
  { intros db' [-> | [it ->]]; [repeat split|].
    destruct (item_statement_frame w it db) as [Fp [Fu [Fr Fl]]].
    repeat split; assumption. }
  assert (Hwhich :
            (match selectedRequest with
             | Some sel =>
                 if request_status_eqb status approved
                 then match embedded_items sel with
                      | Some it => after_item_update w it db
                      | None => db
                      end
                 else db
             | None => db
             end) = db
            \/ exists it,
                (match selectedRequest with
                 | Some sel =>
                     if request_status_eqb status approved
                     then match embedded_items sel with
                          | Some it => after_item_update w it db
                          | None => db
                          end
                     else db
                 | None => db
                 end) = after_item_update w it db).
  { destruct selectedRequest as [sel|]; [|now left].
    destruct (request_status_eqb status approved); [|now left].
    destruct (embedded_items sel) as [it|]; [|now left].
    right. now exists it. }
  destruct (Hframe _ Hwhich) as [Fr [Fl [Fp Fu]]].
  repeat split; try assumption.
  intros Hname.
  destruct selectedRequest as [sel|]; [|reflexivity].
  destruct (request_status_eqb status approved); [|reflexivity].
  destruct (embedded_items sel) as [it|] eqn:Eit; [|reflexivity].
  apply item_update_by_name_misses. intros i0 Ei0.
  exact (Hname sel it i0 eq_refl Eit Ei0).
Qed.

(** The request of the small school was withdrawn while the admin had its
    dialog open; the admin approves it: nothing is written, and the page
    reports success. *)
Lemma decision_on_missing_request_reports_success_witness :
  snd (handleApproveReject (School.browser (Some School.id_admin))
         (Some (mkBorrowingRequest (School.request pending)
                  (Some (School.kunci tersedia)) (Some School.p_siswa)))
         "" School.id_request approved
         (mkdb School.profile_rows School.role_rows
            [School.kunci tersedia; School.infokus] [] []))
  = toast_success "Permintaan disetujui"
  /\ fst (handleApproveReject (School.browser (Some School.id_admin))
            (Some (mkBorrowingRequest (School.request pending)
                     (Some (School.kunci tersedia)) (Some School.p_siswa)))
            "" School.id_request approved
            (mkdb School.profile_rows School.role_rows
               [School.kunci tersedia; School.infokus] [] []))
     = mkdb School.profile_rows School.role_rows
         [School.kunci tersedia; School.infokus] [] [].
Proof.
  assert (Hmissing : ~ In School.id_request
                       (request_ids
                          (mkdb School.profile_rows School.role_rows
                             [School.kunci tersedia; School.infokus] [] [])))
    by (simpl; tauto).
  assert (Hselected : forall sel,
             Some (mkBorrowingRequest (School.request pending)
                     (Some (School.kunci tersedia)) (Some School.p_siswa))
             = Some sel ->
             embedded_items sel <> None).
  { intros sel E. injection E as <-. discriminate. }
  destruct (decision_on_missing_request_reports_success
              (School.browser (Some School.id_admin))
              (Some (mkBorrowingRequest (School.request pending)
                       (Some (School.kunci tersedia)) (Some School.p_siswa)))
              "" School.id_request approved School.id_admin
              (mkdb School.profile_rows School.role_rows
                 [School.kunci tersedia; School.infokus] [] [])
              eq_refl eq_refl eq_refl Hmissing Hselected)
    as (Hsuccess & _ & _ & _ & _ & Hsame).
  split; [exact Hsuccess|].
  apply Hsame. intros sel it i0 Esel Eit Ei0.
  injection Esel as <-. injection Eit as <-. discriminate Ei0.
Defined.

(** The first row of a sorted list precedes every row. *)
Lemma latest_created_is_latest (rows : list borrowing_requests.row)
    (r x : borrowing_requests.row) :
  latest_created rows = Some r -> In x rows ->
  desc (borrowing_requests.created_at r) (borrowing_requests.created_at x)
  <= 0.
Proof.
  unfold latest_created. intros H Hx.
  pose proof (sort_newest_first borrowing_requests.created_at rows) as Hs.
  apply (sort_In (fun a b => desc (borrowing_requests.created_at a)
                                  (borrowing_requests.created_at b))) in Hx.
  destruct (sort _ rows) as [|y l]; [discriminate|].
  injection H as ->. unfold newest_first in Hs.
  apply StronglySorted_inv in Hs. destruct Hs as [_ Hall].
  destruct Hx as [<- | Hx].
  - destruct (borrowing_requests.created_at r); cbn; lia.
  - rewrite Forall_forall in Hall. now apply Hall.
Qed.

(** X17. The "request" entry of [handleBorrowRequest] is attached to the
    request found as the latest by [created_at].  When every request the
    caller can read was created before the database clock's time, this is
    the request just created. *)
Theorem request_log_names_the_new_request
    (w : world) (st : ItemsForm) (item : items.row) (u : uuid)
    (start_ end_ : timestamptz) (db : database)
    (Hintegrity : integrity db = true)
    (Hform : complete st item)
    (Huser : auth_user w = Some u)
    (Hprofile : In u (profile_ids db))
    (Hitem : In (items.id item) (item_ids db))
    (Hstart : Date_parse (utc_offset_minutes w) (startTime st) = Some start_)
    (Hend : Date_parse (utc_offset_minutes w) (endTime st) = Some end_)
    (Hfresh_request : ~ In (uuid_generate_v4 w 0) (request_ids db))
    (Hfresh_log : ~ In (uuid_generate_v4 w 1)
                    (map activity_logs.id (tbl_activity_logs db)))
    (Hearlier : forall r,
        In r (select_borrowing_requests (session_of w) db) ->
        exists t, borrowing_requests.created_at r = Some t
                  /\ t < db_clock w) :
  tbl_activity_logs (fst (handleBorrowRequest w st db))
  = tbl_activity_logs db
    ++ [activity_logs.inserted (uuid_generate_v4 w 1) (db_clock w)
          (uuid_generate_v4 w 0) "request" u
          (Some ("Mengajukan peminjaman " ++ items.name item)%string)].
Proof.
  pose proof (insert_request_accepted w st item u start_ end_ db Hintegrity
                Huser Hprofile Hitem Hfresh_request) as Hrun.
  rewrite (borrow_run w st item u start_ end_ db _ Hform Huser Hstart Hend
             Hrun).
  cbn [fst].
  set (new := requested w item u st start_ end_) in *.
  set (db1 := with_borrowing_requests db (tbl_borrowing_requests db ++ [new]))
    in *.
  assert (Hi1 : integrity db1 = true) by (apply run_accepted in Hrun; apply Hrun).
  assert (Hvis : select_borrowing_requests (session_of w) db1
                 = select_borrowing_requests (session_of w) db ++ [new]).
  { unfold select_borrowing_requests, rls_select, db1.
    cbn [session_of auth_uid with_borrowing_requests tbl_borrowing_requests].
    rewrite Huser, filter_app. cbn [filter].
    now rewrite (borrower_sees_request _ u new eq_refl). }
  destruct (latest_created_some (select_borrowing_requests (session_of w) db1))
    as [r Hr].
  { rewrite Hvis. intros E. apply app_eq_nil in E. destruct E as [_ E].
    discriminate. }
  rewrite Hr.
  assert (Hnew : r = new).
  { pose proof (latest_created_In _ _ Hr) as Hin.
    pose proof (latest_created_is_latest _ r new Hr) as Hle.
    rewrite Hvis in Hin, Hle.
    assert (Hn : In new (select_borrowing_requests (session_of w) db
                         ++ [new]))
      by (apply in_or_app; right; now left).
    specialize (Hle Hn).
    apply in_app_or in Hin. destruct Hin as [Hold | [E | []]];
      [|now symmetry].
    exfalso. destruct (Hearlier r Hold) as [t [Et Hlt]].
    rewrite Et in Hle. cbn in Hle. lia. }
  subst r.
  rewrite (log_insert (session_of w) (request_entry w item u new) db1 Hi1).
  - reflexivity.
  - apply mem_string_false. exact Hfresh_log.
  - unfold request_ids, db1. cbn [with_borrowing_requests
                                    tbl_borrowing_requests].
    rewrite map_app. apply in_or_app. right. now left.
  - exact Hprofile.
Qed.

(** The second student of the small school asks for the projector: the
    entry names the new request. *)
Lemma request_log_names_the_new_request_witness :
  tbl_activity_logs
    (fst (handleBorrowRequest (School.browser (Some School.id_siswa2))
            (mkItemsForm (Some School.infokus) "Presentasi"
               "2025-01-10T08:00" "2025-01-10T10:00")
            (School.db tersedia pending)))
  = [School.log_row;
     activity_logs.inserted (School.fresh 1) (School.t0 + 61000)
       (School.fresh 0) "request" School.id_siswa2
       (Some "Mengajukan peminjaman Infokus 01")].
Proof.
  refine (request_log_names_the_new_request
            (School.browser (Some School.id_siswa2))
            (mkItemsForm (Some School.infokus) "Presentasi"
               "2025-01-10T08:00" "2025-01-10T10:00")
            School.infokus School.id_siswa2 1736470800000 1736478000000
            (School.db tersedia pending)
            eq_refl _ eq_refl _ _ eq_refl eq_refl _ _ _).
  - repeat split; discriminate.
  - simpl. tauto.
  - simpl. tauto.
  - apply mem_string_false. reflexivity.
  - apply mem_string_false. reflexivity.
  - intros r Hr. vm_compute in Hr. destruct Hr.
Defined.

(** X18. When a request the caller can read has no [created_at] or one
    that lies after the database clock's time, the request is created all
    the same but its "request" entry is attached to a request that was
    there before. *)
Theorem request_log_names_a_later_stamped_request
    (w : world) (st : ItemsForm) (item : items.row) (u : uuid)
    (start_ end_ : timestamptz) (r0 : borrowing_requests.row) (db : database)
    (Hintegrity : integrity db = true)
    (Hform : complete st item)
    (Huser : auth_user w = Some u)
    (Hprofile : In u (profile_ids db))
    (Hitem : In (items.id item) (item_ids db))
    (Hstart : Date_parse (utc_offset_minutes w) (startTime st) = Some start_)
    (Hend : Date_parse (utc_offset_minutes w) (endTime st) = Some end_)
    (Hfresh_request : ~ In (uuid_generate_v4 w 0) (request_ids db))
    (Hfresh_log : ~ In (uuid_generate_v4 w 1)
                    (map activity_logs.id (tbl_activity_logs db)))
    (Hreadable : In r0 (select_borrowing_requests (session_of w) db))
    (Hstamp : borrowing_requests.created_at r0 = None
              \/ exists t, borrowing_requests.created_at r0 = Some t
                           /\ db_clock w < t) :
  In (uuid_generate_v4 w 0)
     (request_ids (fst (handleBorrowRequest w st db)))
  /\ exists r,
      In r (select_borrowing_requests (session_of w) db)
      /\ borrowing_requests.id r <> uuid_generate_v4 w 0
      /\ tbl_activity_logs (fst (handleBorrowRequest w st db))
         = tbl_activity_logs db
           ++ [activity_logs.inserted (uuid_generate_v4 w 1) (db_clock w)
                 (borrowing_requests.id r) "request" u
                 (Some ("Mengajukan peminjaman " ++ items.name item)%string)].
Proof.
  pose proof (insert_request_accepted w st item u start_ end_ db Hintegrity
                Huser Hprofile Hitem Hfresh_request) as Hrun.
  rewrite (borrow_run w st item u start_ end_ db _ Hform Huser Hstart Hend
             Hrun).
  cbn [fst].
  set (new := requested w item u st start_ end_) in *.
  set (db1 := with_borrowing_requests db (tbl_borrowing_requests db ++ [new]))
    in *.
  assert (Hi1 : integrity db1 = true) by (apply run_accepted in Hrun; apply Hrun).
  assert (Hvis : select_borrowing_requests (session_of w) db1
                 = select_borrowing_requests (session_of w) db ++ [new]).
  { unfold select_borrowing_requests, rls_select, db1.
    cbn [session_of auth_uid with_borrowing_requests tbl_borrowing_requests].
    rewrite Huser, filter_app. cbn [filter].
    now rewrite (borrower_sees_request _ u new eq_refl). }
  destruct (latest_created_some (select_borrowing_requests (session_of w) db1))
    as [r Hr].
  { rewrite Hvis. intros E. apply app_eq_nil in E. destruct E as [_ E].
    discriminate. }
  rewrite Hr.
  assert (Hold : In r (select_borrowing_requests (session_of w) db)).
  { pose proof (latest_created_In _ _ Hr) as Hin.
    pose proof (latest_created_is_latest _ r r0 Hr) as Hle.
    rewrite Hvis in Hin, Hle.
    assert (H0 : In r0 (select_borrowing_requests (session_of w) db ++ [new]))
      by (apply in_or_app; now left).
    specialize (Hle H0).
    apply in_app_or in Hin. destruct Hin as [Hold | [E | []]];
      [exact Hold|].
    exfalso. subst r. cbn [new requested borrowing_requests.inserted
                             borrowing_requests.created_at] in Hle.
    destruct Hstamp as [E0 | [t [E0 Hlt]]]; rewrite E0 in Hle; cbn in Hle;
      lia. }
  assert (Hr' : In r (tbl_borrowing_requests db)).
  { unfold select_borrowing_requests, rls_select in Hold.
    now apply filter_In in Hold. }
  assert (Hlog_ok :
            fst (run (session_of w)
                   (INSERT_INTO_activity_logs (request_entry w item u r)) db1)
            = with_activity_logs db1
                (tbl_activity_logs db1 ++ [request_entry w item u r])).
  { rewrite (log_insert (session_of w) (request_entry w item u r) db1 Hi1).
    - reflexivity.
    - apply mem_string_false. exact Hfresh_log.
    - unfold request_ids, db1. cbn [with_borrowing_requests
                                      tbl_borrowing_requests request_entry
                                      activity_logs.inserted
                                      activity_logs.request_id].
      rewrite map_app. apply in_or_app. left. now apply in_map.
    - exact Hprofile. }
  rewrite Hlog_ok. split.
  - unfold request_ids, db1. cbn [with_activity_logs with_borrowing_requests
                                    tbl_borrowing_requests].
    rewrite map_app. apply in_or_app. right. now left.
  - exists r. split; [exact Hold|]. split; [|reflexivity].
    intros E. apply Hfresh_request. rewrite <- E. unfold request_ids.
    now apply in_map.
Qed.

(** The student's earlier request carries a stamp that lies ahead of the
    database clock: the entry for the new request names the earlier one. *)
Lemma request_log_names_a_later_stamped_request_witness :
  exists r,
    In r (select_borrowing_requests
            (session_of (mkworld (Some School.id_siswa) School.t0
                           (School.t0 - 1000) (fun _ => 420) School.fresh
                           (fun _ => None) (fun _ => false)))
            (School.db tersedia pending))
    /\ borrowing_requests.id r <> School.fresh 0
    /\ tbl_activity_logs
         (fst (handleBorrowRequest
                 (mkworld (Some School.id_siswa) School.t0 (School.t0 - 1000)
                    (fun _ => 420) School.fresh
                    (fun _ => None) (fun _ => false))
                 (mkItemsForm (Some School.infokus) "Presentasi"
                    "2025-01-10T08:00" "2025-01-10T10:00")
                 (School.db tersedia pending)))
       = tbl_activity_logs (School.db tersedia pending)
         ++ [activity_logs.inserted (School.fresh 1) (School.t0 - 1000)
               (borrowing_requests.id r) "request" School.id_siswa
               (Some "Mengajukan peminjaman Infokus 01")].
Proof.
  refine (proj2 (request_log_names_a_later_stamped_request
                   (mkworld (Some School.id_siswa) School.t0
                      (School.t0 - 1000) (fun _ => 420) School.fresh
                      (fun _ => None) (fun _ => false))
                   (mkItemsForm (Some School.infokus) "Presentasi"
                      "2025-01-10T08:00" "2025-01-10T10:00")
                   School.infokus School.id_siswa 1736470800000 1736478000000
                   (School.request pending) (School.db tersedia pending)
                   eq_refl _ eq_refl _ _ eq_refl eq_refl _ _ _ _)).
  - repeat split; discriminate.
  - simpl. tauto.
  - simpl. tauto.
  - apply mem_string_false. reflexivity.
  - apply mem_string_false. reflexivity.
  - vm_compute. now left.
  - right. exists School.t0. split; [reflexivity|].
    vm_compute. reflexivity.
Defined.

(* ------------------------------------------------------------------ *)
(** ** The report tables add up *)

Lemma total_ext_in {A} (f g : A -> Z) (l : list A) :
  (forall a, In a l -> f a = g a) -> total f l = total g l.
Proof.
  intros H. induction l as [|a l IH]; cbn [total fold_right]; [reflexivity|].
  fold (total f l). fold (total g l).
  rewrite (H a (or_introl eq_refl)), IH; [reflexivity|].
  intros b Hb. apply H. now right.
Qed.

Lemma total_map {A B} (f : B -> Z) (g : A -> B) (l : list A) :
  total f (map g l) = total (fun a => f (g a)) l.
Proof.
  induction l as [|a l IH]; cbn [total fold_right map]; [reflexivity|].
  fold (total f (map g l)). fold (total (fun a => f (g a)) l).
  now rewrite IH.
Qed.

Lemma total_plus {A} (f g : A -> Z) (l : list A) :
  total (fun a => f a + g a) l = total f l + total g l.
Proof.
  induction l as [|a l IH]; cbn [total fold_right]; [reflexivity|].
  fold (total (fun a => f a + g a) l). fold (total f l). fold (total g l).
  lia.
Qed.

Lemma total_zero {A} (l : list A) : total (fun _ => 0) l = 0.
Proof.
  induction l as [|a l IH]; cbn [total fold_right]; [reflexivity|].
  fold (total (fun _ : A => 0) l). lia.
Qed.

Lemma total_Permutation {A} (f : A -> Z) (l l' : list A) :
  Permutation l l' -> total f l = total f l'.
Proof.
  induction 1 as [|a l l' _ IH|a b l|l1 l2 l3 _ IH1 _ IH2];
    cbn [total fold_right].
  - reflexivity.
  - fold (total f l). fold (total f l'). lia.
  - lia.
  - congruence.
Qed.

(** Among keys without repetition, one key is hit once. *)
Lemma total_indicator (keys : list string) (x : string) :
  NoDup keys ->
  total (fun k => if String.eqb x k then 1 else 0) keys
  = if mem_string x keys then 1 else 0.
Proof.
  induction 1 as [|k keys Hk Hnd IH]; cbn [total fold_right]; [reflexivity|].
  fold (total (fun k => if String.eqb x k then 1 else 0) keys).
  rewrite IH. unfold mem_string. cbn [existsb].
  destruct (String.eqb_spec x k) as [->|Hne]; cbn [orb]; [|lia].
  fold (mem_string k keys).
  rewrite (proj2 (mem_string_false k keys) Hk). lia.
Qed.

Lemma count_cons {A} (f : A -> bool) (a : A) (l : list A) :
  count f (a :: l) = (if f a then 1 else 0) + count f l.
Proof.
  unfold count. cbn [filter]. destruct (f a); cbn [List.length]; lia.
Qed.

Lemma count_map {A B} (f : B -> bool) (g : A -> B) (l : list A) :
  count f (map g l) = count (fun a => f (g a)) l.
Proof.
  induction l as [|a l IH]; [reflexivity|].
  cbn [map]. now rewrite !count_cons, IH.
Qed.

Lemma count_filter {A} (f p : A -> bool) (l : list A) :
  count f (filter p l) = count (fun a => p a && f a) l.
Proof.
  unfold count. now rewrite filter_filter.
Qed.

Lemma count_all {A} (l : list A) :
  count (fun _ => true) l = Z.of_nat (List.length l).
Proof.
  unfold count. now rewrite filter_all.
Qed.

Lemma count_ext_in {A} (f g : A -> bool) (l : list A) :
  (forall a, In a l -> f a = g a) -> count f l = count g l.
Proof.
  intros H. unfold count. f_equal. f_equal. now apply filter_ext_in.
Qed.

(** Rows grouped under keys without repetition that cover them are each
    counted once. *)
Lemma total_counts {R} (key : R -> string) (p : R -> bool)
    (keys : list string) (l : list R) :
  NoDup keys ->
  (forall r, In r l -> p r = true -> In (key r) keys) ->
  total (fun k => count (fun r => String.eqb (key r) k && p r) l) keys
  = count p l.
Proof.
  intros Hnd. induction l as [|r l IH]; intros Hcov.
  - cbn. apply total_zero.
  - rewrite count_cons.
    rewrite (total_ext_in _
               (fun k => (if String.eqb (key r) k then
                            if p r then 1 else 0 else 0)
                         + count (fun r => String.eqb (key r) k && p r) l)).
    2:{ intros k _. rewrite count_cons.
        now destruct (String.eqb (key r) k), (p r). }
    rewrite total_plus, IH.
    2:{ intros r' Hr'. apply Hcov. now right. }
    f_equal. destruct (p r) eqn:Ep.
    + rewrite (total_indicator keys (key r) Hnd).
      rewrite (proj2 (mem_string_In _ _)); [reflexivity|].
      apply Hcov; [now left | exact Ep].
    + rewrite (total_ext_in _ (fun _ => 0)).
      * apply total_zero.
      * intros k _. now destruct (String.eqb (key r) k).
Qed.

(** The sum of a figure over the values of a map whose entries hold
    counts by key. *)
Lemma total_of_map {V R} (figure : V -> Z) (counted : string -> R -> bool)
    (m : list (string * V)) (done : list R) :
  (forall k d, In (k, d) m -> figure d = count (counted k) done) ->
  total figure (map snd m)
  = total (fun k => count (counted k) done) (map fst m).
Proof.
  intros H. rewrite !total_map. apply total_ext_in.
  intros [k d] Hin. cbn [fst snd]. now apply H.
Qed.

(** X19. The department table adds up: the totals of its rows sum to
    "Total Permintaan" and the approved counts to "Disetujui"; the rows come
    from the largest total to the smallest, one per department. *)
Theorem department_rows_add_up
    (s : session) (now : timestamptz) (db : database) :
  total DepartmentStats.totalRequests
    (Reports.departmentStats (Reports.fetchReportData s now db))
  = BorrowingStats.totalRequests
      (Reports.stats (Reports.fetchReportData s now db))
  /\ total DepartmentStats.approvedRequests
       (Reports.departmentStats (Reports.fetchReportData s now db))
     = BorrowingStats.approvedRequests
         (Reports.stats (Reports.fetchReportData s now db))
  /\ largest_first DepartmentStats.totalRequests
       (Reports.departmentStats (Reports.fetchReportData s now db))
  /\ NoDup (map DepartmentStats.jurusan
              (Reports.departmentStats (Reports.fetchReportData s now db))).
Proof.
  cbn [Reports.fetchReportData Reports.departmentStats Reports.stats
         Reports.overall BorrowingStats.totalRequests
         BorrowingStats.approvedRequests].
  unfold Reports.departments.
  set (records := Reports.deptStatsData s db).
  set (m := fold_left Reports.tally records []).
  pose proof (tally_all records [] [] tallied_nil) as [Hnd Hcnt Hcov].
  cbn [app] in Hcnt, Hcov. fold m in Hnd, Hcnt, Hcov.
  set (cmp := fun a b => DepartmentStats.totalRequests b
                         - DepartmentStats.totalRequests a).
  split; [|split; [|split]].
  - rewrite (total_Permutation _ _ _ (sort_Permutation cmp (map snd m))).
    rewrite (total_of_map DepartmentStats.totalRequests of_department m
               records).
    2:{ intros k d Hin. apply (Hcnt k d Hin). }
    rewrite (total_ext_in _
               (fun k => count (fun r => String.eqb (Reports.department_of r) k
                                         && true) records)).
    2:{ intros k _. apply count_ext. intros r. unfold of_department.
        now rewrite andb_true_r. }
    rewrite (total_counts Reports.department_of (fun _ => true) _ records Hnd).
    + rewrite count_all. unfold records, Reports.deptStatsData.
      now rewrite length_map.
    + intros r Hr _. now apply Hcov.
  - rewrite (total_Permutation _ _ _ (sort_Permutation cmp (map snd m))).
    rewrite (total_of_map DepartmentStats.approvedRequests
               approved_of_department m records).
    2:{ intros k d Hin. apply (Hcnt k d Hin). }
    rewrite (total_ext_in _
               (fun k => count (fun r => String.eqb (Reports.department_of r) k
                                         && is_value request_status_eqb
                                              (Reports.record_status r)
                                              approved) records)).
    2:{ intros k _. reflexivity. }
    rewrite (total_counts Reports.department_of
               (fun r => is_value request_status_eqb
                           (Reports.record_status r) approved)
               _ records Hnd).
    + unfold records, Reports.deptStatsData. rewrite count_map.
      reflexivity.
    + intros r Hr _. now apply Hcov.
  - apply sort_largest_first.
  - apply (Permutation_NoDup
             (Permutation_map DepartmentStats.jurusan
                (Permutation_sym (sort_Permutation cmp (map snd m))))).
    assert (E : map DepartmentStats.jurusan (map snd m) = map fst m).
    { rewrite map_map. apply map_ext_in. intros [k d] Hin.
      cbn [fst snd]. apply (Hcnt k d Hin). }
    now rewrite E.
Qed.

(* ------------------------------------------------------------------ *)
(** ** Item statistics *)

Section ItemTally.
Import Reports ReportTabs.

Lemma tally_item_without (m : Map ItemStats.t) (record : item_record) :
  record_items record = None -> tally_item m record = m.
Proof. intros H. unfold tally_item. now rewrite H. Qed.

Lemma tally_item_present (m : Map ItemStats.t) (record : item_record)
    (item : items.row) :
  record_items record = Some item ->
  Map_has (record_item_id record) m = true ->
  exists d0,
    In (record_item_id record, d0) m
    /\ tally_item m record
       = map (fun e => if String.eqb (fst e) (record_item_id record)
                       then (record_item_id record, bump_item d0) else e) m.
Proof.
  intros Hitem H. destruct (Map_get_present _ m H) as [d0 [Hget Hin]].
  exists d0. split; [exact Hin|].
  unfold tally_item. cbv zeta. rewrite Hitem, H. cbn [negb]. rewrite Hget.
  unfold Map_set. now rewrite H.
Qed.

Lemma tally_item_absent (m : Map ItemStats.t) (record : item_record)
    (item : items.row) :
  record_items record = Some item ->
  Map_has (record_item_id record) m = false ->
  tally_item m record
  = m ++ [(record_item_id record,
           bump_item (ItemStats.mk (items.name item) (items.type item) 0
                        (items.status item)))].
Proof.
  intros Hitem H. unfold tally_item. cbv zeta. rewrite Hitem, H. cbn [negb].
  set (k := record_item_id record) in *.
  set (d := ItemStats.mk (items.name item) (items.type item) 0
              (items.status item)).
  assert (H1 : Map_set k d m = m ++ [(k, d)]).
  { unfold Map_set. now rewrite H. }
  rewrite H1.
  assert (Hget : Map_get k (m ++ [(k, d)]) = Some d).
  { unfold Map_get. rewrite find_app, (Map_get_absent k m H).
    cbn. now rewrite String.eqb_refl. }
  rewrite Hget.
  assert (Hhas : Map_has k (m ++ [(k, d)]) = true).
  { apply Map_has_keys. rewrite map_app. apply in_or_app. right. now left. }
  unfold Map_set. rewrite Hhas, map_app. cbn [map fst].
  rewrite String.eqb_refl. f_equal.
  apply map_if_id. intros e He.
  destruct (String.eqb (fst e) k) eqn:E; [|reflexivity].
  apply String.eqb_eq in E.
  assert (Map_has k m = true).
  { apply Map_has_keys. rewrite <- E. now apply in_map. }
  congruence.
Qed.

Lemma tally_item_step (m : Map ItemStats.t) (done : list item_record)
    (record : item_record) :
  tallied_items m done -> tallied_items (tally_item m record) (done ++ [record]).
Proof.
  intros [Hnd Hcnt Hcov].
  set (k := record_item_id record).
  destruct (record_items record) as [item|] eqn:Hitem.
  2:{ rewrite (tally_item_without m record Hitem). constructor.
      - exact Hnd.
      - intros k' d' Hin. destruct (Hcnt k' d' Hin) as [Ht [H1 [it Hit]]].
        rewrite count_snoc. unfold of_item at 2. rewrite Hitem.
        cbn [truthy]. rewrite andb_false_r. repeat split; try lia.
        exists it. split; [|apply Hit]. apply in_or_app. left. apply Hit.
      - intros r Hr Htr. apply in_app_or in Hr.
        destruct Hr as [Hr | [<- | []]]; [now apply Hcov|].
        rewrite Hitem in Htr. discriminate. }
  assert (Hrec : record = mkitem_record k (Some item)).
  { destruct record as [k0 i0]. cbn in *. now subst. }
  destruct (Map_has k m) eqn:Hhas.
  - destruct (tally_item_present m record item Hitem Hhas)
      as [d0 [Hin0 Heq]].
    fold k in Hin0, Heq. rewrite Heq.
    assert (Hkeys : map fst
                      (map (fun e => if String.eqb (fst e) k
                                     then (k, bump_item d0) else e) m)
                    = map fst m).
    { rewrite map_map. apply map_ext. intros e.
      destruct (String.eqb_spec (fst e) k) as [E|E]; [now rewrite E|].
      reflexivity. }
    constructor.
    + match goal with
      | |- NoDup ?l =>
          replace l with (map fst m) by (symmetry; exact Hkeys)
      end.
      exact Hnd.
    + intros k' d' Hin. apply in_map_iff in Hin.
      destruct Hin as [[ke de] [He Hine]]. cbn [fst] in He.
      rewrite count_snoc.
      destruct (String.eqb_spec ke k) as [E|E].
      * injection He as <- <-. subst ke.
        destruct (Hcnt k d0 Hin0) as [Ht [H1 [it Hit]]].
        assert (Hof : of_item k record = true).
        { unfold of_item. fold k. rewrite String.eqb_refl, Hitem.
          reflexivity. }
        rewrite Hof. cbn [bump_item ItemStats.totalBorrowed
                            ItemStats.itemName ItemStats.itemType
                            ItemStats.currentStatus].
        repeat split; try lia.
        exists it. split; [|apply Hit]. apply in_or_app. left. apply Hit.
      * injection He as <- <-.
        destruct (Hcnt ke de Hine) as [Ht [H1 [it Hit]]].
        assert (Hof : of_item ke record = false).
        { unfold of_item. fold k.
          rewrite (proj2 (String.eqb_neq k ke)); [reflexivity | congruence]. }
        rewrite Hof. repeat split; try lia.
        exists it. split; [|apply Hit]. apply in_or_app. left. apply Hit.
    + intros r Hr Htr.
      match goal with
      | |- In _ ?l =>
          replace l with (map fst m) by (symmetry; exact Hkeys)
      end.
      apply in_app_or in Hr.
      destruct Hr as [Hr | [<- | []]].
      * now apply Hcov.
      * now apply Map_has_keys.
  - rewrite (tally_item_absent m record item Hitem Hhas). fold k.
    assert (Hnot : ~ In k (map fst m)).
    { intros Hin. apply Map_has_keys in Hin. congruence. }
    assert (Hzero : forall r, In r done -> of_item k r = false).
    { intros r Hr. unfold of_item.
      destruct (String.eqb_spec (record_item_id r) k) as [E|E];
        [|reflexivity].
      destruct (truthy (record_items r)) eqn:Htr; [|reflexivity].
      exfalso. apply Hnot. rewrite <- E. now apply Hcov. }
    constructor.
    + rewrite map_app. cbn [map fst]. now apply NoDup_snoc.
    + intros k' d' Hin. rewrite count_snoc.
      apply in_app_or in Hin. destruct Hin as [Hin | [Hin | []]].
      * destruct (Hcnt k' d' Hin) as [Ht [H1 [it Hit]]].
        assert (Hof : of_item k' record = false).
        { unfold of_item. fold k.
          rewrite (proj2 (String.eqb_neq k k')); [reflexivity|].
          intros E. apply Hnot. rewrite E.
          now apply (in_map fst m (k', d')). }
        rewrite Hof. repeat split; try lia.
        exists it. split; [|apply Hit]. apply in_or_app. left. apply Hit.
      * injection Hin as <- <-.
        assert (Hof : of_item k record = true).
        { unfold of_item. fold k. rewrite String.eqb_refl, Hitem.
          reflexivity. }
        rewrite Hof, (count_none _ _ Hzero).
        cbn [bump_item ItemStats.totalBorrowed ItemStats.itemName
               ItemStats.itemType ItemStats.currentStatus].
        repeat split; try lia.
        exists item. split; [|now repeat split].
        apply in_or_app. right. left. now symmetry.
    + intros r Hr Htr. rewrite map_app. apply in_or_app.
      apply in_app_or in Hr. destruct Hr as [Hr | [<- | []]].
      * left. now apply Hcov.
      * right. now left.
Qed.

Lemma tally_item_all (rest done : list item_record) (m : Map ItemStats.t) :
  tallied_items m done ->
  tallied_items (fold_left tally_item rest m) (done ++ rest).
Proof.
  revert done m. induction rest as [|record rest IH]; intros done m H.
  - now rewrite app_nil_r.
  - cbn [fold_left].
    replace (done ++ record :: rest) with ((done ++ [record]) ++ rest)
      by (now rewrite <- app_assoc).
    apply IH. now apply tally_item_step.
Qed.

Lemma tallied_items_nil : tallied_items [] [].
Proof.
  constructor.
  - constructor.
  - intros k d [].
  - intros r [].
Qed.

End ItemTally.

(** With the references of the schema in place, every record of the item
    query carries its item. *)
Lemma item_record_resolves (s : session) (db : database)
    (r : borrowing_requests.row) :
  integrity db = true -> In r (select_borrowing_requests s db) ->
  exists it,
    find (fun i => String.eqb (items.id i) (borrowing_requests.item_id r))
         (select_items s db) = Some it
    /\ items.id it = borrowing_requests.item_id r
    /\ In it (tbl_items db).
Proof.
  intros Hi Hr. unfold select_borrowing_requests, rls_select in Hr.
  apply filter_In in Hr. destruct Hr as [Hr _].
  destruct (embed_resolves s db r Hi Hr) as [it [_ [Eit [Hid [Hin _]]]]].
  exists it. now repeat split.
Qed.

(** X20. The item table of the report.  With the references of the schema
    in place, every row stands for an item of the database, shows its name,
    type and stored status, and counts the approved requests for it that
    the caller may read, at least one; the counts sum to "Disetujui", and
    the rows come from the largest count to the smallest. *)
Theorem item_rows_count_approved_requests
    (s : session) (now : timestamptz) (db : database)
    (Hintegrity : integrity db = true) :
  (forall row,
      In row (ReportTabs.itemStats (ReportTabs.itemStatsData s db)) ->
      1 <= ItemStats.totalBorrowed row
      /\ exists it,
          In it (tbl_items db)
          /\ ItemStats.itemName row = items.name it
          /\ ItemStats.itemType row = items.type it
          /\ ItemStats.currentStatus row = items.status it
          /\ ItemStats.totalBorrowed row
             = count (fun r => Reports.is_approved r
                               && String.eqb (borrowing_requests.item_id r)
                                    (items.id it))
                     (select_borrowing_requests s db))
  /\ total ItemStats.totalBorrowed
       (ReportTabs.itemStats (ReportTabs.itemStatsData s db))
     = BorrowingStats.approvedRequests
         (Reports.stats (Reports.fetchReportData s now db))
  /\ largest_first ItemStats.totalBorrowed
       (ReportTabs.itemStats (ReportTabs.itemStatsData s db)).
Proof.
  unfold ReportTabs.itemStats.
  set (visible := select_borrowing_requests s db).
  set (g := fun r => ReportTabs.mkitem_record (borrowing_requests.item_id r)
                       (find (fun i => String.eqb (items.id i)
                                         (borrowing_requests.item_id r))
                             (select_items s db))).
  assert (Edata : ReportTabs.itemStatsData s db
                  = map g (filter Reports.is_approved visible))
    by reflexivity.
  set (data := ReportTabs.itemStatsData s db) in *.
  set (m := fold_left ReportTabs.tally_item data []).
  pose proof (tally_item_all data [] [] tallied_items_nil) as [Hnd Hcnt Hcov].
  cbn [app] in Hcnt, Hcov. fold m in Hnd, Hcnt, Hcov.
  set (cmp := fun a b => ItemStats.totalBorrowed b - ItemStats.totalBorrowed a).
  assert (Hres : forall r, In r visible ->
             exists it, ReportTabs.record_items (g r) = Some it
                        /\ items.id it = borrowing_requests.item_id r
                        /\ In it (tbl_items db)).
  { intros r Hr. now apply item_record_resolves. }
  assert (Hof : forall k, count (of_item k) data
                          = count (fun r => Reports.is_approved r
                                            && String.eqb
                                                 (borrowing_requests.item_id r)
                                                 k) visible).
  { intros k. rewrite Edata, count_map, count_filter.
    apply count_ext_in. intros r Hr. f_equal.
    destruct (Hres r Hr) as [it [Eit _]].
    unfold of_item. rewrite Eit. cbn [truthy ReportTabs.record_item_id g].
    now rewrite andb_true_r. }
  split; [|split].
  - intros row Hrow. apply sort_In, in_map_iff in Hrow.
    destruct Hrow as [[k d] [Hd Hin]]. cbn [snd] in Hd. subst d.
    destruct (Hcnt k row Hin) as [Ht [H1 [item [Hrec [Hn [Hty Hst]]]]]].
    split; [exact H1|].
    rewrite Edata in Hrec. apply in_map_iff in Hrec.
    destruct Hrec as [r [Hg Hr]]. apply filter_In in Hr.
    destruct Hr as [Hr _]. destruct (Hres r Hr) as [it [Eit [Hid Hit]]].
    unfold g in Hg. injection Hg as Hk Hfind.
    unfold g in Eit. cbn [ReportTabs.record_items] in Eit.
    assert (item = it) by congruence. subst item.
    exists it. repeat split; try assumption.
    rewrite Ht, Hof. now rewrite Hid, Hk.
  - rewrite (total_Permutation _ _ _ (sort_Permutation cmp (map snd m))).
    rewrite (total_of_map ItemStats.totalBorrowed of_item m data).
    2:{ intros k d Hin. apply (Hcnt k d Hin). }
    rewrite (total_ext_in _
               (fun k => count (fun r => String.eqb
                                           (ReportTabs.record_item_id r) k
                                         && truthy (ReportTabs.record_items r))
                               data)).
    2:{ intros k _. reflexivity. }
    rewrite (total_counts ReportTabs.record_item_id
               (fun r => truthy (ReportTabs.record_items r)) _ data Hnd).
    2:{ intros r Hr Htr. now apply Hcov. }
    rewrite Edata, count_map, count_filter.
    cbn [Reports.fetchReportData Reports.stats Reports.overall
           BorrowingStats.approvedRequests].
    apply count_ext_in. intros r Hr.
    destruct (Hres r Hr) as [it [Eit _]]. rewrite Eit.
    cbn [truthy]. now rewrite andb_true_r.
  - apply sort_largest_first.
Qed.

(** The request for the key is approved: the item table of the report has
    the one row of the key, and its count is the number of approved
    requests. *)
Lemma item_rows_count_approved_requests_witness :
  total ItemStats.totalBorrowed
    (ReportTabs.itemStats
       (ReportTabs.itemStatsData (mksession (Some School.id_admin) School.t0)
          (School.db dipinjam approved)))
  = BorrowingStats.approvedRequests
      (Reports.stats
         (Reports.fetchReportData (mksession (Some School.id_admin) School.t0)
            School.t0 (School.db dipinjam approved))).
Proof.
  refine (proj1 (proj2 (item_rows_count_approved_requests
                          (mksession (Some School.id_admin) School.t0)
                          School.t0 (School.db dipinjam approved) _))).
  reflexivity.
Defined.

(* ------------------------------------------------------------------ *)
(** ** The history of the report page *)

(** X21. The history of the report.  It has the 50 latest requests by
    [requested_at] (all of them if there are fewer), latest first.  With the
    references of the schema in place every row shows the borrower's name
    and the item's name ("Unknown" only for an empty name), the borrower's
    NIM/NIP ("-" if missing or empty) and department ("-" if missing). *)
Theorem recent_activities_history
    (s : session) (db : database)
    (Hintegrity : integrity db = true) :
  List.length (ReportTabs.recentActivities s db)
  = Nat.min 50 (List.length (select_borrowing_requests s db))
  /\ newest_first RecentActivity.requestedAt (ReportTabs.recentActivities s db)
  /\ (forall a, In a (ReportTabs.recentActivities s db) ->
        exists r p it,
          In r (select_borrowing_requests s db)
          /\ In p (tbl_profiles db)
          /\ profiles.id p = borrowing_requests.borrower_id r
          /\ In it (tbl_items db)
          /\ items.id it = borrowing_requests.item_id r
          /\ RecentActivity.id a = borrowing_requests.id r
          /\ RecentActivity.purpose a = borrowing_requests.purpose r
          /\ RecentActivity.status a = borrowing_requests.status r
          /\ RecentActivity.startTime a = borrowing_requests.start_time r
          /\ RecentActivity.endTime a = borrowing_requests.end_time r
          /\ RecentActivity.borrowerName a
             = (if falsy (profiles.full_name p) then "Unknown"
                else profiles.full_name p)
          /\ RecentActivity.itemName a
             = (if falsy (items.name it) then "Unknown" else items.name it)
          /\ RecentActivity.nim_nip a
             = ReportTabs.or_default (profiles.nim_nip p) "-"
          /\ RecentActivity.jurusan a
             = match profiles.jurusan p with
               | Some j => jurusan_text j
               | None => "-"
               end).
Proof.
  unfold ReportTabs.recentActivities, ReportTabs.activitiesData.
  set (sorted := sort _ (select_borrowing_requests s db)).
  assert (Hsorted : newest_first borrowing_requests.requested_at sorted)
    by apply sort_newest_first.
  destruct (StronglySorted_firstn _ 50 sorted Hsorted) as [Hfirst _].
  split; [|split].
  - rewrite !length_map, length_firstn. unfold sorted.
    now rewrite sort_length.
  - unfold newest_first. rewrite map_map.
    apply (StronglySorted_map
             (fun a b => desc (RecentActivity.requestedAt a)
                              (RecentActivity.requestedAt b) <= 0)
             (fun r => ReportTabs.activity (embed s db r))).
    exact Hfirst.
  - intros a Ha. apply in_map_iff in Ha. destruct Ha as [x [<- Hx]].
    apply in_map_iff in Hx. destruct Hx as [r [<- Hr]].
    apply In_firstn in Hr. apply sort_In in Hr.
    assert (Hr' : In r (tbl_borrowing_requests db)).
    { unfold select_borrowing_requests, rls_select in Hr.
      now apply filter_In in Hr. }
    destruct (embed_resolves s db r Hintegrity Hr')
      as [it [p [Eit [Hid [Hit [Ep [Hpid Hp]]]]]]].
    exists r, p, it. unfold ReportTabs.activity. rewrite Eit, Ep.
    cbn [columns embed option_map ReportTabs.or_default RecentActivity.id
           RecentActivity.purpose RecentActivity.status
           RecentActivity.startTime RecentActivity.endTime
           RecentActivity.borrowerName RecentActivity.itemName
           RecentActivity.nim_nip RecentActivity.jurusan].
    repeat split; try assumption.
    destruct (profiles.jurusan p) as [[]|]; reflexivity.
Qed.

(** The admin of the small school opens the history: one row, of the one
    request. *)
Lemma recent_activities_history_witness :
  List.length
    (ReportTabs.recentActivities (mksession (Some School.id_admin) School.t0)
       (School.db tersedia pending))
  = Nat.min 50
      (List.length
         (select_borrowing_requests
            (mksession (Some School.id_admin) School.t0)
            (School.db tersedia pending))).
Proof.
  refine (proj1 (recent_activities_history
                   (mksession (Some School.id_admin) School.t0)
                   (School.db tersedia pending) _)).
  reflexivity.
Defined.

(* ------------------------------------------------------------------ *)
(** ** The figures of the report page *)

(** A percentage of a part in a whole lies between 0 and 100, and is exact
    at both ends. *)
Lemma rounded_percentage_bounds (a t : Z) :
  0 <= a <= t -> 1 <= t <= 2 ^ 43 ->
  exists p,
    rounded_percentage a t = Some p
    /\ 0 <= p <= 100
    /\ (a = 0 -> p = 0)
    /\ (a = t -> p = 100).
Proof.
  intros Ha Ht.
  destruct (rounded_percentage_spec a t Ha Ht) as [p [E Hp]].
  exists p. split; [exact E|]. clear E.
  unfold specified_percentage in Hp.
  assert (Et : (t =? 0) = false) by (apply Z.eqb_neq; lia).
  rewrite Et in Hp. clear Et.
  destruct Ht as [Ht _].
  assert (Hq0 : 0 <= (200 * a + t) / (2 * t)) by (apply Z.div_pos; lia).
  assert (Hq1 : (200 * a + t) / (2 * t) < 101)
    by (apply Z.div_lt_upper_bound; lia).
  assert (Hzero : a = 0 -> (200 * a + t) / (2 * t) = 0).
  { intros ->. apply Z.div_small. lia. }
  assert (Hfull : a = t -> (200 * a + t) / (2 * t) = 100).
  { intros ->. symmetry. apply (Z.div_unique _ _ 100 t); lia. }
  destruct Hp as [-> | [Htie ->]].
  - repeat split; try lia; assumption.
  - assert (Hd : (200 * a + t) / (2 * t) = 200 * a / (2 * t) + 1).
    { pose proof (Z.div_mod (200 * a) (2 * t) ltac:(lia)) as Hdm.
      rewrite Htie in Hdm. symmetry.
      apply (Z.div_unique _ _ (200 * a / (2 * t) + 1) 0); lia. }
    assert (Hd0 : 0 <= 200 * a / (2 * t)) by (apply Z.div_pos; lia).
    repeat split; try lia.
    intros ->. exfalso.
    replace (200 * t) with (100 * (2 * t)) in Htie by lia.
    rewrite Z.mod_mul in Htie; lia.
Qed.

Lemma count_disjoint {A} (f g : A -> bool) (l : list A) :
  (forall a, f a = true -> g a = false) ->
  count f l + count g l <= Z.of_nat (List.length l).
Proof.
  intros H. induction l as [|a l IH]; [cbn; lia|].
  rewrite !count_cons. cbn [List.length].
  destruct (f a) eqn:Ef; [rewrite (H a Ef)|destruct (g a)]; lia.
Qed.

Lemma count_covered {A} (f g h : A -> bool) (l : list A) :
  (forall a, f a = true -> g a || h a = true) ->
  count f l <= count g l + count h l.
Proof.
  intros H. induction l as [|a l IH]; [cbn; lia|].
  rewrite !count_cons.
  destruct (f a) eqn:Ef.
  - specialize (H a Ef). destruct (g a), (h a); try discriminate; lia.
  - destruct (g a), (h a); lia.
Qed.

(** X22. The percentages of the report ("Disetujui", "Ditolak" and every
    department's rate) are integers from 0 to 100, for up to [2 ^ 43]
    requests.  All requests approved gives 100, none approved 0, none
    rejected 0. *)
Theorem report_percentages_within_bounds
    (s : session) (now : timestamptz) (db : database)
    (Hsize : BorrowingStats.totalRequests
               (Reports.stats (Reports.fetchReportData s now db))
             <= 2 ^ 43) :
  (exists p,
      Reports.approved_percentage
        (Reports.stats (Reports.fetchReportData s now db)) = Some p
      /\ 0 <= p <= 100)
  /\ (exists p,
         ReportTabs.rejected_percentage
           (Reports.stats (Reports.fetchReportData s now db)) = Some p
         /\ 0 <= p <= 100)
  /\ (forall dept,
         In dept (Reports.departmentStats (Reports.fetchReportData s now db))
         -> exists p,
              Reports.department_percentage dept = Some p /\ 0 <= p <= 100)
  /\ (0 < BorrowingStats.totalRequests
            (Reports.stats (Reports.fetchReportData s now db)) ->
      BorrowingStats.approvedRequests
        (Reports.stats (Reports.fetchReportData s now db))
      = BorrowingStats.totalRequests
          (Reports.stats (Reports.fetchReportData s now db)) ->
      Reports.approved_percentage
        (Reports.stats (Reports.fetchReportData s now db)) = Some 100)
  /\ (BorrowingStats.approvedRequests
        (Reports.stats (Reports.fetchReportData s now db)) = 0 ->
      Reports.approved_percentage
        (Reports.stats (Reports.fetchReportData s now db)) = Some 0)
  /\ (BorrowingStats.rejectedRequests
        (Reports.stats (Reports.fetchReportData s now db)) = 0 ->
      ReportTabs.rejected_percentage
        (Reports.stats (Reports.fetchReportData s now db)) = Some 0).
Proof.
  cbn [Reports.fetchReportData Reports.stats Reports.departmentStats
         Reports.overall BorrowingStats.totalRequests
         BorrowingStats.approvedRequests BorrowingStats.rejectedRequests]
    in *.
  set (rows := select_borrowing_requests s db) in *.
  set (rej := fun r => is_value request_status_eqb
                         (borrowing_requests.status r) rejected).
  assert (Happ : 0 <= count Reports.is_approved rows
                 <= Z.of_nat (List.length rows))
    by (split; [apply count_nonneg | apply count_le_length]).
  assert (Hrej : 0 <= count rej rows <= Z.of_nat (List.length rows))
    by (split; [apply count_nonneg | apply count_le_length]).
  unfold Reports.approved_percentage, ReportTabs.rejected_percentage,
    Reports.overall.
  cbn [BorrowingStats.totalRequests BorrowingStats.approvedRequests
         BorrowingStats.rejectedRequests].
  fold rej.
  destruct (Z.ltb_spec 0 (Z.of_nat (List.length rows))) as [Hpos|Hzero].
  - assert (Hone : 1 <= Z.of_nat (List.length rows)) by lia.
    destruct (rounded_percentage_bounds _ _ Happ (conj Hone Hsize))
      as [p [Ep [Bp [Zp Fp]]]].
    destruct (rounded_percentage_bounds _ _ Hrej (conj Hone Hsize))
      as [q [Eq [Bq [Zq _]]]].
    split; [now exists p|]. split; [now exists q|].
    split; [|split; [|split]].
    + intros dept Hdept.
      destruct (departments_tallied _ dept Hdept) as [H1 [Ht Ha]].
      unfold Reports.department_percentage.
      destruct (rounded_percentage_bounds
                  (DepartmentStats.approvedRequests dept)
                  (DepartmentStats.totalRequests dept))
        as [d [Ed [Bd _]]].
      * rewrite Ha, Ht. split; [apply count_nonneg|].
        apply count_mono. intros r Hr. unfold approved_of_department in Hr.
        now apply andb_true_iff in Hr.
      * split; [exact H1|]. rewrite Ht.
        pose proof (count_le_length
                      (of_department (DepartmentStats.jurusan dept))
                      (Reports.deptStatsData s db)) as Hle.
        unfold Reports.deptStatsData in Hle at 2.
        rewrite length_map in Hle. fold rows in Hle. lia.
      * now exists d.
    + intros _ Efull. rewrite Ep. f_equal. now apply Fp.
    + intros Ez. rewrite Ep. f_equal. now apply Zp.
    + intros Ez. rewrite Eq. f_equal. now apply Zq.
  - split; [exists 0; split; [reflexivity | lia]|].
    split; [exists 0; split; [reflexivity | lia]|].
    split; [|split; [|split]].
    + intros dept Hdept.
      destruct (departments_tallied _ dept Hdept) as [H1 [Ht Ha]].
      exfalso.
      pose proof (count_le_length
                    (of_department (DepartmentStats.jurusan dept))
                    (Reports.deptStatsData s db)) as Hle.
      unfold Reports.deptStatsData in Hle at 2.
      rewrite length_map in Hle. fold rows in Hle. lia.
    + intros Hp. lia.
    + reflexivity.
    + reflexivity.
Qed.

(** One request, approved: 100% approved and 0% rejected. *)
Lemma report_percentages_within_bounds_witness :
  Reports.approved_percentage
    (Reports.stats
       (Reports.fetchReportData (mksession (Some School.id_admin) School.t0)
          School.t0 (School.db dipinjam approved))) = Some 100.
Proof.
  refine (proj1 (proj2 (proj2 (proj2
            (report_percentages_within_bounds
               (mksession (Some School.id_admin) School.t0) School.t0
               (School.db dipinjam approved) _)))) _ _).
  - vm_compute. discriminate.
  - reflexivity.
  - reflexivity.
Defined.

(** X23. The figures of the report are consistent: overdue loans are
    active loans, active loans are approved requests, an approved request
    is an active loan or counted as returned, approved and rejected
    requests together do not exceed the total; and with the same data the
    overdue figure can only grow as time passes. *)
Theorem report_figures_are_ordered
    (s : session) (now later : timestamptz) (db : database) :
  0 <= BorrowingStats.overdueItems
         (Reports.stats (Reports.fetchReportData s now db))
  /\ BorrowingStats.overdueItems
       (Reports.stats (Reports.fetchReportData s now db))
     <= BorrowingStats.activeLoans
          (Reports.stats (Reports.fetchReportData s now db))
  /\ BorrowingStats.activeLoans
       (Reports.stats (Reports.fetchReportData s now db))
     <= BorrowingStats.approvedRequests
          (Reports.stats (Reports.fetchReportData s now db))
  /\ BorrowingStats.approvedRequests
       (Reports.stats (Reports.fetchReportData s now db))
     <= BorrowingStats.activeLoans
          (Reports.stats (Reports.fetchReportData s now db))
        + BorrowingStats.returnedItems
            (Reports.stats (Reports.fetchReportData s now db))
  /\ BorrowingStats.approvedRequests
       (Reports.stats (Reports.fetchReportData s now db))
     + BorrowingStats.rejectedRequests
         (Reports.stats (Reports.fetchReportData s now db))
     <= BorrowingStats.totalRequests
          (Reports.stats (Reports.fetchReportData s now db))
  /\ (now <= later ->
      BorrowingStats.overdueItems
        (Reports.stats (Reports.fetchReportData s now db))
      <= BorrowingStats.overdueItems
           (Reports.stats (Reports.fetchReportData s later db))).
Proof.
  cbn [Reports.fetchReportData Reports.stats Reports.overall
         BorrowingStats.totalRequests BorrowingStats.approvedRequests
         BorrowingStats.rejectedRequests BorrowingStats.activeLoans
         BorrowingStats.returnedItems BorrowingStats.overdueItems].
  set (rows := select_borrowing_requests s db).
  repeat split.
  - apply count_nonneg.
  - apply count_mono. intros r Hr. now apply andb_true_iff in Hr.
  - apply count_mono. intros r Hr. now apply andb_true_iff in Hr.
  - apply count_covered. intros r Hr. rewrite Hr.
    now destruct (truthy (borrowing_requests.returned_at r)).
  - apply count_disjoint. intros r. unfold Reports.is_approved, is_value.
    now destruct (borrowing_requests.status r) as [[]|].
  - intros Hle. apply count_mono. intros r Hr.
    apply andb_true_iff in Hr. destruct Hr as [Hr Hend]. rewrite Hr.
    apply Z.ltb_lt in Hend. apply Z.ltb_lt. lia.
Qed.

(* ------------------------------------------------------------------ *)
(** ** The menu *)

(** X24. The menu.  Admin and guru get the four entries, a student gets
    "Dashboard" and "Daftar Item", any other role or none gets an empty
    menu; "Permintaan" and "Laporan" are offered to admin and guru
    only. *)
Theorem menu_by_role (userRole : option string) :
  map DashboardLayout.path (DashboardLayout.filteredMenuItems userRole)
  = (if is_value String.eqb userRole "admin"
        || is_value String.eqb userRole "guru"
     then ["/dashboard"; "/items"; "/requests"; "/reports"]
     else if is_value String.eqb userRole "siswa"
          then ["/dashboard"; "/items"]
          else [])
  /\ (In "/requests"
         (map DashboardLayout.path (DashboardLayout.filteredMenuItems userRole))
      <-> userRole = Some "admin" \/ userRole = Some "guru")
  /\ (In "/reports"
         (map DashboardLayout.path (DashboardLayout.filteredMenuItems userRole))
      <-> userRole = Some "admin" \/ userRole = Some "guru").
Proof.
  assert (E : map DashboardLayout.path
                (DashboardLayout.filteredMenuItems userRole)
              = (if is_value String.eqb userRole "admin"
                    || is_value String.eqb userRole "guru"
                 then ["/dashboard"; "/items"; "/requests"; "/reports"]
                 else if is_value String.eqb userRole "siswa"
                      then ["/dashboard"; "/items"]
                      else [])).
  { unfold DashboardLayout.filteredMenuItems, DashboardLayout.menuItems.
    destruct userRole as [r|]; [|reflexivity].
    cbn [is_value filter DashboardLayout.roles mem_string existsb].
    destruct (String.eqb_spec r "admin") as [->|Ha]; [reflexivity|].
    destruct (String.eqb_spec r "guru") as [->|Hg]; [reflexivity|].
    destruct (String.eqb_spec r "siswa") as [->|Hs]; reflexivity. }
  split; [exact E|]. rewrite E.
  destruct userRole as [r|]; cbn [is_value].
  - destruct (String.eqb_spec r "admin") as [->|Ha].
    + cbn. intuition.
    + destruct (String.eqb_spec r "guru") as [->|Hg].
      * cbn. intuition.
      * cbn [orb].
        assert (Hno : ~ (Some r = Some "admin" \/ Some r = Some "guru"))
          by (intros [H|H]; injection H; congruence).
        destruct (String.eqb r "siswa"); cbn; intuition; discriminate.
  - cbn. intuition; discriminate.
Qed.

(* ------------------------------------------------------------------ *)
(** ** Seeding *)

Lemma unique_NoDup (l : list string) :
  unique String.eqb l = true -> NoDup l.
Proof.
  induction l as [|x l IH]; cbn [unique]; intros H; constructor.
  - apply andb_true_iff in H. destruct H as [H _].
    apply negb_true_iff in H. fold (mem_string x l) in H.
    now apply mem_string_false.
  - apply IH. now apply andb_true_iff in H.
Qed.

(** Every student account of a study programme is built from its NIM. *)
Lemma mahasiswa_of_shape (prodi : string) (j : jurusan) (classes : Z)
    (a : seed_account.t) :
  In a (seed.mahasiswa_of prodi j classes) ->
  seed_account.email a
  = (toLowerCase_ascii (seed_account.nim_nip a) ++ "@student.ac.id")%string
  /\ seed_account.role a = siswa
  /\ seed_account.password a = "password123"
  /\ seed_account.jurusan a = Some j.
Proof.
  unfold seed.mahasiswa_of. intros Ha.
  apply in_flat_map in Ha. destruct Ha as [tahun [_ Ha]].
  apply in_flat_map in Ha. destruct Ha as [kelas [_ Ha]].
  apply in_map_iff in Ha. destruct Ha as [i [<- _]].
  repeat split.
Qed.

Lemma mahasiswa_shape (a : seed_account.t) :
  In a seed.mahasiswa ->
  seed_account.email a
  = (toLowerCase_ascii (seed_account.nim_nip a) ++ "@student.ac.id")%string
  /\ seed_account.role a = siswa
  /\ seed_account.password a = "password123".
Proof.
  unfold seed.mahasiswa. intros Ha.
  apply in_app_or in Ha. destruct Ha as [Ha|Ha];
    [|apply in_app_or in Ha; destruct Ha as [Ha|Ha]];
    apply mahasiswa_of_shape in Ha; tauto.
Qed.

(** X25. The accounts the seeding function asks for have pairwise
    different e-mail addresses and pairwise different NIM/NIP, as the
    UNIQUE constraints of profiles demand; their numbers are those of the
    response (2, 5, 240); the 26 items have pairwise different names; and
    every student's address is the NIM in lower case at student.ac.id. *)
Theorem seeded_accounts_are_distinct_and_counted :
  NoDup (map seed_account.email seed.accounts)
  /\ NoDup (map seed_account.nim_nip seed.accounts)
  /\ Z.of_nat (List.length seed.admins)
     = seed.stats_admins seed.response_stats
  /\ Z.of_nat (List.length seed.dosen) = seed.stats_dosen seed.response_stats
  /\ Z.of_nat (List.length seed.mahasiswa)
     = seed.stats_mahasiswa seed.response_stats
  /\ seed.stats_items seed.response_stats = 26
  /\ NoDup (map seed_item.name seed.itemsData)
  /\ (forall a, In a seed.mahasiswa ->
        seed_account.email a
        = (toLowerCase_ascii (seed_account.nim_nip a) ++ "@student.ac.id")%string
        /\ seed_account.role a = siswa).
Proof.
  split; [apply unique_NoDup; vm_compute; reflexivity|].
  split; [apply unique_NoDup; vm_compute; reflexivity|].
  split; [reflexivity|]. split; [reflexivity|].
  split; [vm_compute; reflexivity|]. split; [vm_compute; reflexivity|].
  split; [apply unique_NoDup; vm_compute; reflexivity|].
  intros a Ha. apply mahasiswa_shape in Ha. tauto.
Qed.

(** X26. Of the three demo logins named on the login page, the seeding
    function creates the admin's only: no account has the address of the
    "Guru" or of the "Siswa" line.  Every seeded account has the password
    named there. *)
Theorem demo_logins_and_seeded_accounts :
  map (fun d => (fst d,
                 existsb (fun a => String.eqb (seed_account.email a) (snd d)
                                   && String.eqb (seed_account.password a)
                                        demo_password)
                         seed.accounts))
      demo_logins
  = [("Admin", true); ("Guru", false); ("Siswa", false)]
  /\ (forall a, In a seed.accounts -> seed_account.password a = demo_password).
Proof.
  split; [vm_compute; reflexivity|].
  intros a Ha. unfold seed.accounts in Ha.
  apply in_app_or in Ha. destruct Ha as [Ha|Ha].
  { cbn in Ha. destruct Ha as [<- | [<- | []]]; reflexivity. }
  apply in_app_or in Ha. destruct Ha as [Ha|Ha].
  { unfold seed.dosen in Ha. apply in_map_iff in Ha.
    destruct Ha as [[[e n] p] [<- _]]. reflexivity. }
  apply mahasiswa_shape in Ha. apply Ha.
Qed.
